(** * Reorder engine of quickcommerce-inventory-management

    A shallow embedding of [src/utils/calculations.js]: the item validator,
    the depletion estimator, the reorder-suggestion generator, the shopping
    list optimizer, the savings calculators and the batch planner of
    [generateSmartReorderPlan], followed by the properties the specification
    states about them.

    Conventions of the embedding.
    - An inventory record is JSON-like data: a field is absent ([None], which
      is what JavaScript reads as [undefined]) or holds a value of its type;
      a numeric field holds a finite number (a rational, [Q]).  The [typeof]
      and [isNaN] tests of the validator are therefore decided by the field's
      type, and [JSON.parse(JSON.stringify(x))] is the identity.  The
      validator on records whose fields hold any value is [Raw.validateItem];
      it agrees with [validateItem] on the typed records.
    - The results of arithmetic live in [number]: a finite rational, [NaN] or
      an infinity.  Finite arithmetic is exact: the rounding of binary64 is
      not modelled, and [-0] is identified with [0].  A product, quotient or
      sum of the code can therefore differ from the model's in its last bit,
      and [Math.ceil] of a quotient by one.
    - Code that can throw returns an [outcome]; [try]/[catch] is a match. *)

From Stdlib Require Import ZArith QArith Qround Qminmax Bool List String Ascii.
From Stdlib Require Import DecimalString.
From Stdlib Require Import Lia Lqa Permutation Sorted.
Import ListNotations.

Set Implicit Arguments.

(* ================================================================== *)
(** ** JavaScript numbers *)

Module JsNum.

Inductive number : Type :=
| NaN
| PInf
| NInf
| Fin (q : Q).

(** [ToNumber] of a numeric field: [undefined] becomes [NaN]. *)
Definition of_field (v : option Q) : number :=
  match v with
  | Some q => Fin q
  | None => NaN
  end.

Definition Qlt_bool (a b : Q) : bool := negb (Qle_bool b a).

Definition is_zero (q : Q) : bool := Qeq_bool q 0.
Definition is_pos (q : Q) : bool := Qlt_bool 0 q.
Definition is_neg (q : Q) : bool := Qlt_bool q 0.

Definition neg (n : number) : number :=
  match n with
  | NaN => NaN
  | PInf => NInf
  | NInf => PInf
  | Fin q => Fin (- q)
  end.

Definition add (a b : number) : number :=
  match a, b with
  | NaN, _ | _, NaN => NaN
  | PInf, NInf | NInf, PInf => NaN
  | PInf, _ | _, PInf => PInf
  | NInf, _ | _, NInf => NInf
  | Fin x, Fin y => Fin (x + y)
  end.

Definition sub (a b : number) : number := add a (neg b).

(** An infinity times a finite number: the sign decides, [0] gives [NaN]. *)
Definition scale_inf (positive : bool) (q : Q) : number :=
  if is_zero q then NaN
  else if Bool.eqb positive (is_pos q) then PInf else NInf.

Definition mul (a b : number) : number :=
  match a, b with
  | NaN, _ | _, NaN => NaN
  | PInf, PInf | NInf, NInf => PInf
  | PInf, NInf | NInf, PInf => NInf
  | PInf, Fin q | Fin q, PInf => scale_inf true q
  | NInf, Fin q | Fin q, NInf => scale_inf false q
  | Fin x, Fin y => Fin (x * y)
  end.

(** Division: a finite number over [0] is an infinity ([0 / 0] is [NaN]),
    a finite number over an infinity is [0]. *)
Definition div (a b : number) : number :=
  match a, b with
  | NaN, _ | _, NaN => NaN
  | (PInf | NInf), (PInf | NInf) => NaN
  | PInf, Fin q => if is_neg q then NInf else PInf
  | NInf, Fin q => if is_neg q then PInf else NInf
  | Fin _, (PInf | NInf) => Fin 0
  | Fin x, Fin y =>
      if is_zero y then
        if is_zero x then NaN else if is_pos x then PInf else NInf
      else Fin (x / y)
  end.

(** The relational operators: every comparison with [NaN] is [false]. *)
Definition le (a b : number) : bool :=
  match a, b with
  | NaN, _ | _, NaN => false
  | NInf, _ | _, PInf => true
  | PInf, _ | _, NInf => false
  | Fin x, Fin y => Qle_bool x y
  end.

Definition lt (a b : number) : bool :=
  match a, b with
  | NaN, _ | _, NaN => false
  | PInf, _ | _, NInf => false
  | NInf, _ | _, PInf => true
  | Fin x, Fin y => Qlt_bool x y
  end.

Definition gt (a b : number) : bool := lt b a.

(** [===] on numbers. *)
Definition strict_eq (a b : number) : bool :=
  match a, b with
  | PInf, PInf | NInf, NInf => true
  | Fin x, Fin y => Qeq_bool x y
  | _, _ => false
  end.

(** [Math.ceil]. *)
Definition ceil (n : number) : number :=
  match n with
  | Fin q => Fin (inject_Z (Qceiling q))
  | other => other
  end.

(** A finite whole number that is at least [k]. *)
Definition integer_at_least (k : Z) (n : number) : Prop :=
  exists z : Z, n = Fin (inject_Z z) /\ (k <= z)%Z.

End JsNum.

Import JsNum.

(** [Math.max] and [Math.ceil] on finite numbers. *)
Definition Math_max (a b : Q) : Q := if Qle_bool a b then b else a.
Definition Math_ceil (q : Q) : Q := inject_Z (Qceiling q).

(* ================================================================== *)
(** ** JavaScript values that a flag can hold *)

Inductive value : Type :=
| VUndefined
| VBool (b : bool)
| VStr (s : string).

Definition str_truthy (s : string) : bool :=
  match s with
  | EmptyString => false
  | _ => true
  end.

Definition to_boolean (v : value) : bool :=
  match v with
  | VUndefined => false
  | VBool b => b
  | VStr s => str_truthy s
  end.

(** Truthiness of optional fields. *)
Definition num_truthy (v : option Q) : bool :=
  match v with
  | Some q => negb (is_zero q)
  | None => false
  end.

Definition ostr_truthy (v : option string) : bool :=
  match v with
  | Some s => str_truthy s
  | None => false
  end.

Definition obool_truthy (v : option bool) : bool :=
  match v with
  | Some b => b
  | None => false
  end.

(** [field === 'literal'] for a string field. *)
Definition str_is (v : option string) (lit : string) : bool :=
  match v with
  | Some s => String.eqb s lit
  | None => false
  end.

(** [field === 0] and the like for a numeric field. *)
Definition num_is (v : option Q) (lit : Q) : bool :=
  strict_eq (of_field v) (Fin lit).

(** [a || b] on numeric fields. *)
Definition num_or (v : option Q) (dflt : Q) : Q :=
  match v with
  | Some q => if is_zero q then dflt else q
  | None => dflt
  end.

(** The value of an optional field or parameter, with a default: the
    destructuring [{ x = d } = options], and [x] itself where [x] is known to
    be present. *)
Definition dflt {A : Type} (v : option A) (d : A) : A :=
  match v with
  | Some x => x
  | None => d
  end.

(* ================================================================== *)
(** ** Inventory items and suggestions

    One record serves for the inventory item and for the records derived
    from it: the code builds a suggestion as [{...item, daysLeft: ..., ...}]
    and later adds fields to it in place. *)

Record item : Type := mkItem {
  (* fields of the inventory record *)
  itemId : option string;
  name : option string;
  quantity : option Q;
  category : option string;
  minThreshold : option Q;
  price : option Q;
  purchaseFrequency : option string;
  dailyConsumptionRate : option Q;
  hasSubscription : option bool;
  optimalOrderQuantity : option Q;      (* aiMetadata?.optimalOrderQuantity *)
  purchaseHistory : option nat;         (* the length of the array, if any *)
  orderQuantity : option Q;
  store : option string;
  aisle : option Q;
  (* fields added by the engine *)
  daysLeft : option Q;
  confidence : option Q;
  suggestedOrderQuantity : option Q;
  bulkRecommended : option bool;
  subscriptionEligible : value;
  urgency : option string;
  consumptionRate : option Q;
  essential : option bool;
  bulkOrderRecommended : option bool;
  regularOrderQuantity : option Q;
  bulkOrderQuantity : option Q;
  bulkOrderSavings : option Q
}.

(** A record with the inventory fields given and nothing derived yet. *)
Definition inventoryItem
    (i : option string) (n : option string) (q : option Q)
    (c : option string) (m : option Q) (p : option Q)
    (f : option string) : item :=
  {| itemId := i; name := n; quantity := q; category := c;
     minThreshold := m; price := p; purchaseFrequency := f;
     dailyConsumptionRate := None; hasSubscription := None;
     optimalOrderQuantity := None; purchaseHistory := None;
     orderQuantity := None; store := None; aisle := None;
     daysLeft := None; confidence := None; suggestedOrderQuantity := None;
     bulkRecommended := None; subscriptionEligible := VUndefined;
     urgency := None; consumptionRate := None; essential := None;
     bulkOrderRecommended := None; regularOrderQuantity := None;
     bulkOrderQuantity := None; bulkOrderSavings := None |}.

(* ================================================================== *)
(** ** validateItem *)

Record validation : Type := mkValidation {
  valid : bool;
  error : option string
}.

Definition requiredFields : list string :=
  ["name"; "quantity"; "category"]%string.

(** [!item[field]] for the required fields. *)
Definition field_falsy (it : item) (field : string) : bool :=
  if String.eqb field "name" then negb (ostr_truthy (name it))
  else if String.eqb field "quantity" then negb (num_truthy (quantity it))
  else if String.eqb field "category" then negb (ostr_truthy (category it))
  else true.

Definition validFrequencies : list string :=
  ["daily"; "weekly"; "biweekly"; "monthly"; "asNeeded"]%string.

Definition includes (l : list string) (s : string) : bool :=
  existsb (String.eqb s) l.

(** [typeof v !== 'number' || isNaN(v)] on a numeric field: a field that holds
    a value holds a number, and never [NaN].  [Raw.notNumber] is the test on
    an arbitrary value. *)
Definition notNumber (v : option Q) : bool :=
  match v with
  | Some _ => false
  | None => true
  end.

(** The tests [!item] and [typeof item !== 'object'] are settled by the type
    of [it]. *)
Definition validateItem (it : item) : validation :=
  let missingFields := filter (field_falsy it) requiredFields in
  if (0 <? List.length missingFields)%nat then
    mkValidation false
      (Some ("Missing required fields: " ++ String.concat ", " missingFields)%string)
  else if notNumber (quantity it) then
    mkValidation false (Some "Quantity must be a number"%string)
  else if num_truthy (price it) && notNumber (price it) then
    mkValidation false (Some "Price must be a number"%string)
  else if num_truthy (minThreshold it) && notNumber (minThreshold it) then
    mkValidation false (Some "Minimum threshold must be a number"%string)
  else if ostr_truthy (purchaseFrequency it)
          && negb (includes validFrequencies (dflt (purchaseFrequency it) EmptyString))
  then
    mkValidation false
      (Some ("Invalid purchase frequency. Must be one of: "
               ++ String.concat ", " validFrequencies)%string)
  else mkValidation true None.

(* ================================================================== *)
(** ** calculateDaysLeft *)

(** The daily rate the estimator divides by:
    [item.dailyConsumptionRate || (item.minThreshold / 14)]. *)
Definition dailyRate (it : item) : number :=
  if num_truthy (dailyConsumptionRate it)
  then of_field (dailyConsumptionRate it)
  else div (of_field (minThreshold it)) (Fin 14).

Definition calculateDaysLeft (it : item) : number :=
  if le (of_field (quantity it)) (Fin 0) then Fin 0
  else ceil (div (of_field (quantity it)) (dailyRate it)).

(** [calculateDaysLeft] returns a Number.  The suggestion code reads
    [.daysLeft], [.confidence] and [.dailyConsumptionRate] from that result;
    a Number has no such property, so each read yields [undefined]. *)
Definition number_property (n : number) (prop : string) : option Q := None.

(* ================================================================== *)
(** ** calculateReorderSuggestions *)

Module Suggest.

Record options : Type := mkOptions {
  notificationThreshold : option Q;
  includeAlmostEmpty : option bool;
  includeBelowThreshold : option bool;
  includeOutOfStock : option bool;
  bulkPurchaseThreshold : option Q
}.

(** [options = {}]. *)
Definition noOptions : options := mkOptions None None None None None.

Record metadata : Type := mkMetadata {
  success : bool;
  error : option string;
  totalItems : option nat;
  criticalItems : option nat;
  highPriorityItems : option nat;
  bulkOpportunities : option nat;
  subscriptionOpportunities : option nat;
  timestamp : option string
}.

Record result : Type := mkResult {
  items : list item;
  meta : metadata
}.

Definition failure (msg : string) : result :=
  mkResult [] (mkMetadata false (Some msg) None None None None None None).

End Suggest.

(** The predicate of the [.filter] call. *)
Definition needsAttention (o : Suggest.options) (it : item) : bool :=
  if negb (valid (validateItem it)) then false
  else if dflt (Suggest.includeOutOfStock o) true && num_is (quantity it) 0
  then true
  else if dflt (Suggest.includeBelowThreshold o) true
          && le (of_field (quantity it)) (of_field (minThreshold it))
  then true
  else if dflt (Suggest.includeAlmostEmpty o) true then
    let daysLeft := number_property (calculateDaysLeft it) "daysLeft" in
    le (of_field daysLeft) (Fin (dflt (Suggest.notificationThreshold o) 7))
  else false.

(** The order quantity before the final rounding. *)
Definition rawOrderQuantity (it : item) : Q :=
  if num_truthy (optimalOrderQuantity it) then
    dflt (optimalOrderQuantity it) 0
  else
    let baseQuantity := Math_max 1 (num_or (minThreshold it) 1) in
    if str_is (purchaseFrequency it) "daily" then baseQuantity * 3
    else if str_is (purchaseFrequency it) "weekly" then baseQuantity * 2
    else if str_is (purchaseFrequency it) "biweekly"
    then Math_ceil (baseQuantity * (15 # 10))
    else if str_is (purchaseFrequency it) "monthly"
    then baseQuantity * (12 # 10)
    else baseQuantity.

(** [item.purchaseFrequency && item.purchaseFrequency !== 'asNeeded' &&
    !item.hasSubscription]: the value of a chain of [&&] is its first falsy
    operand. *)
Definition subscriptionEligibleOf (it : item) : value :=
  match purchaseFrequency it with
  | None => VUndefined
  | Some f =>
      if negb (str_truthy f) then VStr f
      else if String.eqb f "asNeeded" then VBool false
      else VBool (negb (obool_truthy (hasSubscription it)))
  end.

Definition urgencyOf (it : item) (daysLeftInfo : number) : string :=
  if num_is (quantity it) 0 then "critical"
  else if le (of_field (quantity it)) (of_field (minThreshold it)) then "high"
  else if le (of_field (number_property daysLeftInfo "daysLeft")) (Fin 3)
  then "medium"
  else "low".

(** The function of the [.map] call: [{...item, daysLeft: ..., ...}]. *)
Definition toSuggestion (o : Suggest.options) (it : item) : item :=
  let daysLeftInfo := calculateDaysLeft it in
  let suggested := rawOrderQuantity it in
  let bulk := Qle_bool (dflt (Suggest.bulkPurchaseThreshold o) 3) suggested in
  {| itemId := itemId it; name := name it; quantity := quantity it;
     category := category it; minThreshold := minThreshold it;
     price := price it; purchaseFrequency := purchaseFrequency it;
     dailyConsumptionRate := dailyConsumptionRate it;
     hasSubscription := hasSubscription it;
     optimalOrderQuantity := optimalOrderQuantity it;
     purchaseHistory := purchaseHistory it;
     orderQuantity := orderQuantity it; store := store it; aisle := aisle it;
     daysLeft := number_property daysLeftInfo "daysLeft";
     confidence := number_property daysLeftInfo "confidence";
     suggestedOrderQuantity := Some (Math_max 1 (Math_ceil suggested));
     bulkRecommended := Some bulk;
     subscriptionEligible := subscriptionEligibleOf it;
     urgency := Some (urgencyOf it daysLeftInfo);
     consumptionRate := number_property daysLeftInfo "dailyConsumptionRate";
     essential := essential it;
     bulkOrderRecommended := bulkOrderRecommended it;
     regularOrderQuantity := regularOrderQuantity it;
     bulkOrderQuantity := bulkOrderQuantity it;
     bulkOrderSavings := bulkOrderSavings it |}.

Definition count (p : item -> bool) (l : list item) : nat :=
  List.length (filter p l).

(** [now] stands for [new Date().toISOString()], the only thing the function
    reads besides its arguments.  Nothing in the body can throw on records of
    type [item], so the [catch] branch is never taken. *)
Definition calculateReorderSuggestions
    (now : string) (inventory : list item) (o : Suggest.options)
    : Suggest.result :=
  match inventory with
  | [] => Suggest.failure "Invalid or empty inventory"
  | _ =>
      let suggestedItems :=
        map (toSuggestion o) (filter (needsAttention o) inventory) in
      Suggest.mkResult suggestedItems
        (Suggest.mkMetadata true None
           (Some (List.length suggestedItems))
           (Some (count (fun s => str_is (urgency s) "critical") suggestedItems))
           (Some (count (fun s => str_is (urgency s) "high") suggestedItems))
           (Some (count (fun s => obool_truthy (bulkRecommended s)) suggestedItems))
           (Some (count (fun s => to_boolean (subscriptionEligible s)) suggestedItems))
           (Some now))
  end.

(* ================================================================== *)
(** ** Savings calculators *)

Module Savings.

Record itemized : Type := mkItemized {
  itemId : option string;
  itemName : option string;
  category : option string;          (* absent for an unpriced item *)
  savings : Q;
  discountRate : option Q;           (* absent for an unpriced item *)
  annualSavings : Q;
  recommended : bool
}.

Record result : Type := mkResult {
  totalSavings : Q;
  itemizedSavings : list itemized;
  recommendedItems : nat;
  totalAnnualSavings : option Q      (* absent from the early return *)
}.

End Savings.

(** [item.orderQuantity || item.suggestedOrderQuantity || 1]. *)
Definition orderQuantityOf (it : item) : Q :=
  num_or (orderQuantity it) (num_or (suggestedOrderQuantity it) 1).

(** The discount rate of the bulk calculator: the quantity tier first, then
    the category rule. *)
Definition bulkDiscountRate (it : item) : Q :=
  let orderQuantity := orderQuantityOf it in
  let discountRate :=
    if Qle_bool 10 orderQuantity then 15 # 100
    else if Qle_bool 5 orderQuantity then 12 # 100
    else if Qle_bool 3 orderQuantity then 10 # 100
    else 0 in
  if str_is (category it) "grocery" && Qle_bool 3 orderQuantity
  then Math_max discountRate (8 # 100)
  else if str_is (category it) "household" && Qle_bool 3 orderQuantity
  then Math_max discountRate (12 # 100)
  else if str_is (category it) "electronics" && Qle_bool 2 orderQuantity
  then Math_max discountRate (5 # 100)
  else discountRate.

(** The function of the [.reduce] call. *)
Definition bulkReducer (savings : Q) (it : item) : Q :=
  if negb (num_truthy (price it)) then savings
  else
    let itemBulkSavings :=
      dflt (price it) 0 * orderQuantityOf it * bulkDiscountRate it in
    savings + itemBulkSavings.

(** [cartItems] is [None] when the argument is absent. *)
Definition calculateBulkSavings (cartItems : option (list item)) : Q :=
  match cartItems with
  | None | Some [] => 0
  | Some l => fold_left bulkReducer l 0
  end.

Definition subscriptionCandidate (it : item) : bool :=
  negb (obool_truthy (hasSubscription it))
  && ((ostr_truthy (purchaseFrequency it)
       && negb (str_is (purchaseFrequency it) "asNeeded"))
      || match purchaseHistory it with
         | Some len => (3 <=? len)%nat
         | None => false
         end).

Definition subscriptionDiscountRate (it : item) : Q :=
  if str_is (category it) "grocery" then 10 # 100
  else if str_is (category it) "household" then 15 # 100
  else if str_is (category it) "personal" then 12 # 100
  else if str_is (category it) "electronics" then 5 # 100
  else 15 # 100.

Definition annualPurchasesOf (it : item) : Q :=
  if str_is (purchaseFrequency it) "daily" then 365
  else if str_is (purchaseFrequency it) "weekly" then 52
  else if str_is (purchaseFrequency it) "biweekly" then 26
  else if str_is (purchaseFrequency it) "monthly" then 12
  else 6.

Definition subscriptionItemized (it : item) : Savings.itemized :=
  let orderQuantity := orderQuantityOf it in
  if negb (num_truthy (price it)) then
    Savings.mkItemized (itemId it) (name it) None 0 None 0 false
  else
    let discountRate := subscriptionDiscountRate it in
    let savings := dflt (price it) 0 * orderQuantity * discountRate in
    let annualSavings :=
      dflt (price it) 0 * orderQuantity * discountRate * annualPurchasesOf it in
    Savings.mkItemized (itemId it) (name it) (category it) savings
      (Some discountRate) annualSavings (Qle_bool 20 annualSavings).

Definition calculateSubscriptionSavings
    (cartItems : option (list item)) : Savings.result :=
  match cartItems with
  | None | Some [] => Savings.mkResult 0 [] 0 None
  | Some l =>
      let itemizedSavings :=
        map subscriptionItemized (filter subscriptionCandidate l) in
      Savings.mkResult
        (fold_left (fun sum s => sum + Savings.savings s) itemizedSavings 0)
        itemizedSavings
        (List.length (filter Savings.recommended itemizedSavings))
        (Some (fold_left (fun sum s => sum + Savings.annualSavings s)
                 itemizedSavings 0))
  end.

(* ================================================================== *)
(** ** Exceptions and [Array.prototype.sort] *)

Inductive outcome (A : Type) : Type :=
| Ok (a : A)
| Throw (message : string).

Arguments Ok {A} a.
Arguments Throw {A} message.

Definition bind {A B : Type} (c : outcome A) (k : A -> outcome B) : outcome B :=
  match c with
  | Ok a => k a
  | Throw m => Throw m
  end.

Notation "x <- c ;; k" := (bind c (fun x => k))
  (at level 61, c at next level, right associativity).

(** A stable insertion sort stands for [Array.prototype.sort]: the compare
    function is called only on arrays of two or more elements, a result
    greater than [0] moves the first argument behind the second, [NaN] counts
    as [0], and an exception of the compare function ends the sort.  The
    language fixes the result only for a consistent compare function, where
    every stable sort returns the same array. *)
Section ArraySort.

Variable compareFn : item -> item -> outcome number.

Fixpoint insertSorted (x : item) (l : list item) : outcome (list item) :=
  match l with
  | [] => Ok [x]
  | y :: rest =>
      v <- compareFn x y ;;
      if gt v (Fin 0)
      then (r <- insertSorted x rest ;; Ok (y :: r))
      else Ok (x :: l)
  end.

Fixpoint arraySort (l : list item) : outcome (list item) :=
  match l with
  | [] => Ok []
  | x :: rest => s <- arraySort rest ;; insertSorted x s
  end.

End ArraySort.

(* ================================================================== *)
(** ** optimizeShoppingList *)

Module Optimize.

Record options : Type := mkOptions {
  preference : option string;
  maxItems : option Q;
  budget : option Q;
  preferredStores : option (list string);
  includeNonEssentials : option bool
}.

Definition noOptions : options := mkOptions None None None None None.

Record metadata : Type := mkMetadata {
  success : bool;
  error : option string;
  totalItems : option nat;
  essentialItems : option nat;
  nonEssentialItems : option nat;
  estimatedTotalCost : option number;
  potentialBulkSavings : option Q;
  potentialSubscriptionSavings : option Savings.result;
  optimizationPreference : option string;
  timestamp : option string
}.

Record result : Type := mkResult {
  items : list item;
  meta : metadata
}.

Definition failure (msg : string) : result :=
  mkResult []
    (mkMetadata false (Some msg) None None None None None None None None).

End Optimize.

(** [item.essential = e]. *)
Definition withEssential (it : item) (e : bool) : item :=
  {| itemId := itemId it; name := name it; quantity := quantity it;
     category := category it; minThreshold := minThreshold it;
     price := price it; purchaseFrequency := purchaseFrequency it;
     dailyConsumptionRate := dailyConsumptionRate it;
     hasSubscription := hasSubscription it;
     optimalOrderQuantity := optimalOrderQuantity it;
     purchaseHistory := purchaseHistory it;
     orderQuantity := orderQuantity it; store := store it; aisle := aisle it;
     daysLeft := daysLeft it; confidence := confidence it;
     suggestedOrderQuantity := suggestedOrderQuantity it;
     bulkRecommended := bulkRecommended it;
     subscriptionEligible := subscriptionEligible it;
     urgency := urgency it; consumptionRate := consumptionRate it;
     essential := Some e;
     bulkOrderRecommended := bulkOrderRecommended it;
     regularOrderQuantity := regularOrderQuantity it;
     bulkOrderQuantity := bulkOrderQuantity it;
     bulkOrderSavings := bulkOrderSavings it |}.

(** The body of the labelling [forEach]; [essential it = Some _] is
    [item.hasOwnProperty('essential')]. *)
Definition labelEssential (it : item) : item :=
  match essential it with
  | Some _ => it
  | None =>
      if num_is (quantity it) 0
         || le (of_field (quantity it)) (of_field (minThreshold it))
      then withEssential it true
      else
        withEssential it
          (str_is (purchaseFrequency it) "daily"
           || str_is (purchaseFrequency it) "weekly"
           || str_is (category it) "grocery"
           || str_is (category it) "household"
           || str_is (urgency it) "high"
           || str_is (urgency it) "critical")
  end.

Definition isEssential (it : item) : bool := obool_truthy (essential it).
Definition notEssential (it : item) : bool := negb (isEssential it).

(** [(item.price || 0) * item.suggestedOrderQuantity]. *)
Definition itemCost (it : item) : number :=
  mul (Fin (num_or (price it) 0)) (of_field (suggestedOrderQuantity it)).

(** The two helpers the source attaches to the function object. *)
Record urgencyHelpers : Type := mkHelpers {
  _getUrgencyValue : option string -> Q;
  _getUrgencyTier : item -> Q
}.

Definition optimizeShoppingList_helpers : urgencyHelpers :=
  {| _getUrgencyValue := fun urgency =>
       if str_is urgency "critical" then 4
       else if str_is urgency "high" then 3
       else if str_is urgency "medium" then 2
       else if str_is urgency "low" then 1
       else 0;
     _getUrgencyTier := fun it =>
       if num_is (quantity it) 0 then 0
       else if le (of_field (quantity it)) (of_field (minThreshold it)) then 1
       else if le (of_field (daysLeft it)) (Fin 3) then 2
       else if le (of_field (daysLeft it)) (Fin 7) then 3
       else 4 |}.

(** The value of [this] inside the compare functions.  They are arrow
    functions inside the arrow function [optimizeShoppingList] of an ES
    module, so [this] is the module's [this]: [undefined].  The helpers above
    are never reached through it. *)
Definition thisValue : option urgencyHelpers := None.

(** [this.method(arg)]. *)
Definition callThis {A : Type} (method : urgencyHelpers -> A -> Q) (arg : A)
    : outcome Q :=
  match thisValue with
  | Some h => Ok (method h arg)
  | None => Throw "Cannot read properties of undefined"
  end.

Definition ostr_eq (a b : option string) : bool :=
  match a, b with
  | Some s, Some t => String.eqb s t
  | None, None => true
  | _, _ => false
  end.

Fixpoint indexOfFrom (l : list string) (s : string) (i : Z) : Z :=
  match l with
  | [] => (-1)%Z
  | x :: rest => if String.eqb x s then i else indexOfFrom rest s (i + 1)%Z
  end.

(** [stores.indexOf(item.store)]: an absent store is found nowhere. *)
Definition indexOf (stores : list string) (v : option string) : Z :=
  match v with
  | Some s => indexOfFrom stores s 0
  | None => (-1)%Z
  end.

(** [item.price && item.suggestedOrderQuantity ?
     item.price / item.suggestedOrderQuantity : 0]. *)
Definition efficiency (it : item) : Q :=
  if num_truthy (price it) && num_truthy (suggestedOrderQuantity it)
  then dflt (price it) 0 / dflt (suggestedOrderQuantity it) 0
  else 0.

(** [array.slice(0, end)]. *)
Definition slice0 (l : list item) (e : Q) : list item :=
  let k := if Qle_bool 0 e then Qfloor e else Qceiling e in
  if (k <? 0)%Z
  then firstn (Z.to_nat (Z.max (Z.of_nat (List.length l) + k) 0)) l
  else firstn (Z.to_nat k) l.

Definition lengthQ (l : list item) : Q := inject_Z (Z.of_nat (List.length l)).

(** The budget [filter] with its running total. *)
Fixpoint budgetFilter (budget : Q) (runningTotal : number) (l : list item)
    : list item :=
  match l with
  | [] => []
  | it :: rest =>
      if isEssential it then
        it :: budgetFilter budget (add runningTotal (itemCost it)) rest
      else if le (add runningTotal (itemCost it)) (Fin budget) then
        it :: budgetFilter budget (add runningTotal (itemCost it)) rest
      else budgetFilter budget runningTotal rest
  end.

(** [if (budget && budget > 0) { ... }]. *)
Definition applyBudget (budget : option Q) (optimized : list item) : list item :=
  match budget with
  | Some b =>
      if negb (is_zero b) && Qlt_bool 0 b
      then budgetFilter b (Fin 0) optimized
      else optimized
  | None => optimized
  end.

(** [if (maxItems && maxItems > 0 && optimized.length > maxItems) { ... }]. *)
Definition applyMaxItems (maxItems : option Q) (optimized : list item)
    : list item :=
  match maxItems with
  | Some m =>
      if negb (is_zero m) && Qlt_bool 0 m && Qlt_bool m (lengthQ optimized)
      then
        let essentialItems := filter isEssential optimized in
        let nonEssentialItems := filter notEssential optimized in
        if Qle_bool m (lengthQ essentialItems)
        then slice0 essentialItems m
        else
          let remainingSlots := m - lengthQ essentialItems in
          essentialItems ++ slice0 nonEssentialItems remainingSlots
      else optimized
  | None => optimized
  end.

Definition totalCostOf (l : list item) : number :=
  fold_left (fun sum it => add sum (itemCost it)) l (Fin 0).

Section Optimizer.

(** [String.prototype.localeCompare] depends on the host's locale; only
    the sign of its result is used. *)
Variable localeCompare : string -> string -> Q.

(** [a.localeCompare(b)] on fields: it throws when [a] is [undefined], and
    an [undefined] argument is compared as the string ["undefined"]. *)
Definition localeCompareFields (a b : option string) : outcome number :=
  match a with
  | Some s => Ok (Fin (localeCompare s (dflt b "undefined"%string)))
  | None => Throw "Cannot read properties of undefined"
  end.

Definition storesDiffer (a b : item) : bool :=
  negb (ostr_eq (store a) (store b))
  && ostr_truthy (store a) && ostr_truthy (store b).

Definition compareCost (a b : item) : outcome number :=
  if isEssential a && negb (isEssential b) then Ok (Fin (-1))
  else if negb (isEssential a) && isEssential b then Ok (Fin 1)
  else if storesDiffer a b then localeCompareFields (store a) (store b)
  else if negb (ostr_eq (category a) (category b))
  then localeCompareFields (category a) (category b)
  else
    let aEfficiency := efficiency a in
    let bEfficiency := efficiency b in
    if negb (is_zero aEfficiency) && negb (is_zero bEfficiency)
    then Ok (Fin (aEfficiency - bEfficiency))
    else
      bValue <- callThis _getUrgencyValue (urgency b) ;;
      aValue <- callThis _getUrgencyValue (urgency a) ;;
      Ok (Fin (bValue - aValue)).

Definition compareTime (stores : list string) (a b : item) : outcome number :=
  if isEssential a && negb (isEssential b) then Ok (Fin (-1))
  else if negb (isEssential a) && isEssential b then Ok (Fin 1)
  else
    let aStoreIndex := indexOf stores (store a) in
    let bStoreIndex := indexOf stores (store b) in
    let listed := (0 <? List.length stores)%nat in
    if listed && negb (aStoreIndex =? -1)%Z && negb (bStoreIndex =? -1)%Z
    then Ok (Fin (inject_Z (aStoreIndex - bStoreIndex)))
    else if listed && negb (aStoreIndex =? -1)%Z then Ok (Fin (-1))
    else if listed && negb (bStoreIndex =? -1)%Z then Ok (Fin 1)
    else if storesDiffer a b then localeCompareFields (store a) (store b)
    else if negb (ostr_eq (category a) (category b))
    then localeCompareFields (category a) (category b)
    else if num_truthy (aisle a) && num_truthy (aisle b)
            && negb (strict_eq (of_field (aisle a)) (of_field (aisle b)))
    then Ok (sub (of_field (aisle a)) (of_field (aisle b)))
    else Ok (Fin 0).

Definition compareUrgent (a b : item) : outcome number :=
  aUrgencyValue <- callThis _getUrgencyValue (urgency a) ;;
  bUrgencyValue <- callThis _getUrgencyValue (urgency b) ;;
  if negb (Qeq_bool aUrgencyValue bUrgencyValue)
  then Ok (Fin (bUrgencyValue - aUrgencyValue))
  else if num_is (quantity a) 0 && negb (num_is (quantity b) 0)
  then Ok (Fin (-1))
  else if negb (num_is (quantity a) 0) && num_is (quantity b) 0
  then Ok (Fin 1)
  else Ok (sub (of_field (daysLeft a)) (of_field (daysLeft b))).

Definition compareBalanced (stores : list string) (a b : item)
    : outcome number :=
  aUrgencyTier <- callThis _getUrgencyTier a ;;
  bUrgencyTier <- callThis _getUrgencyTier b ;;
  if negb (Qeq_bool aUrgencyTier bUrgencyTier)
  then Ok (Fin (aUrgencyTier - bUrgencyTier))
  else
    let aStoreIndex := indexOf stores (store a) in
    let bStoreIndex := indexOf stores (store b) in
    if (0 <? List.length stores)%nat
       && negb (aStoreIndex =? -1)%Z && negb (bStoreIndex =? -1)%Z
       && negb (aStoreIndex =? bStoreIndex)%Z
    then Ok (Fin (inject_Z (aStoreIndex - bStoreIndex)))
    else if negb (ostr_eq (category a) (category b))
    then localeCompareFields (category a) (category b)
    else
      let aEfficiency := efficiency a in
      let bEfficiency := efficiency b in
      if negb (is_zero aEfficiency) && negb (is_zero bEfficiency)
      then Ok (Fin (aEfficiency - bEfficiency))
      else Ok (Fin 0).

(** The [switch (preference)] with its in-place sort. *)
Definition sortByPreference (o : Optimize.options) (optimized : list item)
    : outcome (list item) :=
  let preference := dflt (Optimize.preference o) "balanced"%string in
  let stores := dflt (Optimize.preferredStores o) [] in
  if String.eqb preference "cost" then arraySort compareCost optimized
  else if String.eqb preference "time"
  then arraySort (compareTime stores) optimized
  else if String.eqb preference "urgent"
  then arraySort compareUrgent optimized
  else arraySort (compareBalanced stores) optimized.

(** Labelling, the non-essential filter and the ordering: everything that
    happens before the budget and the item cap are looked at. *)
Definition orderedItems (suggestions : list item) (o : Optimize.options)
    : outcome (list item) :=
  let items := map labelEssential suggestions in
  let optimized :=
    if dflt (Optimize.includeNonEssentials o) true
    then items
    else filter isEssential items in
  sortByPreference o optimized.

Definition optimizeShoppingList
    (now : string) (suggestions : list item) (o : Optimize.options)
    : Optimize.result :=
  match suggestions with
  | [] => Optimize.failure "Invalid or empty suggestions list"
  | _ =>
      match orderedItems suggestions o with
      | Throw message => Optimize.failure message
      | Ok ordered =>
          let optimized :=
            applyMaxItems (Optimize.maxItems o)
              (applyBudget (Optimize.budget o) ordered) in
          Optimize.mkResult optimized
            (Optimize.mkMetadata true None
               (Some (List.length optimized))
               (Some (count isEssential optimized))
               (Some (count notEssential optimized))
               (Some (totalCostOf optimized))
               (Some (calculateBulkSavings (Some optimized)))
               (Some (calculateSubscriptionSavings (Some optimized)))
               (Some (dflt (Optimize.preference o) "balanced"%string))
               (Some now))
      end
  end.

End Optimizer.

(* ================================================================== *)
(** ** generateSmartReorderPlan *)

Module Plan.

Record options : Type := mkOptions {
  budget : option Q;
  daysToLookAhead : option Q;
  maxItems : option Q;
  preferredStores : option (list string);
  optimizationPreference : option string
}.

Definition noOptions : options := mkOptions None None None None None.

Record batch : Type := mkBatch {
  items : list item;
  totalCost : number;
  itemCount : nat;
  essentialItemCount : nat
}.

Record plan : Type := mkPlan {
  batches : list batch;
  totalBatches : nat;
  totalItems : nat;
  planCost : option number;          (* totalCost: optimized.metadata.estimatedTotalCost *)
  potentialBulkSavings : option Q;
  potentialSubscriptionSavings : option Savings.result;
  timestamp : string
}.

Record result : Type := mkResult {
  success : bool;
  error : option string;
  thePlan : option plan
}.

Definition failure (msg : string) : result :=
  mkResult false (Some msg) None.

End Plan.

(** The predicate of the [upcoming] filter. *)
Definition isUpcoming
    (immediateItems : list item) (daysToLookAhead : Q) (it : item) : bool :=
  let isImmediate :=
    existsb (fun i => ostr_eq (itemId i) (itemId it)) immediateItems in
  if isImmediate then false
  else if negb (valid (validateItem it)) then false
  else
    let daysLeft := number_property (calculateDaysLeft it) "daysLeft" in
    gt (of_field daysLeft) (Fin 7)
    && le (of_field daysLeft) (Fin daysToLookAhead).

(** The function of the [upcoming] map. *)
Definition toUpcoming (it : item) : item :=
  let daysLeftInfo := calculateDaysLeft it in
  {| itemId := itemId it; name := name it; quantity := quantity it;
     category := category it; minThreshold := minThreshold it;
     price := price it; purchaseFrequency := purchaseFrequency it;
     dailyConsumptionRate := dailyConsumptionRate it;
     hasSubscription := hasSubscription it;
     optimalOrderQuantity := optimalOrderQuantity it;
     purchaseHistory := purchaseHistory it;
     orderQuantity := orderQuantity it; store := store it; aisle := aisle it;
     daysLeft := number_property daysLeftInfo "daysLeft";
     confidence := number_property daysLeftInfo "confidence";
     suggestedOrderQuantity :=
       Some (if num_truthy (optimalOrderQuantity it)
             then dflt (optimalOrderQuantity it) 0
             else Math_max 1 (num_or (minThreshold it) 1));
     bulkRecommended := bulkRecommended it;
     subscriptionEligible := subscriptionEligible it;
     urgency := Some "upcoming"%string;
     consumptionRate := consumptionRate it;
     essential := Some false;
     bulkOrderRecommended := bulkOrderRecommended it;
     regularOrderQuantity := regularOrderQuantity it;
     bulkOrderQuantity := bulkOrderQuantity it;
     bulkOrderSavings := bulkOrderSavings it |}.

(** The body of the bulk [forEach], which writes four fields in place. *)
Definition withBulkOrder (it : item) : item :=
  if negb (num_truthy (price it)) then it
  else
    match suggestedOrderQuantity it with
    | None => it            (* regularTotal is NaN and the test is false *)
    | Some suggested =>
        let regularTotal := dflt (price it) 0 * suggested in
        let bulkDiscount := calculateBulkSavings (Some [it]) in
        if Qlt_bool (regularTotal * (7 # 100)) bulkDiscount then
          let increasedQuantity := Math_ceil (suggested * (15 # 10)) in
          {| itemId := itemId it; name := name it; quantity := quantity it;
             category := category it; minThreshold := minThreshold it;
             price := price it; purchaseFrequency := purchaseFrequency it;
             dailyConsumptionRate := dailyConsumptionRate it;
             hasSubscription := hasSubscription it;
             optimalOrderQuantity := optimalOrderQuantity it;
             purchaseHistory := purchaseHistory it;
             orderQuantity := orderQuantity it; store := store it;
             aisle := aisle it;
             daysLeft := daysLeft it; confidence := confidence it;
             suggestedOrderQuantity := suggestedOrderQuantity it;
             bulkRecommended := bulkRecommended it;
             subscriptionEligible := subscriptionEligible it;
             urgency := urgency it; consumptionRate := consumptionRate it;
             essential := essential it;
             bulkOrderRecommended := Some true;
             regularOrderQuantity := Some suggested;
             bulkOrderQuantity := Some increasedQuantity;
             bulkOrderSavings :=
               Some (dflt (price it) 0 * increasedQuantity * (1 # 10)
                     - bulkDiscount) |}
        else it
    end.

(** The compare function of the batching sort; it cannot throw. *)
Definition compareForBatching (a b : item) : number :=
  if num_is (quantity a) 0 && negb (num_is (quantity b) 0) then Fin (-1)
  else if negb (num_is (quantity a) 0) && num_is (quantity b) 0 then Fin 1
  else if le (of_field (quantity a)) (of_field (minThreshold a))
          && gt (of_field (quantity b)) (of_field (minThreshold b))
  then Fin (-1)
  else if gt (of_field (quantity a)) (of_field (minThreshold a))
          && le (of_field (quantity b)) (of_field (minThreshold b))
  then Fin 1
  else sub (of_field (daysLeft a)) (of_field (daysLeft b)).

Definition sortForBatching (optimizedItems : list item) : outcome (list item) :=
  arraySort (fun a b => Ok (compareForBatching a b)) optimizedItems.

(** The state of the batching loop: [batches], [currentBatch] and
    [currentBatchCost]. *)
Record batching : Type := mkBatching {
  batches : list Plan.batch;
  currentBatch : list item;
  currentBatchCost : number
}.

Definition closeBatch (current : list item) (cost : number) : Plan.batch :=
  Plan.mkBatch current cost (List.length current) (count isEssential current).

(** The body of the batching [forEach]. *)
Definition batchStep (st : batching) (it : item) : batching :=
  let cost := itemCost it in
  let st' :=
    if (10 <=? List.length (currentBatch st))%nat
       || (gt (add (currentBatchCost st) cost) (Fin 100)
           && (0 <? List.length (currentBatch st))%nat)
    then mkBatching
           (batches st ++ [closeBatch (currentBatch st) (currentBatchCost st)])
           [] (Fin 0)
    else st in
  mkBatching (batches st') (currentBatch st' ++ [it])
    (add (currentBatchCost st') cost).

(** The batch planner: the loop and the final push. *)
Definition planBatches (sortedForBatching : list item) : list Plan.batch :=
  let st := fold_left batchStep sortedForBatching (mkBatching [] [] (Fin 0)) in
  if (0 <? List.length (currentBatch st))%nat
  then batches st ++ [closeBatch (currentBatch st) (currentBatchCost st)]
  else batches st.

Section Planner.

Variable localeCompare : string -> string -> Q.

(** The list handed to the optimizer: the immediate needs, the upcoming
    items, and the bulk fields written on both. *)
Definition allReorderItems
    (now : string) (inventory : list item) (o : Plan.options) : list item :=
  let immediate :=
    calculateReorderSuggestions now inventory
      (Suggest.mkOptions (Some 7) (Some true) (Some true) (Some true) None) in
  let upcoming :=
    map toUpcoming
      (filter (isUpcoming (Suggest.items immediate)
                 (dflt (Plan.daysToLookAhead o) 14))
         inventory) in
  map withBulkOrder (Suggest.items immediate ++ upcoming).

(** [const optimized = optimizeShoppingList(allReorderItems, {...})]. *)
Definition optimizedForPlan
    (now : string) (inventory : list item) (o : Plan.options)
    : Optimize.result :=
  optimizeShoppingList localeCompare now
    (allReorderItems now inventory o)
    (Optimize.mkOptions
       (Some (dflt (Plan.optimizationPreference o) "balanced"%string))
       (Plan.maxItems o) (Plan.budget o)
       (Some (dflt (Plan.preferredStores o) []))
       (Some true)).

(** The clock reads of one call are given the same instant [now]. *)
Definition generateSmartReorderPlan
    (now : string) (inventory : list item) (o : Plan.options) : Plan.result :=
  match inventory with
  | [] => Plan.failure "Invalid or empty inventory"
  | _ =>
      let optimized := optimizedForPlan now inventory o in
      match sortForBatching (Optimize.items optimized) with
      | Throw message => Plan.failure message
      | Ok sortedForBatching =>
          let batches := planBatches sortedForBatching in
          Plan.mkResult true None
            (Some (Plan.mkPlan batches
                     (List.length batches)
                     (List.length (Optimize.items optimized))
                     (Optimize.estimatedTotalCost (Optimize.meta optimized))
                     (Optimize.potentialBulkSavings (Optimize.meta optimized))
                     (Optimize.potentialSubscriptionSavings
                        (Optimize.meta optimized))
                     now))
      end
  end.

End Planner.

(* ================================================================== *)
(** * Properties *)

(** ** Numbers *)

Lemma is_zero_true (q : Q) : is_zero q = true <-> q == 0.
Proof. unfold is_zero. apply Qeq_bool_iff. Qed.

Lemma Qlt_bool_true (a b : Q) : Qlt_bool a b = true <-> a < b.
Proof.
  unfold Qlt_bool. rewrite negb_true_iff. split; intro H.
  - apply Qnot_le_lt. intro Hle. apply Qle_bool_iff in Hle. congruence.
  - destruct (Qle_bool b a) eqn:E; [|reflexivity].
    apply Qle_bool_iff in E. exfalso. now apply (Qlt_not_le a b).
Qed.

Lemma Qle_bool_false (a b : Q) : Qle_bool a b = false <-> b < a.
Proof.
  rewrite <- Qlt_bool_true. unfold Qlt_bool.
  now rewrite negb_true_iff.
Qed.


(** ** The validator *)

Lemma validateItem_valid_inv (it : item) :
  valid (validateItem it) = true ->
  ostr_truthy (name it) = true
  /\ num_truthy (quantity it) = true
  /\ ostr_truthy (category it) = true.
Proof.
  unfold validateItem, requiredFields. cbn [filter].
  unfold field_falsy. cbn [String.eqb Ascii.eqb Bool.eqb].
  destruct (ostr_truthy (name it)), (num_truthy (quantity it)),
    (ostr_truthy (category it)); cbn; intro H; try discriminate H; auto.
Qed.

(** An item whose quantity is [0] fails validation: [0] is falsy, so the
    required-field test reports the quantity as missing. *)
Lemma zero_quantity_invalid (it : item) :
  num_is (quantity it) 0 = true -> valid (validateItem it) = false.
Proof.
  intro H. destruct (valid (validateItem it)) eqn:V; [|reflexivity].
  apply validateItem_valid_inv in V. destruct V as (_ & Hq & _).
  unfold num_is in H. unfold num_truthy in Hq.
  destruct (quantity it) as [q|]; cbn in H; [|discriminate].
  unfold is_zero in Hq. rewrite H in Hq. discriminate.
Qed.

(** ** The suggestion generator *)

Lemma suggestions_items (now : string) (inventory : list item)
    (o : Suggest.options) :
  Suggest.items (calculateReorderSuggestions now inventory o)
  = map (toSuggestion o) (filter (needsAttention o) inventory).
Proof. destruct inventory; reflexivity. Qed.

Lemma suggestion_origin (now : string) (inventory : list item)
    (o : Suggest.options) (s : item) :
  In s (Suggest.items (calculateReorderSuggestions now inventory o)) ->
  exists it, In it inventory /\ needsAttention o it = true
             /\ s = toSuggestion o it.
Proof.
  rewrite suggestions_items, in_map_iff.
  intros (it & <- & Hin). apply filter_In in Hin.
  exists it. tauto.
Qed.

Lemma needsAttention_valid (o : Suggest.options) (it : item) :
  needsAttention o it = true -> valid (validateItem it) = true.
Proof.
  unfold needsAttention. destruct (valid (validateItem it)); cbn; congruence.
Qed.

(** Reading [.daysLeft] from the Number never passes a [<=] test, so the
    "runs out soon" rule selects nothing. *)
Lemma needsAttention_cases (o : Suggest.options) (it : item) :
  needsAttention o it = true ->
  le (of_field (quantity it)) (of_field (minThreshold it)) = true.
Proof.
  intro H. pose proof (needsAttention_valid _ _ H) as V.
  unfold needsAttention in H. rewrite V in H. cbn [negb] in H.
  destruct (num_is (quantity it) 0) eqn:Z0.
  - apply zero_quantity_invalid in Z0. congruence.
  - rewrite andb_false_r in H.
    destruct (le (of_field (quantity it)) (of_field (minThreshold it)));
      [reflexivity|].
    rewrite andb_false_r in H.
    destruct (dflt (Suggest.includeAlmostEmpty o) true); cbn in H; discriminate.
Qed.

(** No suggestion has quantity [0]: the validator has already dropped the
    item, so the out-of-stock rule of the filter never fires. *)
Lemma suggestions_never_out_of_stock (now : string) (inventory : list item)
    (o : Suggest.options) (s : item) :
  In s (Suggest.items (calculateReorderSuggestions now inventory o)) ->
  num_is (quantity s) 0 = false.
Proof.
  intro H. apply suggestion_origin in H. destruct H as (it & _ & Hn & ->).
  apply needsAttention_valid in Hn. cbn [quantity toSuggestion].
  destruct (num_is (quantity it) 0) eqn:E; [|reflexivity].
  apply zero_quantity_invalid in E. congruence.
Qed.

(** The item of the first scenario of the specification, with a name. *)
Definition outOfStockMilk : item :=
  inventoryItem (Some "1"%string) (Some "Milk"%string) (Some 0)
    (Some "grocery"%string) (Some 2) None (Some "weekly"%string).

Definition lowRice : item :=
  inventoryItem (Some "2"%string) (Some "Rice"%string) (Some 1)
    (Some "grocery"%string) (Some 2) None (Some "monthly"%string).

(** C1 (the code departs from the claim).  The scenario item
    [{quantity:0, minThreshold:2, category:"grocery",
    purchaseFrequency:"weekly"}] is rejected by [validateItem], which reads
    the quantity [0] as a missing required field; [calculateReorderSuggestions]
    with default options therefore does not return it, alone or next to
    another item.  Had it passed the filter, the mapping step would have given
    it urgency "critical" and order quantity [max(1, 2) * 2 = 4]. *)
Theorem out_of_stock_scenario_is_dropped (now : string) :
  validateItem outOfStockMilk
  = mkValidation false (Some "Missing required fields: quantity"%string)
  /\ Suggest.items
       (calculateReorderSuggestions now [outOfStockMilk] Suggest.noOptions)
     = []
  /\ map name
       (Suggest.items
          (calculateReorderSuggestions now [lowRice; outOfStockMilk]
             Suggest.noOptions))
     = [Some "Rice"%string]
  /\ urgency (toSuggestion Suggest.noOptions outOfStockMilk)
     = Some "critical"%string
  /\ suggestedOrderQuantity (toSuggestion Suggest.noOptions outOfStockMilk)
     = Some 4.
Proof. repeat split; reflexivity. Qed.

(** ** The depletion estimator *)

Lemma dailyRate_not_infinite (it : item) :
  dailyRate it = NaN \/ exists q, dailyRate it = Fin q.
Proof.
  unfold dailyRate.
  destruct (num_truthy (dailyConsumptionRate it)).
  - destruct (dailyConsumptionRate it); cbn; eauto.
  - destruct (minThreshold it) as [m|]; cbn; [|now left].
    right. eexists. reflexivity.
Qed.

Lemma ceil_positive (q : Q) : 0 < q -> (1 <= Qceiling q)%Z.
Proof.
  intro H. pose proof (Qle_ceiling q) as Hc.
  assert (Hlt : inject_Z 0 < inject_Z (Qceiling q)).
  { change (inject_Z 0) with 0. eapply Qlt_le_trans; eassumption. }
  rewrite <- Zlt_Qlt in Hlt. lia.
Qed.

Definition stockedNoThreshold : item :=
  inventoryItem (Some "3"%string) (Some "Salt"%string) (Some 5)
    (Some "grocery"%string) (Some 0) None None.

(** C3 (the code departs from the claim).  With [quantity = 5] and
    [minThreshold = 0] (and no consumption rate) the resolved rate is [0];
    nothing guards the division, and the estimator returns [Infinity], which
    is not a finite integer. *)
Theorem zero_rate_gives_infinity :
  gt (of_field (quantity stockedNoThreshold)) (Fin 0) = true
  /\ strict_eq (dailyRate stockedNoThreshold) (Fin 0) = true
  /\ calculateDaysLeft stockedNoThreshold = PInf
  /\ ~ integer_at_least 0 (calculateDaysLeft stockedNoThreshold).
Proof.
  repeat split; try reflexivity.
  intros (z & H & _). discriminate H.
Qed.

(** The estimator by cases.  A quantity of at most [0] gives [0]; a positive
    quantity over a rate of [0] gives [Infinity], whatever the item; a
    positive quantity over a positive rate gives [ceil(quantity / rate)], a
    whole number that is at least [1]. *)
Lemma calculateDaysLeft_by_rate (it : item) :
  (le (of_field (quantity it)) (Fin 0) = true ->
   calculateDaysLeft it = Fin 0)
  /\ (gt (of_field (quantity it)) (Fin 0) = true ->
      strict_eq (dailyRate it) (Fin 0) = true ->
      calculateDaysLeft it = PInf)
  /\ (gt (of_field (quantity it)) (Fin 0) = true ->
      gt (dailyRate it) (Fin 0) = true ->
      integer_at_least 1 (calculateDaysLeft it)).
Proof.
  unfold calculateDaysLeft. repeat split.
  - intros ->. reflexivity.
  - intros Hq Hr. destruct (quantity it) as [q|]; cbn in Hq; [|discriminate].
    cbn [of_field]. unfold gt, lt in Hq.
    assert (Hle : Qle_bool q 0 = false).
    { unfold Qlt_bool in Hq. now apply negb_true_iff in Hq. }
    cbn [le]. rewrite Hle.
    destruct (dailyRate it) as [| | |r]; cbn in Hr; try discriminate.
    cbn [div ceil]. unfold is_zero. rewrite Hr.
    assert (Hz : Qeq_bool q 0 = false).
    { destruct (Qeq_bool q 0) eqn:E; [|reflexivity].
      apply Qeq_bool_iff in E. apply Qle_bool_false in Hle.
      rewrite E in Hle. now apply Qlt_irrefl in Hle. }
    rewrite Hz. unfold is_pos. now rewrite Hq.
  - intros Hq Hr. destruct (quantity it) as [q|]; cbn in Hq; [|discriminate].
    cbn [of_field]. unfold gt, lt in Hq.
    assert (Hle : Qle_bool q 0 = false).
    { unfold Qlt_bool in Hq. now apply negb_true_iff in Hq. }
    cbn [le]. rewrite Hle.
    destruct (dailyRate_not_infinite it) as [E | (r & E)]; rewrite E in *;
      cbn in Hr; [discriminate|].
    apply Qlt_bool_true in Hq, Hr.
    cbn [div ceil].
    assert (Hz : is_zero r = false).
    { destruct (is_zero r) eqn:Z; [|reflexivity].
      apply is_zero_true in Z. rewrite Z in Hr. now apply Qlt_irrefl in Hr. }
    rewrite Hz. cbn [ceil].
    exists (Qceiling (q / r)). split; [reflexivity|].
    apply ceil_positive. apply Qlt_shift_div_l; [assumption|].
    now rewrite Qmult_0_l.
Qed.

Definition riceWithRate : item :=
  {| itemId := Some "4"%string; name := Some "Rice"%string;
     quantity := Some 5; category := Some "grocery"%string;
     minThreshold := Some 10; price := None; purchaseFrequency := None;
     dailyConsumptionRate := Some 1; hasSubscription := None;
     optimalOrderQuantity := None; purchaseHistory := None;
     orderQuantity := None; store := None; aisle := None;
     daysLeft := None; confidence := None; suggestedOrderQuantity := None;
     bulkRecommended := None; subscriptionEligible := VUndefined;
     urgency := None; consumptionRate := None; essential := None;
     bulkOrderRecommended := None; regularOrderQuantity := None;
     bulkOrderQuantity := None; bulkOrderSavings := None |}.

Lemma calculateDaysLeft_by_rate_examples :
  calculateDaysLeft outOfStockMilk = Fin 0
  /\ calculateDaysLeft stockedNoThreshold = PInf
  /\ integer_at_least 1 (calculateDaysLeft riceWithRate).
Proof.
  split; [|split].
  - apply (proj1 (calculateDaysLeft_by_rate outOfStockMilk)). reflexivity.
  - apply (proj1 (proj2 (calculateDaysLeft_by_rate stockedNoThreshold)));
      reflexivity.
  - apply (proj2 (proj2 (calculateDaysLeft_by_rate riceWithRate)));
      reflexivity.
Defined.

(** The scenario of the specification: [{quantity:5, minThreshold:10,
    dailyConsumptionRate:1}] has 5 days left. *)
Example riceWithRate_daysLeft : calculateDaysLeft riceWithRate = Fin 5.
Proof. reflexivity. Qed.

(** C4 (the code departs from the claim).  For every item whose quantity is
    [0], whatever its other fields, [calculateDaysLeft] returns [0], and the
    mapping step of the generator would give it the urgency "critical".  But
    the generator never assigns it: the validator reads the quantity [0] as a
    missing field, the filter drops the item under every choice of options,
    and no suggestion that [calculateReorderSuggestions] returns has quantity
    [0] or urgency "critical". *)
Theorem zero_quantity_item_gets_no_urgency (it : item) (q : Q) :
  quantity it = Some q -> q == 0 ->
  calculateDaysLeft it = Fin 0
  /\ (forall o, urgency (toSuggestion o it) = Some "critical"%string)
  /\ valid (validateItem it) = false
  /\ (forall o, needsAttention o it = false)
  /\ (forall now inventory o,
        Forall (fun s => num_is (quantity s) 0 = false
                         /\ urgency s <> Some "critical"%string)
          (Suggest.items (calculateReorderSuggestions now inventory o)))
  /\ (forall now rest o,
        Suggest.items (calculateReorderSuggestions now (it :: rest) o)
        = Suggest.items (calculateReorderSuggestions now rest o)).
Proof.
  intros Hq Hz.
  assert (Hzero : num_is (quantity it) 0 = true).
  { unfold num_is. rewrite Hq. cbn [of_field strict_eq].
    now apply Qeq_bool_iff. }
  assert (Hinvalid : valid (validateItem it) = false)
    by now apply zero_quantity_invalid.
  assert (Hdrop : forall o, needsAttention o it = false).
  { intro o. unfold needsAttention. now rewrite Hinvalid. }
  split; [|split; [|split; [|split; [|split]]]].
  - unfold calculateDaysLeft. rewrite Hq. cbn [of_field le].
    assert (E : Qle_bool q 0 = true).
    { apply Qle_bool_iff. rewrite Hz. apply Qle_refl. }
    now rewrite E.
  - intro o. cbn [urgency toSuggestion]. unfold urgencyOf.
    now rewrite Hzero.
  - exact Hinvalid.
  - exact Hdrop.
  - intros now inventory o. apply Forall_forall. intros s Hs.
    pose proof (suggestions_never_out_of_stock _ _ _ _ Hs) as Hn.
    split; [exact Hn|].
    apply suggestion_origin in Hs. destruct Hs as (it0 & _ & _ & ->).
    cbn [urgency toSuggestion quantity] in *. unfold urgencyOf.
    rewrite Hn.
    destruct (le (of_field (quantity it0)) (of_field (minThreshold it0)));
      [discriminate|].
    destruct (le _ _); discriminate.
  - intros now rest o. rewrite !suggestions_items. cbn [filter].
    now rewrite (Hdrop o).
Qed.

Lemma zero_quantity_item_gets_no_urgency_witness :
  calculateDaysLeft outOfStockMilk = Fin 0
  /\ valid (validateItem outOfStockMilk) = false
  /\ Suggest.items
       (calculateReorderSuggestions ""%string [outOfStockMilk]
          Suggest.noOptions)
     = []
  /\ Suggest.criticalItems
       (Suggest.meta
          (calculateReorderSuggestions ""%string [outOfStockMilk]
             Suggest.noOptions))
     = Some 0%nat.
Proof.
  destruct (@zero_quantity_item_gets_no_urgency outOfStockMilk 0
              eq_refl (Qeq_refl 0)) as (Hdays & _ & Hinvalid & _ & _ & Hrest).
  split; [exact Hdays|]. split; [exact Hinvalid|].
  split; [|reflexivity].
  rewrite (Hrest ""%string [] Suggest.noOptions). reflexivity.
Defined.

(** ** Order quantities *)


(** The look-ahead filter reads [.daysLeft] from a Number as well, and
    [undefined > 7] is false: no item is ever "upcoming". *)
Lemma upcoming_always_empty (immediateItems : list item) (days : Q)
    (inventory : list item) :
  filter (isUpcoming immediateItems days) inventory = [].
Proof.
  induction inventory as [|it rest IH]; [reflexivity|].
  cbn [filter]. rewrite IH.
  unfold isUpcoming.
  destruct (existsb _ immediateItems); [reflexivity|].
  destruct (valid (validateItem it)); reflexivity.
Qed.


Lemma allReorderItems_immediate (now : string) (inventory : list item)
    (po : Plan.options) :
  allReorderItems now inventory po
  = map withBulkOrder
      (Suggest.items
         (calculateReorderSuggestions now inventory
            (Suggest.mkOptions (Some 7) (Some true) (Some true) (Some true)
               None))).
Proof.
  unfold allReorderItems. rewrite upcoming_always_empty.
  cbn [map]. now rewrite app_nil_r.
Qed.

Definition lowSoap : item :=
  inventoryItem (Some "5"%string) (Some "Soap"%string) (Some 1)
    (Some "personal"%string) (Some (5 # 2)) (Some 3) None.





(** The threshold [2.5] of [lowSoap] is rounded up to an order of [3]. *)
Example lowSoap_quantity :
  map suggestedOrderQuantity
    (Suggest.items
       (calculateReorderSuggestions ""%string [lowSoap] Suggest.noOptions))
  = [Some 3].
Proof. reflexivity. Qed.

(** ** Empty carts *)

Definition subscribedTea : item :=
  {| itemId := Some "6"%string; name := Some "Tea"%string;
     quantity := Some 1; category := Some "grocery"%string;
     minThreshold := Some 2; price := Some 4;
     purchaseFrequency := Some "weekly"%string;
     dailyConsumptionRate := None; hasSubscription := Some true;
     optimalOrderQuantity := None; purchaseHistory := None;
     orderQuantity := None; store := None; aisle := None;
     daysLeft := None; confidence := None; suggestedOrderQuantity := None;
     bulkRecommended := None; subscriptionEligible := VUndefined;
     urgency := None; consumptionRate := None; essential := None;
     bulkOrderRecommended := None; regularOrderQuantity := None;
     bulkOrderQuantity := None; bulkOrderSavings := None |}.

(** C7 (the code departs from the claim).  [calculateBulkSavings] returns [0]
    on an empty or absent cart, and [calculateSubscriptionSavings] returns
    [totalSavings = 0], no itemized entries and [recommendedItems = 0] there;
    but that early return has no [totalAnnualSavings] field at all, where the
    main path, on a cart without candidates, reports [0]. *)
Theorem empty_cart_savings :
  calculateBulkSavings (Some []) = 0
  /\ calculateBulkSavings None = 0
  /\ calculateSubscriptionSavings (Some []) = Savings.mkResult 0 [] 0 None
  /\ calculateSubscriptionSavings None = Savings.mkResult 0 [] 0 None
  /\ Savings.totalAnnualSavings (calculateSubscriptionSavings (Some []))
     = None
  /\ calculateSubscriptionSavings (Some [subscribedTea])
     = Savings.mkResult 0 [] 0 (Some 0).
Proof. repeat split; reflexivity. Qed.

(** ** Subscription eligibility *)

Lemma count_le (p q : item -> bool) (l : list item) :
  (forall x, In x l -> p x = true -> q x = true) ->
  (count p l <= count q l)%nat.
Proof.
  unfold count. induction l as [|x rest IH]; intro H; cbn [filter];
    [apply Nat.le_refl|].
  assert (IH' : (List.length (filter p rest)
                 <= List.length (filter q rest))%nat).
  { apply IH. intros y Hy. apply H. now right. }
  destruct (p x) eqn:P.
  - rewrite (H x (or_introl eq_refl) P). cbn [List.length]. lia.
  - destruct (q x); cbn [List.length]; lia.
Qed.

(** A truthy flag needs a truthy frequency. *)
Lemma eligible_needs_frequency (it : item) :
  to_boolean (subscriptionEligibleOf it) = true ->
  ostr_truthy (purchaseFrequency it) = true.
Proof.
  unfold subscriptionEligibleOf.
  destruct (purchaseFrequency it) as [f|]; [|discriminate].
  cbn [ostr_truthy]. destruct (str_truthy f) eqn:T; [reflexivity|].
  cbn [negb to_boolean]. now rewrite T.
Qed.

(** C10, as stated, fails: for an item without [purchaseFrequency] (and
    without a subscription) the flag of the returned suggestion is
    [undefined], which is not [false]. *)
Lemma absent_frequency_flag_is_undefined :
  exists s,
    Suggest.items
      (calculateReorderSuggestions ""%string [lowSoap] Suggest.noOptions)
    = [s]
    /\ purchaseFrequency s = None
    /\ hasSubscription s = None
    /\ subscriptionEligible s = VUndefined
    /\ subscriptionEligible s <> VBool false.
Proof.
  eexists. split; [reflexivity|]. repeat split. discriminate.
Qed.

(** C10 (amended).  A suggestion whose [purchaseFrequency] is absent or empty
    carries the falsy frequency itself as its flag, [undefined] or the empty
    string, which is neither [false] nor [true]; the flag is falsy, whether
    or not the item has a subscription, and the suggestion is not counted in
    [subscriptionOpportunities], which never exceeds the number of
    suggestions with a truthy frequency.  Eligibility needs a truthy
    frequency, not just one other than "asNeeded". *)
Theorem falsy_frequency_not_eligible
    (now : string) (inventory : list item) (o : Suggest.options) (s : item) :
  let r := calculateReorderSuggestions now inventory o in
  In s (Suggest.items r) ->
  ostr_truthy (purchaseFrequency s) = false ->
  (purchaseFrequency s = None /\ subscriptionEligible s = VUndefined
   \/ purchaseFrequency s = Some EmptyString
      /\ subscriptionEligible s = VStr EmptyString)
  /\ subscriptionEligible s <> VBool false
  /\ subscriptionEligible s <> VBool true
  /\ to_boolean (subscriptionEligible s) = false
  /\ (forall k, Suggest.subscriptionOpportunities (Suggest.meta r) = Some k ->
      (k <= count (fun x => ostr_truthy (purchaseFrequency x))
              (Suggest.items r))%nat).
Proof.
  intros r H Hf. split; [|split; [|split; [|split]]].
  1-4: apply suggestion_origin in H; destruct H as (it & _ & _ & ->);
       cbn [purchaseFrequency subscriptionEligible toSuggestion] in *;
       unfold subscriptionEligibleOf;
       destruct (purchaseFrequency it) as [f|];
       [destruct f; [|discriminate Hf] |].
  - right. split; reflexivity.
  - left. split; reflexivity.
  - cbn. discriminate.
  - discriminate.
  - cbn. discriminate.
  - discriminate.
  - reflexivity.
  - reflexivity.
  - intros k Hk. subst r. destruct inventory as [|it0 rest];
      [discriminate Hk|].
    cbn [calculateReorderSuggestions Suggest.meta
         Suggest.subscriptionOpportunities Suggest.items] in *.
    injection Hk as <-. apply count_le. intros x Hx.
    apply in_map_iff in Hx. destruct Hx as (it & <- & _).
    cbn [subscriptionEligible purchaseFrequency toSuggestion].
    apply eligible_needs_frequency.
Qed.

Lemma falsy_frequency_not_eligible_witness :
  hasSubscription (toSuggestion Suggest.noOptions lowSoap) = None
  /\ str_is (purchaseFrequency (toSuggestion Suggest.noOptions lowSoap))
       "asNeeded" = false
  /\ subscriptionEligible (toSuggestion Suggest.noOptions lowSoap)
     = VUndefined
  /\ to_boolean (subscriptionEligible (toSuggestion Suggest.noOptions lowSoap))
     = false.
Proof.
  split; [reflexivity|]. split; [reflexivity|].
  destruct (@falsy_frequency_not_eligible ""%string [lowSoap]
              Suggest.noOptions (toSuggestion Suggest.noOptions lowSoap))
    as ([[_ Hflag] | [Hfreq _]] & _ & _ & Hfalsy & _).
  - cbn. left. reflexivity.
  - reflexivity.
  - split; [exact Hflag | exact Hfalsy].
  - discriminate Hfreq.
Defined.

(* ================================================================== *)
(** ** Bulk savings against the specification's formula *)

(** The discount by order quantity, as the specification words it. *)
Definition quantityTier (orderQuantity : Q) : Q :=
  if Qle_bool 10 orderQuantity then 15 # 100
  else if Qle_bool 5 orderQuantity then 12 # 100
  else if Qle_bool 3 orderQuantity then 10 # 100
  else 0.

(** The floor a category guarantees, as the specification words it; [0] when
    no category rule applies. *)
Definition categoryFloor (category : option string) (orderQuantity : Q) : Q :=
  if str_is category "grocery" && Qle_bool 3 orderQuantity then 8 # 100
  else if str_is category "household" && Qle_bool 3 orderQuantity
  then 12 # 100
  else if str_is category "electronics" && Qle_bool 2 orderQuantity
  then 5 # 100
  else 0.

(** Price times quantity times rate; an item without a price contributes
    [0]. *)
Definition specItemSavings (it : item) : Q :=
  match price it with
  | Some p =>
      p * orderQuantityOf it
      * Qmax (quantityTier (orderQuantityOf it))
          (categoryFloor (category it) (orderQuantityOf it))
  | None => 0
  end.

Fixpoint specBulkSavings (items : list item) : Q :=
  match items with
  | [] => 0
  | it :: rest => specItemSavings it + specBulkSavings rest
  end.

Lemma Math_max_Qmax (a b : Q) : Math_max a b == Qmax a b.
Proof.
  unfold Math_max. destruct (Qle_bool a b) eqn:E.
  - apply Qle_bool_iff in E. symmetry. now apply Q.max_r.
  - apply Qle_bool_false in E. symmetry. apply Q.max_l.
    now apply Qlt_le_weak.
Qed.

Lemma quantityTier_nonneg (q : Q) : 0 <= quantityTier q.
Proof.
  unfold quantityTier.
  destruct (Qle_bool 10 q); [discriminate|].
  destruct (Qle_bool 5 q); [discriminate|].
  destruct (Qle_bool 3 q); [discriminate|].
  apply Qle_refl.
Qed.

Lemma bulkDiscountRate_spec (it : item) :
  bulkDiscountRate it
  == Qmax (quantityTier (orderQuantityOf it))
       (categoryFloor (category it) (orderQuantityOf it)).
Proof.
  unfold bulkDiscountRate, categoryFloor. fold (quantityTier (orderQuantityOf it)).
  destruct (str_is (category it) "grocery" && Qle_bool 3 (orderQuantityOf it));
    [apply Math_max_Qmax|].
  destruct (str_is (category it) "household" && Qle_bool 3 (orderQuantityOf it));
    [apply Math_max_Qmax|].
  destruct (str_is (category it) "electronics"
            && Qle_bool 2 (orderQuantityOf it));
    [apply Math_max_Qmax|].
  symmetry. apply Q.max_l. apply quantityTier_nonneg.
Qed.

Lemma bulkReducer_spec (savings : Q) (it : item) :
  bulkReducer savings it == savings + specItemSavings it.
Proof.
  unfold bulkReducer, specItemSavings, num_truthy.
  destruct (price it) as [p|]; cbn [negb dflt].
  - destruct (is_zero p) eqn:Z; cbn [negb].
    + apply is_zero_true in Z. rewrite Z. ring.
    + rewrite bulkDiscountRate_spec. reflexivity.
  - ring.
Qed.

Lemma fold_bulkReducer_spec (items : list item) (savings : Q) :
  fold_left bulkReducer items savings == savings + specBulkSavings items.
Proof.
  revert savings. induction items as [|it rest IH]; intro savings; cbn.
  - ring.
  - rewrite IH, bulkReducer_spec. ring.
Qed.

Definition tenGroceries : item :=
  {| itemId := None; name := None;
     quantity := None; category := Some "grocery"%string;
     minThreshold := None; price := Some 10;
     purchaseFrequency := None;
     dailyConsumptionRate := None; hasSubscription := None;
     optimalOrderQuantity := None; purchaseHistory := None;
     orderQuantity := Some 10; store := None; aisle := None;
     daysLeft := None; confidence := None; suggestedOrderQuantity := None;
     bulkRecommended := None; subscriptionEligible := VUndefined;
     urgency := None; consumptionRate := None; essential := None;
     bulkOrderRecommended := None; regularOrderQuantity := None;
     bulkOrderQuantity := None; bulkOrderSavings := None |}.

(** C8.  For every list of items [calculateBulkSavings] is the sum, over the
    items, of price times order quantity times rate, where the rate is the
    quantity tier (15%, 12%, 10% or 0%) raised to the category floor, and an
    item without a price contributes [0]; on
    [{price:10, orderQuantity:10, category:"grocery"}] it is [15]. *)
Theorem calculateBulkSavings_formula :
  (forall items : list item,
     calculateBulkSavings (Some items) == specBulkSavings items)
  /\ (forall it : item,
        price it = None -> calculateBulkSavings (Some [it]) == 0)
  /\ calculateBulkSavings (Some [tenGroceries]) == 15.
Proof.
  split; [|split].
  - intros [|it rest]; [reflexivity|].
    change (calculateBulkSavings (Some (it :: rest)))
      with (fold_left bulkReducer (it :: rest) 0).
    rewrite fold_bulkReducer_spec. ring.
  - intros it Hp. cbn. unfold bulkReducer, num_truthy. rewrite Hp. reflexivity.
  - reflexivity.
Qed.

Lemma calculateBulkSavings_formula_witness :
  calculateBulkSavings (Some [lowSoap; tenGroceries])
  == specBulkSavings [lowSoap; tenGroceries]
  /\ calculateBulkSavings (Some [outOfStockMilk]) == 0.
Proof.
  split.
  - apply (proj1 calculateBulkSavings_formula).
  - apply (proj1 (proj2 calculateBulkSavings_formula)). reflexivity.
Defined.

(* ================================================================== *)
(** ** The model of [Array.prototype.sort] *)

Section ArraySortFacts.

Variable compareFn : item -> item -> outcome number.

Lemma insertSorted_perm (x : item) (l r : list item) :
  insertSorted compareFn x l = Ok r -> Permutation (x :: l) r.
Proof.
  revert r. induction l as [|y rest IH]; intros r H;
    cbn [insertSorted] in H.
  - injection H as <-. apply Permutation_refl.
  - destruct (compareFn x y) as [v|m]; cbn [bind] in H; [|discriminate].
    destruct (gt v (Fin 0)).
    + destruct (insertSorted compareFn x rest) as [r'|m]; cbn [bind] in H;
        [|discriminate].
      injection H as <-.
      eapply perm_trans; [apply perm_swap|].
      apply perm_skip. now apply IH.
    + injection H as <-. apply Permutation_refl.
Qed.

Lemma arraySort_perm (l s : list item) :
  arraySort compareFn l = Ok s -> Permutation l s.
Proof.
  revert s. induction l as [|x rest IH]; intros s H;
    cbn [arraySort] in H.
  - injection H as <-. apply perm_nil.
  - destruct (arraySort compareFn rest) as [s'|m]; cbn [bind] in H;
      [|discriminate].
    eapply perm_trans; [apply perm_skip, IH; reflexivity|].
    now apply insertSorted_perm.
Qed.

(** A compare function that always throws ends every sort of two or more
    elements. *)
Lemma arraySort_throws (msg : string) (x y : item) (rest : list item) :
  (forall a b, compareFn a b = Throw msg) ->
  arraySort compareFn (x :: y :: rest) = Throw msg.
Proof.
  intro Hc.
  assert (Hne : forall l, l <> [] ->
                  arraySort compareFn l = Throw msg
                  \/ exists z s, arraySort compareFn l = Ok (z :: s)).
  { induction l as [|a l IH]; intro Hl; [congruence|].
    destruct l as [|b l].
    - right. exists a, []. reflexivity.
    - destruct IH as [E | (z & s & E)]; [discriminate | |].
      + left. cbn in *. rewrite E. reflexivity.
      + left. change (arraySort compareFn (a :: b :: l))
          with (s0 <- arraySort compareFn (b :: l) ;;
                insertSorted compareFn a s0).
        rewrite E. cbn. now rewrite Hc. }
  change (arraySort compareFn (x :: y :: rest))
    with (s0 <- arraySort compareFn (y :: rest) ;;
          insertSorted compareFn x s0).
  destruct (Hne (y :: rest)) as [E | (z & s & E)]; [discriminate | |];
    rewrite E; cbn; [reflexivity|]. now rewrite Hc.
Qed.

End ArraySortFacts.

Lemma Permutation_filter (f : item -> bool) (l l' : list item) :
  Permutation l l' -> Permutation (filter f l) (filter f l').
Proof.
  induction 1 as [|x l l' _ IH|x y l|l l' l'' _ IH1 _ IH2]; cbn.
  - apply perm_nil.
  - destruct (f x); [apply perm_skip|]; exact IH.
  - destruct (f x), (f y); try apply Permutation_refl. apply perm_swap.
  - eapply perm_trans; eassumption.
Qed.

Lemma filter_idempotent (f : item -> bool) (l : list item) :
  filter f (filter f l) = filter f l.
Proof.
  induction l as [|x l IH]; [reflexivity|]. cbn.
  destruct (f x) eqn:E; cbn; [rewrite E, IH|]; auto.
Qed.

Lemma filter_none (f : item -> bool) (l : list item) :
  (forall x, In x l -> f x = false) -> filter f l = [].
Proof.
  induction l as [|x l IH]; intro H; [reflexivity|]. cbn.
  rewrite (H x (or_introl eq_refl)). apply IH.
  intros y Hy. apply H. now right.
Qed.

Lemma In_firstn (n : nat) (l : list item) (x : item) :
  In x (firstn n l) -> In x l.
Proof.
  intro H. rewrite <- (firstn_skipn n l). apply in_or_app. now left.
Qed.

Lemma In_slice0 (l : list item) (e : Q) (x : item) :
  In x (slice0 l e) -> In x l.
Proof.
  unfold slice0. destruct (_ <? 0)%Z; apply In_firstn.
Qed.

(* ================================================================== *)
(** ** The budget and the item cap of the optimizer *)

Lemma budgetFilter_keeps_essentials (b : Q) (l : list item) :
  forall runningTotal,
    filter isEssential (budgetFilter b runningTotal l) = filter isEssential l.
Proof.
  induction l as [|it rest IH]; intro rt; [reflexivity|].
  cbn [budgetFilter filter].
  destruct (isEssential it) eqn:E.
  - cbn [filter]. now rewrite E, IH.
  - destruct (le _ _).
    + cbn [filter]. now rewrite E, IH.
    + apply IH.
Qed.

Lemma applyBudget_keeps_essentials (budget : option Q) (l : list item) :
  filter isEssential (applyBudget budget l) = filter isEssential l.
Proof.
  unfold applyBudget. destruct budget as [b|]; [|reflexivity].
  destruct (_ && _); [apply budgetFilter_keeps_essentials | reflexivity].
Qed.

(** Whenever the budget filter lets a non-essential item through, the running
    total, which is the cost of everything kept before it, plus the cost of
    the item is within the budget. *)
Lemma budgetFilter_running_total (b : Q) (l : list item) :
  forall runningTotal pre x post,
    budgetFilter b runningTotal l = pre ++ x :: post ->
    isEssential x = false ->
    le (add (fold_left (fun sum it => add sum (itemCost it)) pre runningTotal)
          (itemCost x))
       (Fin b) = true.
Proof.
  induction l as [|it rest IH]; intros rt pre x post H Hx; cbn [budgetFilter] in H.
  - destruct pre; discriminate.
  - destruct (isEssential it) eqn:E.
    + destruct pre as [|p pre]; cbn in H; injection H as -> H.
      * congruence.
      * cbn [fold_left]. eapply IH; eassumption.
    + destruct (le (add rt (itemCost it)) (Fin b)) eqn:L.
      * destruct pre as [|p pre]; cbn in H; injection H as -> H.
        -- exact L.
        -- cbn [fold_left]. eapply IH; eassumption.
      * eapply IH; eassumption.
Qed.

(** The essential items alone exceed the cap. *)
Definition essentialsExceed (maxItems : option Q) (l : list item) : bool :=
  match maxItems with
  | Some m => Qlt_bool 0 m && Qlt_bool m (lengthQ (filter isEssential l))
  | None => false
  end.

Lemma lengthQ_le (l l' : list item) :
  (List.length l <= List.length l')%nat -> lengthQ l <= lengthQ l'.
Proof.
  intro H. unfold lengthQ. rewrite <- Zle_Qle. lia.
Qed.

Lemma pos_not_zero (m : Q) : Qlt_bool 0 m = true -> is_zero m = false.
Proof.
  intro H. apply Qlt_bool_true in H.
  destruct (is_zero m) eqn:Z; [|reflexivity].
  apply is_zero_true in Z. rewrite Z in H. now apply Qlt_irrefl in H.
Qed.

Lemma slice0_positive (l : list item) (m : Q) :
  Qlt_bool 0 m = true -> slice0 l m = firstn (Z.to_nat (Qfloor m)) l.
Proof.
  intro H. apply Qlt_bool_true in H. unfold slice0.
  assert (E : Qle_bool 0 m = true) by (apply Qle_bool_iff; now apply Qlt_le_weak).
  rewrite E.
  assert (Hf : (0 <= Qfloor m)%Z).
  { rewrite <- (Qfloor_Z 0). apply Qfloor_resp_le. now apply Qlt_le_weak. }
  destruct (Qfloor m <? 0)%Z eqn:K; [|reflexivity].
  apply Z.ltb_lt in K. lia.
Qed.

Lemma applyMaxItems_incl (maxItems : option Q) (l : list item) (x : item) :
  In x (applyMaxItems maxItems l) -> In x l.
Proof.
  unfold applyMaxItems. destruct maxItems as [m|]; [|auto].
  destruct (_ && _); [|auto].
  destruct (Qle_bool m _).
  - intro H. apply In_slice0 in H. now apply filter_In in H.
  - intro H. apply in_app_or in H. destruct H as [H | H].
    + now apply filter_In in H.
    + apply In_slice0 in H. now apply filter_In in H.
Qed.

Lemma applyMaxItems_keeps_essentials (maxItems : option Q) (l : list item) :
  essentialsExceed maxItems l = false ->
  filter isEssential (applyMaxItems maxItems l) = filter isEssential l.
Proof.
  unfold applyMaxItems, essentialsExceed.
  destruct maxItems as [m|]; [|reflexivity].
  intro Hx.
  destruct (negb (is_zero m) && Qlt_bool 0 m
            && Qlt_bool m (lengthQ l)) eqn:C; [|reflexivity].
  apply andb_prop in C. destruct C as [C _].
  apply andb_prop in C. destruct C as [_ Hpos].
  rewrite Hpos in Hx. cbn [andb] in Hx.
  destruct (Qle_bool m (lengthQ (filter isEssential l))) eqn:L.
  - (* the essentials fill the cap exactly *)
    apply Qle_bool_iff in L.
    assert (Hle : lengthQ (filter isEssential l) <= m).
    { apply Qnot_lt_le. intro Hlt. apply Qlt_bool_true in Hlt. congruence. }
    assert (Heq : m == lengthQ (filter isEssential l))
      by (now apply Qle_antisym).
    rewrite slice0_positive by assumption.
    rewrite (Qfloor_comp _ _ Heq). unfold lengthQ.
    rewrite Qfloor_Z, Nat2Z.id, firstn_all.
    apply filter_idempotent.
  - rewrite filter_app, filter_idempotent.
    rewrite (@filter_none isEssential (slice0 _ _)); [apply app_nil_r|].
    intros x Hin. apply In_slice0, filter_In in Hin.
    destruct Hin as [_ Hn]. unfold notEssential in Hn.
    now apply negb_true_iff in Hn.
Qed.

Lemma applyMaxItems_truncates (m : Q) (l : list item) :
  essentialsExceed (Some m) l = true ->
  applyMaxItems (Some m) l
  = firstn (Z.to_nat (Qfloor m)) (filter isEssential l).
Proof.
  unfold applyMaxItems, essentialsExceed. intro H.
  apply andb_prop in H. destruct H as [Hpos Hlt].
  rewrite (pos_not_zero _ Hpos), Hpos. cbn [negb andb].
  assert (Hl : Qlt_bool m (lengthQ l) = true).
  { apply Qlt_bool_true. apply Qlt_bool_true in Hlt.
    eapply Qlt_le_trans; [exact Hlt|]. apply lengthQ_le, filter_length_le. }
  rewrite Hl.
  assert (Hle : Qle_bool m (lengthQ (filter isEssential l)) = true).
  { apply Qle_bool_iff, Qlt_le_weak. now apply Qlt_bool_true. }
  rewrite Hle. now apply slice0_positive.
Qed.

Lemma applyBudget_nil (budget : option Q) : applyBudget budget [] = [].
Proof.
  unfold applyBudget. destruct budget as [b|]; [|reflexivity].
  destruct (_ && _); reflexivity.
Qed.

Lemma applyMaxItems_nil (maxItems : option Q) : applyMaxItems maxItems [] = [].
Proof.
  unfold applyMaxItems. destruct maxItems as [m|]; [|reflexivity].
  destruct (_ && _); [|reflexivity].
  cbn [filter]. unfold slice0. cbn [List.length app].
  destruct (Qle_bool m _); repeat (destruct (_ <? 0)%Z);
    now rewrite ?firstn_nil.
Qed.

Section OptimizerFacts.

Variable localeCompare : string -> string -> Q.

Lemma sortByPreference_perm (o : Optimize.options) (l ordered : list item) :
  sortByPreference localeCompare o l = Ok ordered -> Permutation l ordered.
Proof.
  unfold sortByPreference.
  repeat (destruct (String.eqb _ _)); apply arraySort_perm.
Qed.

(** The ordering step keeps the essential items, whatever the preference. *)
Lemma orderedItems_essentials
    (suggestions : list item) (o : Optimize.options) (ordered : list item) :
  orderedItems localeCompare suggestions o = Ok ordered ->
  Permutation (filter isEssential (map labelEssential suggestions))
    (filter isEssential ordered).
Proof.
  unfold orderedItems. intro H. apply sortByPreference_perm in H.
  apply (Permutation_filter isEssential) in H.
  destruct (dflt (Optimize.includeNonEssentials o) true); [exact H|].
  now rewrite filter_idempotent in H.
Qed.

Lemma optimize_items
    (now : string) (suggestions : list item) (o : Optimize.options)
    (ordered : list item) :
  orderedItems localeCompare suggestions o = Ok ordered ->
  Optimize.items (optimizeShoppingList localeCompare now suggestions o)
  = applyMaxItems (Optimize.maxItems o)
      (applyBudget (Optimize.budget o) ordered).
Proof.
  intro H. destruct suggestions as [|s rest].
  - unfold orderedItems in H. cbn [map filter] in H.
    apply (@sortByPreference_perm o) in H.
    assert (E : ordered = []).
    { destruct (dflt (Optimize.includeNonEssentials o) true);
        now apply Permutation_nil in H. }
    subst ordered. now rewrite applyBudget_nil, applyMaxItems_nil.
  - unfold optimizeShoppingList. now rewrite H.
Qed.

(** With the default preference the compare function reads [this], which is
    [undefined]: a list of two or more suggestions cannot be ordered, and
    the optimizer returns no items. *)
Lemma balanced_order_fails
    (now : string) (s1 s2 : item) (rest : list item) :
  Optimize.items
    (optimizeShoppingList localeCompare now (s1 :: s2 :: rest)
       Optimize.noOptions)
  = []
  /\ Optimize.success
       (Optimize.meta
          (optimizeShoppingList localeCompare now (s1 :: s2 :: rest)
             Optimize.noOptions))
     = false.
Proof.
  unfold optimizeShoppingList, orderedItems, sortByPreference.
  cbn [Optimize.includeNonEssentials Optimize.preference
       Optimize.preferredStores Optimize.noOptions dflt map].
  cbn [String.eqb Ascii.eqb Bool.eqb].
  rewrite (@arraySort_throws (compareBalanced localeCompare [])
             "Cannot read properties of undefined"%string);
    [split; reflexivity|].
  intros a b. reflexivity.
Qed.

(** What the budget and the cap do to a list that has been ordered. *)
Lemma optimize_after_ordering
    (now : string) (suggestions : list item) (o : Optimize.options)
    (ordered : list item) :
  orderedItems localeCompare suggestions o = Ok ordered ->
  let out :=
    Optimize.items (optimizeShoppingList localeCompare now suggestions o) in
  let budgeted := applyBudget (Optimize.budget o) ordered in
  Permutation (filter isEssential (map labelEssential suggestions))
    (filter isEssential ordered)
  /\ (essentialsExceed (Optimize.maxItems o) ordered = false ->
      filter isEssential out = filter isEssential ordered)
  /\ (forall m, Optimize.maxItems o = Some m ->
      essentialsExceed (Some m) ordered = true ->
      out = firstn (Z.to_nat (Qfloor m)) (filter isEssential ordered))
  /\ (forall b, Optimize.budget o = Some b -> 0 < b ->
      forall pre x post,
        budgeted = pre ++ x :: post ->
        isEssential x = false ->
        le (add (totalCostOf pre) (itemCost x)) (Fin b) = true)
  /\ (forall x, In x out -> isEssential x = false -> In x budgeted).
Proof.
  intros H out budgeted.
  assert (Eout : out = applyMaxItems (Optimize.maxItems o) budgeted)
    by (now apply optimize_items).
  assert (Eess : filter isEssential budgeted = filter isEssential ordered)
    by apply applyBudget_keeps_essentials.
  assert (Hex : essentialsExceed (Optimize.maxItems o) budgeted
                = essentialsExceed (Optimize.maxItems o) ordered).
  { unfold essentialsExceed. now rewrite Eess. }
  split; [now apply (@orderedItems_essentials suggestions o)|].
  split; [|split; [|split]].
  - intro Hn. rewrite Eout, <- Eess.
    apply applyMaxItems_keeps_essentials. now rewrite Hex.
  - intros m Hm Hx. rewrite Eout, Hm, <- Eess.
    apply applyMaxItems_truncates. rewrite Hm in Hex. now rewrite Hex.
  - intros b Hb Hpos pre x post Hsplit Hx.
    unfold budgeted, applyBudget in Hsplit. rewrite Hb in Hsplit.
    assert (Hp : Qlt_bool 0 b = true) by now apply Qlt_bool_true.
    rewrite (pos_not_zero _ Hp), Hp in Hsplit. cbn [negb andb] in Hsplit.
    unfold totalCostOf. eapply budgetFilter_running_total; eassumption.
  - intros x Hin _. rewrite Eout in Hin.
    now apply applyMaxItems_incl in Hin.
Qed.

Lemma optimize_items_throw
    (now : string) (suggestions : list item) (o : Optimize.options)
    (message : string) :
  orderedItems localeCompare suggestions o = Throw message ->
  Optimize.items (optimizeShoppingList localeCompare now suggestions o) = [].
Proof.
  intro H. destruct suggestions as [|s rest]; [reflexivity|].
  unfold optimizeShoppingList. now rewrite H.
Qed.

(** The options with [maxItems] and [budget] left out. *)
Definition withoutLimits (o : Optimize.options) : Optimize.options :=
  Optimize.mkOptions (Optimize.preference o) None None
    (Optimize.preferredStores o) (Optimize.includeNonEssentials o).

(** The options with [budget] left out. *)
Definition withoutBudget (o : Optimize.options) : Optimize.options :=
  Optimize.mkOptions (Optimize.preference o) (Optimize.maxItems o) None
    (Optimize.preferredStores o) (Optimize.includeNonEssentials o).

(** A budget that is not positive switches the budget step off. *)
Lemma applyBudget_not_positive (b : Q) (l : list item) :
  b <= 0 -> applyBudget (Some b) l = l.
Proof.
  intro H. unfold applyBudget.
  assert (E : Qlt_bool 0 b = false).
  { unfold Qlt_bool. apply negb_false_iff. now apply Qle_bool_iff. }
  now rewrite E, andb_false_r.
Qed.

(** C2 (amended).  For every suggestions list and every option combination,
    compare the result with the result of the same call without [maxItems]
    and [budget].  Unless the essential items alone exceed a positive
    [maxItems], every essential item of the unlimited result is in the
    result, in the same order; if they do exceed it, the result is those
    essential items cut to the cap.  When [budget] is a positive number,
    every non-essential item that the budget step keeps was added while the
    running total, its own cost included, was within the budget, and the
    result has no other non-essential item.  When [budget] is [0] or
    negative it applies no limit: the budget step returns its input, and the
    whole result is that of the same call without [budget].  When the
    ordering step completes, the essential items of the unlimited result are
    the suggestions labelled essential. *)
Theorem optimize_keeps_essentials_within_budget
    (now : string) (suggestions : list item) (o : Optimize.options) :
  let unlimited :=
    Optimize.items
      (optimizeShoppingList localeCompare now suggestions (withoutLimits o)) in
  let budgeted := applyBudget (Optimize.budget o) unlimited in
  let out :=
    Optimize.items (optimizeShoppingList localeCompare now suggestions o) in
  (essentialsExceed (Optimize.maxItems o) unlimited = false ->
   filter isEssential out = filter isEssential unlimited)
  /\ (forall m, Optimize.maxItems o = Some m ->
      essentialsExceed (Some m) unlimited = true ->
      out = firstn (Z.to_nat (Qfloor m)) (filter isEssential unlimited))
  /\ (forall b, Optimize.budget o = Some b -> 0 < b ->
      forall pre x post,
        budgeted = pre ++ x :: post ->
        isEssential x = false ->
        le (add (totalCostOf pre) (itemCost x)) (Fin b) = true)
  /\ (forall x, In x out -> isEssential x = false -> In x budgeted)
  /\ (forall b, Optimize.budget o = Some b -> b <= 0 ->
      budgeted = unlimited
      /\ optimizeShoppingList localeCompare now suggestions o
         = optimizeShoppingList localeCompare now suggestions
             (withoutBudget o))
  /\ (forall ordered,
        orderedItems localeCompare suggestions o = Ok ordered ->
        unlimited = ordered
        /\ Permutation (filter isEssential (map labelEssential suggestions))
             (filter isEssential unlimited)).
Proof.
  intros unlimited budgeted out.
  assert (Hzero : forall b, Optimize.budget o = Some b -> b <= 0 ->
            budgeted = unlimited
            /\ optimizeShoppingList localeCompare now suggestions o
               = optimizeShoppingList localeCompare now suggestions
                   (withoutBudget o)).
  { intros b Hb Hle. split.
    - unfold budgeted. rewrite Hb. now apply applyBudget_not_positive.
    - unfold optimizeShoppingList.
      change (orderedItems localeCompare suggestions (withoutBudget o))
        with (orderedItems localeCompare suggestions o).
      cbn [Optimize.budget Optimize.maxItems Optimize.preference
           withoutBudget applyBudget].
      rewrite Hb.
      destruct suggestions as [|s0 rest]; [reflexivity|].
      destruct (orderedItems localeCompare (s0 :: rest) o) as [ordered|msg];
        [|reflexivity].
      now rewrite (applyBudget_not_positive ordered Hle). }
  assert (Hsame : orderedItems localeCompare suggestions (withoutLimits o)
                  = orderedItems localeCompare suggestions o)
    by reflexivity.
  destruct (orderedItems localeCompare suggestions o) as [ordered|msg] eqn:E.
  - assert (Hu : unlimited = ordered).
    { unfold unlimited. now rewrite (optimize_items now _ _ Hsame). }
    destruct (optimize_after_ordering now _ _ E) as (Hp & H1 & H2 & H3 & H4).
    unfold budgeted, out. rewrite Hu.
    split; [exact H1|]. split; [exact H2|]. split; [exact H3|].
    split; [exact H4|]. split.
    + intros b Hb Hle. destruct (Hzero b Hb Hle) as [Hz1 Hz2].
      split; [|exact Hz2]. unfold budgeted in Hz1. now rewrite Hu in Hz1.
    + intros ordered' E'. split; [congruence|].
      assert (ordered' = ordered) as -> by congruence. exact Hp.
  - assert (Hu : unlimited = [])
      by (unfold unlimited; now rewrite (optimize_items_throw now _ _ Hsame)).
    assert (Ho : out = [])
      by (unfold out; now rewrite (optimize_items_throw now _ _ E)).
    split; [|split; [|split; [|split; [|split]]]].
    + intros _. now rewrite Ho, Hu.
    + intros m _ _. rewrite Ho, Hu. cbn [filter]. now rewrite firstn_nil.
    + intros b _ _ pre x post Hsplit.
      unfold budgeted in Hsplit. rewrite Hu, applyBudget_nil in Hsplit.
      now destruct pre.
    + intros x Hin. rewrite Ho in Hin. destruct Hin.
    + exact Hzero.
    + intros ordered' E'. discriminate E'.
Qed.

End OptimizerFacts.

(** A concrete [localeCompare]: the order of the code units. *)
Definition codeUnitCompare (a b : string) : Q :=
  match String.compare a b with
  | Lt => -1
  | Eq => 0
  | Gt => 1
  end.

(** A suggestion as the optimizer receives it. *)
Definition suggestionOf
    (n c : string) (q m p : Q) (f u : string) : item :=
  {| itemId := Some n; name := Some n;
     quantity := Some q; category := Some c;
     minThreshold := Some m; price := Some p;
     purchaseFrequency := Some f;
     dailyConsumptionRate := None; hasSubscription := None;
     optimalOrderQuantity := None; purchaseHistory := None;
     orderQuantity := None; store := None; aisle := None;
     daysLeft := None; confidence := None; suggestedOrderQuantity := Some 1;
     bulkRecommended := Some false; subscriptionEligible := VBool true;
     urgency := Some u; consumptionRate := None; essential := None;
     bulkOrderRecommended := None; regularOrderQuantity := None;
     bulkOrderQuantity := None; bulkOrderSavings := None |}.

Definition gadget : item :=
  suggestionOf "TV" "electronics" 5 1 10 "monthly" "low".
Definition radio : item :=
  suggestionOf "Radio" "electronics" 4 1 10 "monthly" "low".
Definition bread : item :=
  suggestionOf "Bread" "grocery" 3 1 5 "weekly" "low".

(** C2, as stated, fails for the option [budget: 0] (and for a negative
    budget): the guard [budget && budget > 0] switches the budget step off,
    and a non-essential item of cost [10] is returned although the running
    total [0 + 10] is above the budget.  Likewise [maxItems: 0] is no cap: one
    essential item exceeds it and is not cut. *)
Lemma zero_budget_keeps_non_essential :
  let zeroBudget := Optimize.mkOptions None None (Some 0) None None in
  let negativeBudget := Optimize.mkOptions None None (Some (-5)) None None in
  let zeroCap := Optimize.mkOptions None (Some 0) None None None in
  Optimize.items
    (optimizeShoppingList codeUnitCompare ""%string [gadget] zeroBudget)
  = [labelEssential gadget]
  /\ Optimize.items
       (optimizeShoppingList codeUnitCompare ""%string [gadget] negativeBudget)
     = [labelEssential gadget]
  /\ isEssential (labelEssential gadget) = false
  /\ itemCost (labelEssential gadget) = Fin 10
  /\ le (add (Fin 0) (itemCost (labelEssential gadget))) (Fin 0) = false
  /\ le (add (Fin 0) (itemCost (labelEssential gadget))) (Fin (-5)) = false
  /\ Optimize.items
       (optimizeShoppingList codeUnitCompare ""%string [bread] zeroCap)
     = [labelEssential bread]
  /\ isEssential (labelEssential bread) = true.
Proof. repeat split; reflexivity. Qed.

Definition timeWithBudget : Optimize.options :=
  Optimize.mkOptions (Some "time"%string) None (Some 15) None None.

Definition tripOrdered : list item :=
  map labelEssential [bread; gadget; radio].

Lemma optimize_keeps_essentials_within_budget_witness :
  filter isEssential
    (Optimize.items
       (optimizeShoppingList codeUnitCompare ""%string
          [gadget; bread; radio] timeWithBudget))
  = filter isEssential
      (Optimize.items
         (optimizeShoppingList codeUnitCompare ""%string
            [gadget; bread; radio] (withoutLimits timeWithBudget)))
  /\ le (add (totalCostOf [labelEssential bread])
           (itemCost (labelEssential gadget)))
        (Fin 15) = true
  /\ Optimize.items
       (optimizeShoppingList codeUnitCompare ""%string
          [gadget; bread; radio] (withoutLimits timeWithBudget))
     = tripOrdered.
Proof.
  destruct (@optimize_keeps_essentials_within_budget codeUnitCompare
              ""%string [gadget; bread; radio] timeWithBudget)
    as (Hkeep & _ & Hbudget & _ & _ & Hord).
  split; [apply Hkeep; reflexivity|]. split.
  - apply (Hbudget 15 eq_refl eq_refl [labelEssential bread]
             (labelEssential gadget) []); reflexivity.
  - apply (Hord tripOrdered). reflexivity.
Defined.

(** With a budget of [15] the trip keeps the bread and one of the two
    non-essential items. *)
Example trip_within_budget :
  map name
    (Optimize.items
       (optimizeShoppingList codeUnitCompare ""%string
          [gadget; bread; radio] timeWithBudget))
  = [Some "Bread"%string; Some "TV"%string].
Proof. reflexivity. Qed.

(* ================================================================== *)
(** ** Sorting with a compare function that cannot throw *)

Section PureCompare.

Variable compare : item -> item -> number.

(** The sort never moves [a] behind [b] and [b] behind [a]. *)
Hypothesis compare_antisym :
  forall a b,
    gt (compare a b) (Fin 0) = true -> gt (compare b a) (Fin 0) = false.

Let compareFn (a b : item) : outcome number := Ok (compare a b).
Let inOrder (a b : item) : Prop := gt (compare a b) (Fin 0) = false.

Lemma insertSorted_total (x : item) (l : list item) :
  exists r, insertSorted compareFn x l = Ok r.
Proof.
  induction l as [|y rest (r & IH)]; cbn [insertSorted].
  - eauto.
  - unfold compareFn at 1. cbn [bind].
    destruct (gt (compare x y) (Fin 0)); [|eauto].
    rewrite IH. cbn [bind]. eauto.
Qed.

Lemma arraySort_total (l : list item) :
  exists s, arraySort compareFn l = Ok s.
Proof.
  induction l as [|x rest (s & IH)]; cbn [arraySort]; [eauto|].
  rewrite IH. cbn [bind]. apply insertSorted_total.
Qed.

Lemma insertSorted_sorted (x : item) (l : list item) :
  forall r,
    Sorted inOrder l ->
    insertSorted compareFn x l = Ok r ->
    Sorted inOrder r
    /\ (forall y, HdRel inOrder y l -> inOrder y x -> HdRel inOrder y r).
Proof.
  induction l as [|y rest IH]; intros r Hs H; cbn [insertSorted] in H.
  - injection H as <-. split; [repeat constructor|].
    intros z _ Hz. now constructor.
  - unfold compareFn at 1 in H. cbn [bind] in H.
    destruct (gt (compare x y) (Fin 0)) eqn:G.
    + destruct (insertSorted compareFn x rest) as [r'|m] eqn:E;
        cbn [bind] in H; [|discriminate].
      injection H as <-.
      apply Sorted_inv in Hs. destruct Hs as [Hs Hhd].
      destruct (IH r' Hs eq_refl) as [Hr Hh].
      split.
      * constructor; [exact Hr|].
        apply Hh; [exact Hhd|]. now apply compare_antisym.
      * intros z Hz _. apply HdRel_inv in Hz. now constructor.
    + injection H as <-. split.
      * constructor; [exact Hs|]. now constructor.
      * intros z _ Hz. now constructor.
Qed.

Lemma arraySort_sorted (l s : list item) :
  arraySort compareFn l = Ok s -> Sorted inOrder s.
Proof.
  revert s. induction l as [|x rest IH]; intros s H; cbn [arraySort] in H.
  - injection H as <-. constructor.
  - destruct (arraySort compareFn rest) as [s'|m]; cbn [bind] in H;
      [|discriminate].
    now apply (insertSorted_sorted x (l := s')); [apply IH|].
Qed.

End PureCompare.

Lemma Sorted_weaken (R R' : item -> item -> Prop) (l : list item) :
  (forall a b, R a b -> R' a b) -> Sorted R l -> Sorted R' l.
Proof.
  intros HR. induction 1 as [|a l _ IH Hhd]; constructor; [exact IH|].
  destruct Hhd; constructor. now apply HR.
Qed.

(* ================================================================== *)
(** ** The order used for batching *)

Definition outOfStock (it : item) : bool := num_is (quantity it) 0.
Definition belowThreshold (it : item) : bool :=
  le (of_field (quantity it)) (of_field (minThreshold it)).
Definition aboveThreshold (it : item) : bool :=
  gt (of_field (quantity it)) (of_field (minThreshold it)).

(** [a] may stand immediately before [b]: an out-of-stock item is not
    preceded by an item in stock; with equal stock status an item below its
    threshold is not preceded by one above it; and when neither rule
    separates them the days left do not decrease. *)
Definition batchOrder (a b : item) : Prop :=
  (outOfStock b = true -> outOfStock a = true)
  /\ (outOfStock a = outOfStock b ->
      belowThreshold b = true -> aboveThreshold a = false)
  /\ (outOfStock a = outOfStock b ->
      belowThreshold a && aboveThreshold b = false ->
      gt (sub (of_field (daysLeft a)) (of_field (daysLeft b))) (Fin 0)
      = false).

Lemma le_not_gt (x y : number) : le x y = true -> gt x y = false.
Proof.
  unfold gt. destruct x as [| | |p], y as [| | |q]; cbn; try congruence.
  intro H. unfold Qlt_bool. now rewrite H.
Qed.

Lemma sub_antisym (x y : option Q) :
  gt (sub (of_field x) (of_field y)) (Fin 0) = true ->
  gt (sub (of_field y) (of_field x)) (Fin 0) = false.
Proof.
  destruct x as [p|], y as [q|]; cbn; try congruence.
  intro H. apply Qlt_bool_true in H.
  destruct (Qlt_bool 0 (q + - p)) eqn:E; [|reflexivity].
  apply Qlt_bool_true in E. lra.
Qed.

(** Case analysis on the four threshold tests of the compare function. *)
Ltac threshold_cases a b :=
  destruct (le (of_field (quantity a)) (of_field (minThreshold a))),
    (gt (of_field (quantity a)) (of_field (minThreshold a))),
    (le (of_field (quantity b)) (of_field (minThreshold b))),
    (gt (of_field (quantity b)) (of_field (minThreshold b))).

Lemma compareForBatching_antisym (a b : item) :
  gt (compareForBatching a b) (Fin 0) = true ->
  gt (compareForBatching b a) (Fin 0) = false.
Proof.
  unfold compareForBatching.
  destruct (num_is (quantity a) 0), (num_is (quantity b) 0);
    cbn [andb negb]; try (intro H; (reflexivity || discriminate H)).
  all: threshold_cases a b; cbn [andb]; intro H;
    try reflexivity; try discriminate H; now apply sub_antisym.
Qed.

Lemma compareForBatching_order (a b : item) :
  gt (compareForBatching a b) (Fin 0) = false -> batchOrder a b.
Proof.
  unfold compareForBatching, batchOrder, outOfStock, belowThreshold,
    aboveThreshold.
  pose proof (@le_not_gt (of_field (quantity a)) (of_field (minThreshold a)))
    as Ha.
  pose proof (@le_not_gt (of_field (quantity b)) (of_field (minThreshold b)))
    as Hb.
  destruct (num_is (quantity a) 0), (num_is (quantity b) 0);
    cbn [andb negb]; intro H; try discriminate H.
  all: threshold_cases a b; cbn [andb] in *;
    try discriminate H;
    try (specialize (Ha eq_refl); discriminate Ha);
    try (specialize (Hb eq_refl); discriminate Hb);
    repeat split; intros; try congruence.
Qed.

Lemma sortForBatching_spec (optimizedItems : list item) :
  exists sorted,
    sortForBatching optimizedItems = Ok sorted
    /\ Permutation optimizedItems sorted
    /\ Sorted batchOrder sorted
    /\ StronglySorted (fun a b => outOfStock b = true -> outOfStock a = true)
         sorted.
Proof.
  destruct (arraySort_total compareForBatching optimizedItems) as (s & E).
  exists s. split; [exact E|]. split; [now apply arraySort_perm in E|].
  assert (Hs : Sorted batchOrder s).
  { apply (@arraySort_sorted compareForBatching compareForBatching_antisym)
      in E.
    revert E. apply Sorted_weaken. apply compareForBatching_order. }
  split; [exact Hs|].
  apply Sorted_StronglySorted.
  - intros x y z Hxy Hyz Hz. auto.
  - revert Hs. apply Sorted_weaken. intros x y (H & _). exact H.
Qed.

(* ================================================================== *)
(** ** The batching loop *)

(** Inside a batch, no item after the first was added past the cost cap. *)
Definition withinCap (l : list item) : Prop :=
  forall pre x post,
    l = pre ++ x :: post -> pre <> [] ->
    gt (add (totalCostOf pre) (itemCost x)) (Fin 100) = false.

Definition batchOk (b : Plan.batch) : Prop :=
  (1 <= List.length (Plan.items b) <= 10)%nat
  /\ Plan.itemCount b = List.length (Plan.items b)
  /\ Plan.totalCost b = totalCostOf (Plan.items b)
  /\ Plan.essentialItemCount b = count isEssential (Plan.items b)
  /\ withinCap (Plan.items b).

(** A batch is closed only when it is full or when the first item of the
    next batch would have taken it over the cost cap. *)
Definition startsAfter (b next : Plan.batch) : Prop :=
  match Plan.items next with
  | [] => False
  | x :: _ =>
      List.length (Plan.items b) = 10%nat
      \/ gt (add (Plan.totalCost b) (itemCost x)) (Fin 100) = true
  end.

(** The items placed so far, in order. *)
Definition placed (st : batching) : list item :=
  List.concat (map Plan.items (batches st)) ++ currentBatch st.

Definition openBatch (st : batching) : Plan.batch :=
  closeBatch (currentBatch st) (currentBatchCost st).

Record batchingOk (st : batching) : Prop := mkBatchingOk {
  closed_ok : Forall batchOk (batches st);
  open_length : (List.length (currentBatch st) <= 10)%nat;
  open_cost : currentBatchCost st = totalCostOf (currentBatch st);
  open_cap : withinCap (currentBatch st);
  greedy : Sorted startsAfter (batches st ++ [openBatch st])
}.

Lemma totalCostOf_snoc (l : list item) (x : item) :
  totalCostOf (l ++ [x]) = add (totalCostOf l) (itemCost x).
Proof. unfold totalCostOf. now rewrite fold_left_app. Qed.

Lemma withinCap_snoc (l : list item) (x : item) :
  withinCap l ->
  (l <> [] -> gt (add (totalCostOf l) (itemCost x)) (Fin 100) = false) ->
  withinCap (l ++ [x]).
Proof.
  intros Hl Hx pre y post Hsplit Hpre.
  destruct post as [|z post'] using rev_ind.
  - apply app_inj_tail in Hsplit. destruct Hsplit as [-> ->]. auto.
  - clear IHpost'.
    change (pre ++ y :: post' ++ [z]) with (pre ++ (y :: post') ++ [z])
      in Hsplit.
    rewrite app_assoc in Hsplit. apply app_inj_tail in Hsplit.
    destruct Hsplit as [-> _]. eapply Hl; eauto.
Qed.

Lemma withinCap_single (x : item) : withinCap [x].
Proof.
  intros pre y post Hsplit Hpre.
  destruct pre as [|p pre]; [congruence|].
  destruct pre; discriminate.
Qed.

Lemma Sorted_snoc (R : Plan.batch -> Plan.batch -> Prop)
    (l : list Plan.batch) (x y : Plan.batch) :
  Sorted R (l ++ [x]) -> R x y -> Sorted R ((l ++ [x]) ++ [y]).
Proof.
  intros Hs Hxy. induction l as [|a l IH]; cbn in *.
  - repeat constructor. exact Hxy.
  - apply Sorted_inv in Hs. destruct Hs as [Hs Hhd].
    constructor; [now apply IH|].
    destruct l; cbn in *; apply HdRel_inv in Hhd; now constructor.
Qed.

Lemma Sorted_replace_last (R : Plan.batch -> Plan.batch -> Prop)
    (l : list Plan.batch) (x y : Plan.batch) :
  Sorted R (l ++ [x]) -> (forall b, R b x -> R b y) -> Sorted R (l ++ [y]).
Proof.
  intros Hs Hxy. induction l as [|a l IH]; cbn in *.
  - repeat constructor.
  - apply Sorted_inv in Hs. destruct Hs as [Hs Hhd].
    constructor; [now apply IH|].
    destruct l; cbn in *; apply HdRel_inv in Hhd; constructor; auto.
Qed.

Lemma Sorted_remove_last (R : Plan.batch -> Plan.batch -> Prop)
    (l : list Plan.batch) (x : Plan.batch) :
  Sorted R (l ++ [x]) -> Sorted R l.
Proof.
  induction l as [|a l IH]; cbn; intro Hs; [constructor|].
  apply Sorted_inv in Hs. destruct Hs as [Hs Hhd].
  constructor; [now apply IH|].
  destruct l; cbn in *; [constructor|].
  apply HdRel_inv in Hhd. now constructor.
Qed.

Lemma batchStep_placed (st : batching) (it : item) :
  placed (batchStep st it) = placed st ++ [it].
Proof.
  unfold batchStep, placed.
  destruct (_ || _); cbn [batches currentBatch].
  - rewrite map_app, concat_app. cbn. now rewrite !app_nil_r.
  - now rewrite app_assoc.
Qed.

Lemma batchStep_ok (st : batching) (it : item) :
  batchingOk st -> batchingOk (batchStep st it).
Proof.
  intros [Hc Hlen Hcost Hcap Hg]. unfold batchStep.
  destruct ((10 <=? List.length (currentBatch st))%nat
            || gt (add (currentBatchCost st) (itemCost it)) (Fin 100)
               && (0 <? List.length (currentBatch st))%nat) eqn:C.
  - (* the current batch is closed and [it] opens the next one *)
    assert (Hpos : (1 <= List.length (currentBatch st))%nat).
    { apply orb_prop in C. destruct C as [C | C].
      - apply Nat.leb_le in C. lia.
      - apply andb_prop in C. destruct C as [_ C].
        apply Nat.ltb_lt in C. lia. }
    constructor; cbn [batches currentBatch currentBatchCost].
    + apply Forall_app. split; [exact Hc|].
      constructor; [|constructor].
      unfold batchOk, closeBatch. cbn. repeat split; auto.
    + cbn. lia.
    + reflexivity.
    + apply withinCap_single.
    + apply Sorted_snoc; [exact Hg|].
      unfold startsAfter, openBatch, closeBatch. cbn.
      apply orb_prop in C. destruct C as [C | C].
      * left. apply Nat.leb_le in C. lia.
      * right. apply andb_prop in C. tauto.
  - (* [it] joins the current batch *)
    apply orb_false_elim in C. destruct C as [C1 C2].
    apply Nat.leb_gt in C1.
    constructor; cbn [batches currentBatch currentBatchCost].
    + exact Hc.
    + rewrite length_app. cbn. lia.
    + now rewrite totalCostOf_snoc, Hcost.
    + apply withinCap_snoc; [exact Hcap|].
      intro Hne. rewrite <- Hcost.
      apply andb_false_elim in C2. destruct C2 as [C2 | C2]; [exact C2|].
      apply Nat.ltb_ge in C2. destruct (currentBatch st); [congruence|].
      cbn in C2. lia.
    + eapply Sorted_replace_last; [exact Hg|].
      intros b. unfold startsAfter, openBatch, closeBatch. cbn.
      destruct (currentBatch st); [tauto | cbn; auto].
Qed.

Lemma fold_batchStep_placed (l : list item) :
  forall st, placed (fold_left batchStep l st) = placed st ++ l.
Proof.
  induction l as [|it rest IH]; intro st; cbn [fold_left].
  - now rewrite app_nil_r.
  - rewrite IH, batchStep_placed, <- app_assoc. reflexivity.
Qed.

Lemma fold_batchStep_ok (l : list item) :
  forall st, batchingOk st -> batchingOk (fold_left batchStep l st).
Proof.
  induction l as [|it rest IH]; intros st H; cbn [fold_left]; [exact H|].
  apply IH. now apply batchStep_ok.
Qed.

Lemma initial_batching_ok : batchingOk (mkBatching [] [] (Fin 0)).
Proof.
  constructor; cbn.
  - constructor.
  - lia.
  - reflexivity.
  - intros pre x post H. destruct pre; discriminate.
  - repeat constructor.
Qed.

Lemma planBatches_concat (l : list item) :
  List.concat (map Plan.items (planBatches l)) = l.
Proof.
  unfold planBatches.
  pose proof (fold_batchStep_placed l (mkBatching [] [] (Fin 0))) as H.
  cbn [placed batches currentBatch map List.concat app] in H.
  set (st := fold_left batchStep l (mkBatching [] [] (Fin 0))) in *.
  unfold placed in H.
  destruct (currentBatch st) as [|x cur] eqn:E; cbn [List.length Nat.ltb Nat.leb].
  - now rewrite app_nil_r in H.
  - rewrite map_app, concat_app. cbn. now rewrite app_nil_r.
Qed.

Lemma planBatches_ok (l : list item) :
  Forall batchOk (planBatches l) /\ Sorted startsAfter (planBatches l).
Proof.
  unfold planBatches.
  pose proof (fold_batchStep_ok l initial_batching_ok) as H.
  set (st := fold_left batchStep l (mkBatching [] [] (Fin 0))) in *.
  destruct H as [Hc Hlen Hcost Hcap Hg].
  destruct (currentBatch st) as [|x cur] eqn:E; cbn [List.length Nat.ltb Nat.leb].
  - split; [exact Hc|]. now apply Sorted_remove_last in Hg.
  - split.
    + apply Forall_app. split; [exact Hc|].
      constructor; [|constructor].
      unfold batchOk, closeBatch. cbn [Plan.items Plan.itemCount
        Plan.totalCost Plan.essentialItemCount].
      repeat split; auto. cbn. lia.
    + unfold openBatch in Hg. now rewrite E in Hg.
Qed.

(* ================================================================== *)
(** ** The batch planner *)

Definition decimal (n : nat) : string :=
  NilEmpty.string_of_uint (Nat.to_uint n).

(** Twenty-five essential suggestions of cost 5 each. *)
Definition fiveDollarItem (n : nat) : item :=
  {| itemId := Some (decimal n); name := Some ("Item " ++ decimal n)%string;
     quantity := Some 1; category := Some "grocery"%string;
     minThreshold := Some 1; price := Some 5;
     purchaseFrequency := None;
     dailyConsumptionRate := None; hasSubscription := None;
     optimalOrderQuantity := None; purchaseHistory := None;
     orderQuantity := None; store := None; aisle := None;
     daysLeft := None; confidence := None; suggestedOrderQuantity := Some 1;
     bulkRecommended := Some false; subscriptionEligible := VUndefined;
     urgency := Some "high"%string; consumptionRate := None;
     essential := Some true;
     bulkOrderRecommended := None; regularOrderQuantity := None;
     bulkOrderQuantity := None; bulkOrderSavings := None |}.

Definition twentyFiveItems : list item := map fiveDollarItem (seq 1 25).

(** C6.  For every optimized item list the batching sort succeeds and returns
    a permutation of the list in the batching order (out-of-stock items
    first, then items below their threshold, then by ascending days left);
    the batches, in creation order, concatenate to exactly that sorted list,
    so no item is dropped and none is in two batches; each batch has between
    1 and 10 items, records its count and cost, and none of its items after
    the first was added past the cost cap of 100; and a batch is closed only
    when it holds 10 items or the next item would exceed the cap.  The plan of
    [generateSmartReorderPlan] consists of these batches for the optimizer's
    items.  Twenty-five items of cost 5 give batches of 10, 10 and 5. *)
Theorem batches_partition_the_optimized_items :
  (forall optimizedItems : list item,
     exists sorted,
       sortForBatching optimizedItems = Ok sorted
       /\ Permutation optimizedItems sorted
       /\ Sorted batchOrder sorted
       /\ StronglySorted
            (fun a b => outOfStock b = true -> outOfStock a = true) sorted
       /\ List.concat (map Plan.items (planBatches sorted)) = sorted
       /\ Forall batchOk (planBatches sorted)
       /\ Sorted startsAfter (planBatches sorted))
  /\ (forall localeCompare now it rest o,
        exists p,
          generateSmartReorderPlan localeCompare now (it :: rest) o
          = Plan.mkResult true None (Some p)
          /\ Permutation
               (Optimize.items
                  (optimizedForPlan localeCompare now (it :: rest) o))
               (List.concat (map Plan.items (Plan.batches p)))
          /\ Forall batchOk (Plan.batches p)
          /\ Sorted startsAfter (Plan.batches p))
  /\ sortForBatching twentyFiveItems = Ok twentyFiveItems
  /\ map Plan.itemCount (planBatches twentyFiveItems) = [10; 10; 5]%nat
  /\ map Plan.totalCost (planBatches twentyFiveItems)
     = [Fin 50; Fin 50; Fin 25].
Proof.
  split; [|split; [|split; [|split]]].
  - intro optimizedItems.
    destruct (sortForBatching_spec optimizedItems) as (s & E & Hp & Hs & Hss).
    exists s. repeat (split; [assumption|]).
    split; [apply planBatches_concat|]. apply planBatches_ok.
  - intros lc now it rest o.
    destruct (sortForBatching_spec
                (Optimize.items (optimizedForPlan lc now (it :: rest) o)))
      as (s & E & Hp & _).
    unfold generateSmartReorderPlan. rewrite E.
    eexists. split; [reflexivity|].
    cbn [Plan.batches]. rewrite planBatches_concat.
    split; [exact Hp|]. apply planBatches_ok.
  - vm_compute. reflexivity.
  - vm_compute. reflexivity.
  - vm_compute. reflexivity.
Qed.

(** The same scenario through [generateSmartReorderPlan]: an inventory of
    twenty-five low items priced 5. *)
Definition lowItem (n : nat) : item :=
  inventoryItem (Some (decimal n)) (Some ("Item " ++ decimal n)%string)
    (Some 1) (Some "grocery"%string) (Some 1) (Some 5) None.

Definition lowInventory : list item := map lowItem (seq 1 25).

Definition batchSizes (r : Plan.result) : list nat :=
  match Plan.thePlan r with
  | Some p => map Plan.itemCount (Plan.batches p)
  | None => []
  end.

(** With the preference "time" the plan has batches of 10, 10 and 5 items. *)
Example lowInventory_plan_by_time :
  batchSizes
    (generateSmartReorderPlan codeUnitCompare ""%string lowInventory
       (Plan.mkOptions None None None None (Some "time"%string)))
  = [10; 10; 5]%nat.
Proof. vm_compute. reflexivity. Qed.

(** With the default preference the optimizer returns nothing (its compare
    function throws), and the plan has no batch. *)
Example lowInventory_plan_by_default :
  batchSizes
    (generateSmartReorderPlan codeUnitCompare ""%string lowInventory
       Plan.noOptions)
  = [].
Proof. vm_compute. reflexivity. Qed.

(* ================================================================== *)
(** * Further properties of the engine *)

(** ** What the validator accepts *)

Lemma includes_In (l : list string) (s : string) :
  includes l s = true <-> In s l.
Proof.
  unfold includes. rewrite existsb_exists. split.
  - intros (x & Hin & E). apply String.eqb_eq in E. now subst.
  - intro H. exists s. split; [exact H | apply String.eqb_refl].
Qed.

(** The validator on records whose fields hold arbitrary JavaScript values,
    as the entry form can store them: the [typeof] and [isNaN] tests are
    written out. *)
Module Raw.

Inductive jsValue : Type :=
| Undefined
| Null
| Boolean (b : bool)
| Number (n : number)
| Text (s : string)
| Object.                    (* an object, an array or a function *)

Record record : Type := mkRecord {
  name : jsValue;
  quantity : jsValue;
  category : jsValue;
  price : jsValue;
  minThreshold : jsValue;
  purchaseFrequency : jsValue
}.

(** [!!v]. *)
Definition truthy (v : jsValue) : bool :=
  match v with
  | Undefined | Null => false
  | Boolean b => b
  | Number NaN => false
  | Number (Fin q) => negb (is_zero q)
  | Number _ => true
  | Text s => str_truthy s
  | Object => true
  end.

(** [typeof v !== 'number' || isNaN(v)]; [isNaN] is only reached for a
    number. *)
Definition notNumber (v : jsValue) : bool :=
  match v with
  | Number NaN => true
  | Number _ => false
  | _ => true
  end.

(** [item[field]] for the required fields. *)
Definition field (r : record) (f : string) : jsValue :=
  if String.eqb f "name" then name r
  else if String.eqb f "quantity" then quantity r
  else if String.eqb f "category" then category r
  else Undefined.

(** [validFrequencies.includes(v)]: only a string can be in the list. *)
Definition includes (l : list string) (v : jsValue) : bool :=
  match v with
  | Text s => existsb (String.eqb s) l
  | _ => false
  end.

Definition validateItem (r : record) : validation :=
  let missingFields :=
    filter (fun f => negb (truthy (field r f))) requiredFields in
  if (0 <? List.length missingFields)%nat then
    mkValidation false
      (Some ("Missing required fields: "
               ++ String.concat ", " missingFields)%string)
  else if notNumber (quantity r) then
    mkValidation false (Some "Quantity must be a number"%string)
  else if truthy (price r) && notNumber (price r) then
    mkValidation false (Some "Price must be a number"%string)
  else if truthy (minThreshold r) && notNumber (minThreshold r) then
    mkValidation false (Some "Minimum threshold must be a number"%string)
  else if truthy (purchaseFrequency r)
          && negb (includes validFrequencies (purchaseFrequency r))
  then
    mkValidation false
      (Some ("Invalid purchase frequency. Must be one of: "
               ++ String.concat ", " validFrequencies)%string)
  else mkValidation true None.

Definition ofNumber (v : option Q) : jsValue :=
  match v with
  | Some q => Number (Fin q)
  | None => Undefined
  end.

Definition ofText (v : option string) : jsValue :=
  match v with
  | Some s => Text s
  | None => Undefined
  end.

End Raw.

(** A typed record as the untyped one it is. *)
Definition rawOf (it : item) : Raw.record :=
  Raw.mkRecord (Raw.ofText (name it)) (Raw.ofNumber (quantity it))
    (Raw.ofText (category it)) (Raw.ofNumber (price it))
    (Raw.ofNumber (minThreshold it)) (Raw.ofText (purchaseFrequency it)).

(** The tests of the validator, one by one. *)
Definition accepted (r : Raw.record) : bool :=
  Raw.truthy (Raw.name r) && Raw.truthy (Raw.quantity r)
  && Raw.truthy (Raw.category r)
  && negb (Raw.notNumber (Raw.quantity r))
  && negb (Raw.truthy (Raw.price r) && Raw.notNumber (Raw.price r))
  && negb (Raw.truthy (Raw.minThreshold r)
           && Raw.notNumber (Raw.minThreshold r))
  && negb (Raw.truthy (Raw.purchaseFrequency r)
           && negb (Raw.includes validFrequencies (Raw.purchaseFrequency r))).

Lemma raw_validateItem_accepted (r : Raw.record) :
  valid (Raw.validateItem r) = accepted r
  /\ (valid (Raw.validateItem r) = true
      <-> error (Raw.validateItem r) = None).
Proof.
  unfold Raw.validateItem, accepted, requiredFields. cbn [filter].
  unfold Raw.field. cbn [String.eqb Ascii.eqb Bool.eqb].
  destruct (Raw.truthy (Raw.name r)), (Raw.truthy (Raw.quantity r)),
    (Raw.truthy (Raw.category r));
    cbn [negb List.length Nat.ltb Nat.leb andb valid error];
    try (split; [reflexivity | split; discriminate]).
  destruct (Raw.notNumber (Raw.quantity r));
    cbn [negb andb valid error];
    try (split; [reflexivity | split; discriminate]).
  destruct (Raw.truthy (Raw.price r) && Raw.notNumber (Raw.price r));
    cbn [negb andb valid error];
    try (split; [reflexivity | split; discriminate]).
  destruct (Raw.truthy (Raw.minThreshold r)
            && Raw.notNumber (Raw.minThreshold r));
    cbn [negb andb valid error];
    try (split; [reflexivity | split; discriminate]).
  destruct (Raw.truthy (Raw.purchaseFrequency r)
            && negb (Raw.includes validFrequencies
                       (Raw.purchaseFrequency r)));
    cbn [negb andb valid error];
    split; try reflexivity; split; try discriminate; reflexivity.
Qed.

Lemma truthy_number (v : Raw.jsValue) :
  Raw.truthy v && negb (Raw.notNumber v) = true
  <-> exists n, v = Raw.Number n /\ Raw.truthy (Raw.Number n) = true.
Proof.
  split.
  - destruct v as [| |b|n|t|]; cbn [Raw.notNumber negb];
      rewrite ?andb_false_r; try discriminate.
    intro H. exists n. split; [reflexivity|].
    now apply andb_true_iff in H.
  - intros (n & -> & H). rewrite H.
    destruct n; [discriminate H | reflexivity..].
Qed.

Lemma falsy_or_number (v : Raw.jsValue) :
  negb (Raw.truthy v && Raw.notNumber v) = true
  <-> Raw.truthy v = false \/ exists n, v = Raw.Number n.
Proof.
  split.
  - destruct (Raw.truthy v) eqn:T; [|now left].
    destruct v as [| |b|n|t|]; cbn [Raw.notNumber andb negb];
      try discriminate.
    intros _. right. now exists n.
  - intros [H | (n & ->)]; [now rewrite H|].
    destruct n; reflexivity || (cbn; now rewrite andb_false_r).
Qed.

Lemma falsy_or_listed (v : Raw.jsValue) :
  negb (Raw.truthy v && negb (Raw.includes validFrequencies v)) = true
  <-> Raw.truthy v = false
      \/ exists f, v = Raw.Text f /\ In f validFrequencies.
Proof.
  split.
  - destruct (Raw.truthy v) eqn:T; [|now left].
    destruct v as [| |b|n|t|]; cbn [Raw.includes andb negb];
      try discriminate.
    intro H. apply negb_true_iff, negb_false_iff in H.
    right. exists t. split; [reflexivity|]. now apply includes_In.
  - intros [H | (f & -> & Hin)]; [now rewrite H|].
    apply includes_In in Hin. unfold includes in Hin.
    cbn [Raw.includes]. rewrite Hin. cbn [negb]. now rewrite andb_false_r.
Qed.

(** On a typed record the untyped validator is [validateItem]. *)
Lemma validateItem_of_record (it : item) :
  Raw.validateItem (rawOf it) = validateItem it.
Proof.
  unfold Raw.validateItem, validateItem, requiredFields. cbn [filter].
  unfold Raw.field, field_falsy. cbn [String.eqb Ascii.eqb Bool.eqb].
  cbn [rawOf Raw.name Raw.quantity Raw.category Raw.price Raw.minThreshold
       Raw.purchaseFrequency].
  assert (Ht : forall v, Raw.truthy (Raw.ofText v) = ostr_truthy v)
    by (intros [t|]; reflexivity).
  assert (Hn : forall v, Raw.truthy (Raw.ofNumber v) = num_truthy v)
    by (intros [q|]; reflexivity).
  assert (Hk : forall v, Raw.notNumber (Raw.ofNumber v) = notNumber v)
    by (intros [q|]; reflexivity).
  rewrite !Ht, !Hn, !Hk.
  assert (Hi : Raw.includes validFrequencies
                 (Raw.ofText (purchaseFrequency it))
               = ostr_truthy (purchaseFrequency it)
                 && includes validFrequencies
                      (dflt (purchaseFrequency it) EmptyString)
               \/ ostr_truthy (purchaseFrequency it) = false).
  { destruct (purchaseFrequency it) as [f|]; [|now right].
    cbn [Raw.ofText Raw.includes ostr_truthy dflt].
    destruct (str_truthy f); [now left | now right]. }
  destruct Hi as [Hi | Hi].
  - rewrite Hi.
    destruct (ostr_truthy (purchaseFrequency it)); reflexivity.
  - rewrite Hi. reflexivity.
Qed.

(** X1.  [validateItem] accepts a record exactly when its name and category
    are truthy, its quantity is a number other than [NaN] and [0], its price
    and its threshold are falsy or numbers, and its purchase frequency is
    falsy or one of the five listed strings; it reports an error exactly
    when it refuses.  On records whose fields have their types it is the
    validator of the typed records. *)
Theorem validateItem_accepts_iff :
  (forall r,
     valid (Raw.validateItem r) = true <->
     Raw.truthy (Raw.name r) = true
     /\ Raw.truthy (Raw.category r) = true
     /\ (exists n, Raw.quantity r = Raw.Number n
                   /\ Raw.truthy (Raw.Number n) = true)
     /\ (Raw.truthy (Raw.price r) = false
         \/ exists n, Raw.price r = Raw.Number n)
     /\ (Raw.truthy (Raw.minThreshold r) = false
         \/ exists n, Raw.minThreshold r = Raw.Number n)
     /\ (Raw.truthy (Raw.purchaseFrequency r) = false
         \/ exists f, Raw.purchaseFrequency r = Raw.Text f
                      /\ In f validFrequencies))
  /\ (forall r,
        valid (Raw.validateItem r) = true
        <-> error (Raw.validateItem r) = None)
  /\ (forall it, Raw.validateItem (rawOf it) = validateItem it).
Proof.
  split; [|split].
  - intro r. destruct (raw_validateItem_accepted r) as [-> _].
    unfold accepted. rewrite !andb_true_iff.
    rewrite <- truthy_number, <- !falsy_or_number, <- falsy_or_listed.
    rewrite andb_true_iff. tauto.
  - intro r. apply raw_validateItem_accepted.
  - apply validateItem_of_record.
Qed.

Lemma validateItem_accepts_iff_witness :
  valid (validateItem lowRice) = true
  /\ error (validateItem lowRice) = None.
Proof.
  destruct validateItem_accepts_iff as (Haccept & Herror & Htyped).
  rewrite <- (Htyped lowRice).
  assert (V : valid (Raw.validateItem (rawOf lowRice)) = true).
  { apply (proj2 (Haccept (rawOf lowRice))).
    split; [reflexivity|]. split; [reflexivity|].
    split; [exists (Fin 1); split; reflexivity|].
    split; [left; reflexivity|].
    split; [right; exists (Fin 2); reflexivity|].
    right. exists "monthly"%string. split; [reflexivity|]. cbn. tauto. }
  split; [exact V|]. now apply (proj1 (Herror (rawOf lowRice))).
Defined.

(** A quantity typed into the form stays a string, and is refused. *)
Example text_quantity_is_refused :
  Raw.validateItem
    (Raw.mkRecord (Raw.Text "Oil") (Raw.Text "5") (Raw.Text "grocery")
       Raw.Undefined Raw.Undefined Raw.Undefined)
  = mkValidation false (Some "Quantity must be a number"%string).
Proof. reflexivity. Qed.

(** ** What the generator selects *)

(** A valid item at or below its threshold. *)
Definition lowAndValid (it : item) : bool :=
  valid (validateItem it)
  && le (of_field (quantity it)) (of_field (minThreshold it)).

Lemma needsAttention_lowAndValid (o : Suggest.options) (it : item) :
  needsAttention o it
  = dflt (Suggest.includeBelowThreshold o) true && lowAndValid it.
Proof.
  unfold needsAttention, lowAndValid.
  destruct (valid (validateItem it)) eqn:V; cbn [negb andb];
    [|now rewrite andb_false_r].
  assert (Z0 : num_is (quantity it) 0 = false).
  { destruct (num_is (quantity it) 0) eqn:Z0; [|reflexivity].
    apply zero_quantity_invalid in Z0. congruence. }
  rewrite Z0, andb_false_r.
  destruct (dflt (Suggest.includeBelowThreshold o) true
            && le (of_field (quantity it)) (of_field (minThreshold it)));
    [reflexivity|].
  destruct (dflt (Suggest.includeAlmostEmpty o) true); reflexivity.
Qed.

Lemma filter_ext_item (f g : item -> bool) (l : list item) :
  (forall x, f x = g x) -> filter f l = filter g l.
Proof.
  intro H. induction l as [|x l IH]; [reflexivity|].
  cbn. now rewrite H, IH.
Qed.

Lemma filter_false (l : list item) : filter (fun _ => false) l = [].
Proof. induction l; auto. Qed.

(** X2.  [calculateReorderSuggestions] returns, in inventory order, the
    suggestions for the valid items whose quantity is at or below their
    threshold, and nothing when [includeBelowThreshold] is off.  The options
    [notificationThreshold], [includeAlmostEmpty] and [includeOutOfStock]
    never change the returned items. *)
Theorem suggestions_are_the_low_valid_items
    (now : string) (inventory : list item) (o : Suggest.options) :
  Suggest.items (calculateReorderSuggestions now inventory o)
  = (if dflt (Suggest.includeBelowThreshold o) true
     then map (toSuggestion o) (filter lowAndValid inventory)
     else [])
  /\ forall threshold almostEmpty outOfStockToo,
       Suggest.items
         (calculateReorderSuggestions now inventory
            (Suggest.mkOptions threshold almostEmpty
               (Suggest.includeBelowThreshold o) outOfStockToo
               (Suggest.bulkPurchaseThreshold o)))
       = Suggest.items (calculateReorderSuggestions now inventory o).
Proof.
  assert (E : forall o',
            Suggest.items (calculateReorderSuggestions now inventory o')
            = if dflt (Suggest.includeBelowThreshold o') true
              then map (toSuggestion o') (filter lowAndValid inventory)
              else []).
  { intro o'. rewrite suggestions_items.
    rewrite (filter_ext_item _ _ inventory (needsAttention_lowAndValid o')).
    destruct (dflt (Suggest.includeBelowThreshold o') true); cbn [andb].
    - reflexivity.
    - now rewrite filter_false. }
  split; [apply E|].
  intros nt ae oos. rewrite !E.
  cbn [Suggest.includeBelowThreshold].
  destruct (dflt (Suggest.includeBelowThreshold o) true); reflexivity.
Qed.

(** X3.  Every suggestion that [calculateReorderSuggestions] returns has
    urgency "high": the tiers "critical", "medium" and "low" are never
    assigned, the count [criticalItems] is [0] and [highPriorityItems] equals
    [totalItems]. *)
Theorem every_suggestion_is_high_priority
    (now : string) (inventory : list item) (o : Suggest.options) :
  let r := calculateReorderSuggestions now inventory o in
  Forall (fun s => urgency s = Some "high"%string) (Suggest.items r)
  /\ (Suggest.success (Suggest.meta r) = true ->
      Suggest.criticalItems (Suggest.meta r) = Some 0%nat
      /\ Suggest.highPriorityItems (Suggest.meta r)
         = Suggest.totalItems (Suggest.meta r)).
Proof.
  cbv zeta.
  assert (H : Forall (fun s => urgency s = Some "high"%string)
                (Suggest.items (calculateReorderSuggestions now inventory o))).
  { apply Forall_forall. intros s Hs.
    pose proof (suggestions_never_out_of_stock _ _ _ _ Hs) as Z0.
    apply suggestion_origin in Hs. destruct Hs as (it & _ & Hn & ->).
    apply needsAttention_cases in Hn.
    cbn [quantity toSuggestion] in Z0.
    cbn [urgency toSuggestion]. unfold urgencyOf. now rewrite Z0, Hn. }
  split; [exact H|].
  destruct inventory as [|it rest]; [discriminate|]. intros _.
  set (l := Suggest.items
              (calculateReorderSuggestions now (it :: rest) o)) in *.
  change (Some (count (fun s => str_is (urgency s) "critical") l) = Some 0%nat
          /\ Some (count (fun s => str_is (urgency s) "high") l)
             = Some (List.length l)).
  clearbody l. unfold count.
  induction H as [|s l Hs _ [IH1 IH2]]; [split; reflexivity|].
  cbn [filter]. rewrite Hs. cbn. split; [exact IH1|].
  injection IH2 as IH2. now rewrite IH2.
Qed.

Lemma every_suggestion_is_high_priority_witness :
  Suggest.criticalItems
    (Suggest.meta
       (calculateReorderSuggestions ""%string [lowRice; outOfStockMilk; lowSoap]
          Suggest.noOptions))
  = Some 0%nat
  /\ Suggest.highPriorityItems
       (Suggest.meta
          (calculateReorderSuggestions ""%string
             [lowRice; outOfStockMilk; lowSoap] Suggest.noOptions))
     = Some 2%nat.
Proof.
  destruct (every_suggestion_is_high_priority ""%string
              [lowRice; outOfStockMilk; lowSoap] Suggest.noOptions)
    as [_ H].
  destruct (H eq_refl) as [H0 H1]. split; [exact H0 | exact H1].
Defined.

Lemma Math_max_upper (a b : Q) : b <= Math_max a b.
Proof.
  unfold Math_max. destruct (Qle_bool a b) eqn:E.
  - apply Qle_refl.
  - apply Qle_bool_false in E. now apply Qlt_le_weak.
Qed.

(** X4.  A suggestion flagged [bulkRecommended] orders at least the bulk
    threshold: its [suggestedOrderQuantity] is no smaller than
    [bulkPurchaseThreshold] (3 by default). *)
Theorem bulk_flag_implies_quantity
    (now : string) (inventory : list item) (o : Suggest.options) (s : item) :
  In s (Suggest.items (calculateReorderSuggestions now inventory o)) ->
  bulkRecommended s = Some true ->
  exists q,
    suggestedOrderQuantity s = Some q
    /\ dflt (Suggest.bulkPurchaseThreshold o) 3 <= q.
Proof.
  intros Hs Hb. apply suggestion_origin in Hs.
  destruct Hs as (it & _ & _ & ->).
  cbn [bulkRecommended suggestedOrderQuantity toSuggestion] in *.
  injection Hb as Hb. apply Qle_bool_iff in Hb.
  eexists. split; [reflexivity|].
  eapply Qle_trans; [exact Hb|].
  eapply Qle_trans; [apply Qle_ceiling|]. apply Math_max_upper.
Qed.

Definition lowPasta : item :=
  inventoryItem (Some "7"%string) (Some "Pasta"%string) (Some 1)
    (Some "grocery"%string) (Some 2) (Some 3) (Some "weekly"%string).

Lemma bulk_flag_implies_quantity_witness :
  exists q,
    suggestedOrderQuantity (toSuggestion Suggest.noOptions lowPasta) = Some q
    /\ 3 <= q.
Proof.
  apply (@bulk_flag_implies_quantity ""%string [lowPasta] Suggest.noOptions).
  - cbn. left. reflexivity.
  - reflexivity.
Defined.

(** ** The rates of the bulk calculator *)

Lemma bulkDiscountRate_values (it : item) :
  bulkDiscountRate it = 0
  \/ bulkDiscountRate it = 5 # 100
  \/ bulkDiscountRate it = 10 # 100
  \/ bulkDiscountRate it = 12 # 100
  \/ bulkDiscountRate it = 15 # 100.
Proof.
  unfold bulkDiscountRate.
  destruct (Qle_bool 10 (orderQuantityOf it)),
    (Qle_bool 5 (orderQuantityOf it)),
    (Qle_bool 3 (orderQuantityOf it)),
    (Qle_bool 2 (orderQuantityOf it)),
    (str_is (category it) "grocery"),
    (str_is (category it) "household"),
    (str_is (category it) "electronics");
    cbn; tauto.
Qed.

(** X6.  The rate of the bulk calculator is always one of 0%, 5%, 10%, 12%
    and 15%.  The 8% floor for groceries never applies: a grocery item gets
    exactly the rate of its quantity tier. *)
Theorem bulk_rate_values_and_grocery_floor (it : item) :
  (bulkDiscountRate it = 0
   \/ bulkDiscountRate it = 5 # 100
   \/ bulkDiscountRate it = 10 # 100
   \/ bulkDiscountRate it = 12 # 100
   \/ bulkDiscountRate it = 15 # 100)
  /\ (str_is (category it) "grocery" = true ->
      bulkDiscountRate it = quantityTier (orderQuantityOf it)).
Proof.
  split; [apply bulkDiscountRate_values|].
  intro Hg. unfold bulkDiscountRate, quantityTier.
  assert (Ec : category it = Some "grocery"%string).
  { unfold str_is in Hg. destruct (category it) as [c|]; [|discriminate].
    apply String.eqb_eq in Hg. now subst. }
  rewrite Ec. cbn [str_is String.eqb Ascii.eqb Bool.eqb andb].
  assert (H53 : Qle_bool 5 (orderQuantityOf it) = true ->
                Qle_bool 3 (orderQuantityOf it) = true).
  { intro H. apply Qle_bool_iff in H. apply Qle_bool_iff.
    eapply Qle_trans; [|exact H]. discriminate. }
  assert (H105 : Qle_bool 10 (orderQuantityOf it) = true ->
                 Qle_bool 5 (orderQuantityOf it) = true).
  { intro H. apply Qle_bool_iff in H. apply Qle_bool_iff.
    eapply Qle_trans; [|exact H]. discriminate. }
  destruct (Qle_bool 10 (orderQuantityOf it)),
    (Qle_bool 5 (orderQuantityOf it)),
    (Qle_bool 3 (orderQuantityOf it));
    cbn; try reflexivity;
    try (specialize (H53 eq_refl); discriminate);
    try (specialize (H105 eq_refl); discriminate).
Qed.

Lemma bulk_rate_values_and_grocery_floor_witness :
  bulkDiscountRate (toSuggestion Suggest.noOptions lowPasta) = 10 # 100.
Proof.
  rewrite (proj2 (bulk_rate_values_and_grocery_floor
                    (toSuggestion Suggest.noOptions lowPasta)));
    reflexivity.
Defined.

Lemma bulkReducer_step (savings : Q) (it : item) :
  bulkReducer savings it
  == savings + dflt (price it) 0 * orderQuantityOf it * bulkDiscountRate it.
Proof.
  unfold bulkReducer, num_truthy.
  destruct (price it) as [p|]; cbn [negb dflt].
  - destruct (is_zero p) eqn:Z; cbn [negb]; [|reflexivity].
    apply is_zero_true in Z. rewrite Z. ring.
  - ring.
Qed.

(** ** Subscribed items and the subscription savings *)

Definition notSubscribed (it : item) : bool :=
  negb (obool_truthy (hasSubscription it)).

Lemma subscriptionCandidate_filter (l : list item) :
  filter subscriptionCandidate (filter notSubscribed l)
  = filter subscriptionCandidate l.
Proof.
  induction l as [|it rest IH]; [reflexivity|].
  cbn [filter]. unfold notSubscribed at 1.
  destruct (obool_truthy (hasSubscription it)) eqn:E; cbn [negb].
  - unfold subscriptionCandidate at 2. rewrite E. cbn [negb andb]. exact IH.
  - cbn [filter]. now rewrite IH.
Qed.

Lemma subscription_parts (l : list item) :
  let r := calculateSubscriptionSavings (Some l) in
  let entries := map subscriptionItemized (filter subscriptionCandidate l) in
  Savings.itemizedSavings r = entries
  /\ Savings.totalSavings r
     = fold_left (fun sum s => sum + Savings.savings s) entries 0
  /\ Savings.recommendedItems r
     = List.length (filter Savings.recommended entries).
Proof. destruct l; repeat split; reflexivity. Qed.

(** X8.  Items that already have a subscription do not count in
    [calculateSubscriptionSavings]: removing them from the cart leaves the
    itemized entries, [totalSavings] and [recommendedItems] unchanged. *)
Theorem subscribed_items_do_not_count (l : list item) :
  let all := calculateSubscriptionSavings (Some l) in
  let rest := calculateSubscriptionSavings (Some (filter notSubscribed l)) in
  Savings.itemizedSavings rest = Savings.itemizedSavings all
  /\ Savings.totalSavings rest = Savings.totalSavings all
  /\ Savings.recommendedItems rest = Savings.recommendedItems all.
Proof.
  cbv zeta.
  destruct (subscription_parts l) as (E1 & E2 & E3).
  destruct (subscription_parts (filter notSubscribed l)) as (F1 & F2 & F3).
  rewrite E1, E2, E3, F1, F2, F3, subscriptionCandidate_filter.
  repeat split; reflexivity.
Qed.

(* ================================================================== *)
(** ** More about the optimizer *)

Lemma budgetFilter_In (b : Q) (l : list item) :
  forall runningTotal x, In x (budgetFilter b runningTotal l) -> In x l.
Proof.
  induction l as [|it rest IH]; intros rt x H; [assumption|].
  cbn [budgetFilter] in H.
  destruct (isEssential it); [|destruct (le _ _)];
    cbn in H |- *; try (destruct H as [H | H]; [now left | right; eauto]).
  right. eauto.
Qed.

Lemma applyBudget_In (budget : option Q) (l : list item) (x : item) :
  In x (applyBudget budget l) -> In x l.
Proof.
  unfold applyBudget. destruct budget as [b|]; [|auto].
  destruct (_ && _); [apply budgetFilter_In | auto].
Qed.

(** The list the ordering step receives. *)
Definition candidateItems (suggestions : list item) (o : Optimize.options)
    : list item :=
  if dflt (Optimize.includeNonEssentials o) true
  then map labelEssential suggestions
  else filter isEssential (map labelEssential suggestions).

Lemma labelEssential_labelled (s : item) : essential (labelEssential s) <> None.
Proof.
  unfold labelEssential. destruct (essential s) eqn:E; [congruence|].
  destruct (_ || _); discriminate.
Qed.

Lemma firstn_lengthQ (k : Z) (l : list item) :
  (0 <= k)%Z -> lengthQ (firstn (Z.to_nat k) l) <= inject_Z k.
Proof.
  intro Hk. unfold lengthQ. rewrite <- Zle_Qle.
  pose proof (firstn_le_length (Z.to_nat k) l). lia.
Qed.

Lemma Qfloor_nonneg (q : Q) : 0 <= q -> (0 <= Qfloor q)%Z.
Proof.
  intro H. rewrite <- (Qfloor_Z 0). now apply Qfloor_resp_le.
Qed.

Lemma applyMaxItems_length (m : Q) (l : list item) :
  0 < m -> lengthQ (applyMaxItems (Some m) l) <= m.
Proof.
  intro Hm. unfold applyMaxItems.
  assert (Hp : Qlt_bool 0 m = true) by now apply Qlt_bool_true.
  rewrite (pos_not_zero _ Hp), Hp. cbn [negb andb].
  destruct (Qlt_bool m (lengthQ l)) eqn:C.
  - destruct (Qle_bool m (lengthQ (filter isEssential l))) eqn:L.
    + rewrite slice0_positive by exact Hp.
      eapply Qle_trans; [apply firstn_lengthQ|apply Qfloor_le].
      apply Qfloor_nonneg. now apply Qlt_le_weak.
    + apply Qle_bool_false in L.
      assert (Hr : 0 < m - lengthQ (filter isEssential l)) by lra.
      rewrite slice0_positive by now apply Qlt_bool_true.
      unfold lengthQ at 1. rewrite length_app, Nat2Z.inj_add, inject_Z_plus.
      fold (lengthQ (filter isEssential l)).
      pose proof (@firstn_lengthQ
                    (Qfloor (m - lengthQ (filter isEssential l)))
                    (filter notEssential l)
                    (Qfloor_nonneg (Qlt_le_weak _ _ Hr))) as H1.
      pose proof (Qfloor_le (m - lengthQ (filter isEssential l))) as H2.
      unfold lengthQ in H1 at 1. lra.
  - apply Qnot_lt_le. intro H. apply Qlt_bool_true in H. congruence.
Qed.

Section OptimizerBounds.

Variable localeCompare : string -> string -> Q.

Lemma optimize_items_cases
    (now : string) (suggestions : list item) (o : Optimize.options) :
  Optimize.items (optimizeShoppingList localeCompare now suggestions o) = []
  \/ exists ordered,
       orderedItems localeCompare suggestions o = Ok ordered
       /\ Optimize.items (optimizeShoppingList localeCompare now suggestions o)
          = applyMaxItems (Optimize.maxItems o)
              (applyBudget (Optimize.budget o) ordered).
Proof.
  destruct (orderedItems localeCompare suggestions o) as [ordered|msg] eqn:E.
  - right. exists ordered. split; [reflexivity|]. now apply optimize_items.
  - left. now apply optimize_items_throw with (message := msg).
Qed.

(** X9.  With a positive [maxItems] the optimizer never returns more than
    [maxItems] items, whatever the other options. *)
Theorem optimizer_respects_the_item_cap
    (now : string) (suggestions : list item) (o : Optimize.options) (m : Q) :
  Optimize.maxItems o = Some m -> 0 < m ->
  lengthQ (Optimize.items
             (optimizeShoppingList localeCompare now suggestions o))
  <= m.
Proof.
  intros Hm Hpos.
  destruct (optimize_items_cases now suggestions o) as [E | (ordered & _ & E)];
    rewrite E.
  - now apply Qlt_le_weak.
  - rewrite Hm. now apply applyMaxItems_length.
Qed.

(** X10.  The optimizer invents nothing: every returned item is one of the
    given suggestions with its essential label set, so there are no more
    items than suggestions; and with [includeNonEssentials: false] every
    returned item is essential. *)
Theorem optimizer_returns_labelled_suggestions
    (now : string) (suggestions : list item) (o : Optimize.options) :
  let out :=
    Optimize.items (optimizeShoppingList localeCompare now suggestions o) in
  Forall (fun x => (exists s, In s suggestions /\ x = labelEssential s)
                   /\ essential x <> None) out
  /\ (Optimize.includeNonEssentials o = Some false ->
      Forall (fun x => isEssential x = true) out).
Proof.
  cbv zeta.
  destruct (optimize_items_cases now suggestions o) as [E | (ordered & Ho & E)];
    rewrite E; [split; [constructor | intros _; constructor]|].
  assert (Hc : forall x,
            In x (applyMaxItems (Optimize.maxItems o)
                    (applyBudget (Optimize.budget o) ordered)) ->
            In x (candidateItems suggestions o)).
  { intros x Hx. apply applyMaxItems_incl, applyBudget_In in Hx.
    unfold orderedItems in Ho. apply sortByPreference_perm in Ho.
    apply Permutation_sym in Ho. exact (Permutation_in _ Ho Hx). }
  split.
  - apply Forall_forall. intros x Hx. apply Hc in Hx.
    assert (Hm : In x (map labelEssential suggestions)).
    { unfold candidateItems in Hx.
      destruct (dflt (Optimize.includeNonEssentials o) true);
        [exact Hx | now apply filter_In in Hx]. }
    apply in_map_iff in Hm. destruct Hm as (s & <- & Hs).
    split; [eauto | apply labelEssential_labelled].
  - intro Hn. apply Forall_forall. intros x Hx. apply Hc in Hx.
    unfold candidateItems in Hx. rewrite Hn in Hx. cbn [dflt] in Hx.
    now apply filter_In in Hx.
Qed.

Lemma ordering_throws_without_cost_or_time
    (suggestions : list item) (o : Optimize.options) :
  dflt (Optimize.preference o) "balanced"%string <> "cost"%string ->
  dflt (Optimize.preference o) "balanced"%string <> "time"%string ->
  (2 <= List.length (candidateItems suggestions o))%nat ->
  orderedItems localeCompare suggestions o
  = Throw "Cannot read properties of undefined"%string.
Proof.
  intros Hc Ht Hlen.
  unfold orderedItems. fold (candidateItems suggestions o).
  destruct (candidateItems suggestions o) as [|x [|y rest]];
    cbn in Hlen; try lia.
  unfold sortByPreference.
  apply String.eqb_neq in Hc, Ht. rewrite Hc, Ht.
  destruct (String.eqb _ "urgent"); apply arraySort_throws;
    intros a b; reflexivity.
Qed.

(** X11.  With the preference "balanced" (the default), "urgent" or any
    unknown one, the optimizer fails as soon as two or more items reach the
    ordering step: its compare function reads a helper from [this], which is
    [undefined], and the result is the failure record with no items. *)
Theorem optimizer_fails_without_cost_or_time
    (now : string) (suggestions : list item) (o : Optimize.options) :
  dflt (Optimize.preference o) "balanced"%string <> "cost"%string ->
  dflt (Optimize.preference o) "balanced"%string <> "time"%string ->
  (2 <= List.length (candidateItems suggestions o))%nat ->
  optimizeShoppingList localeCompare now suggestions o
  = Optimize.failure "Cannot read properties of undefined".
Proof.
  intros Hc Ht Hlen.
  pose proof (ordering_throws_without_cost_or_time _ _ Hc Ht Hlen) as Ho.
  destruct suggestions as [|s rest].
  - unfold candidateItems in Hlen.
    destruct (dflt (Optimize.includeNonEssentials o) true); cbn in Hlen; lia.
  - unfold optimizeShoppingList. now rewrite Ho.
Qed.

End OptimizerBounds.

Lemma optimizer_returns_labelled_suggestions_witness :
  Forall (fun x => isEssential x = true)
    (Optimize.items
       (optimizeShoppingList codeUnitCompare ""%string [gadget; bread]
          (Optimize.mkOptions (Some "time"%string) None None None
             (Some false)))).
Proof.
  apply (proj2 (@optimizer_returns_labelled_suggestions codeUnitCompare
                  ""%string
                  [gadget; bread]
                  (Optimize.mkOptions (Some "time"%string) None None None
                     (Some false)))).
  reflexivity.
Defined.

Lemma optimizer_fails_without_cost_or_time_witness :
  optimizeShoppingList codeUnitCompare ""%string [gadget; bread]
    (Optimize.mkOptions (Some "urgent"%string) None None None None)
  = Optimize.failure "Cannot read properties of undefined".
Proof.
  apply optimizer_fails_without_cost_or_time;
    [discriminate | discriminate | cbn; lia].
Defined.


Lemma optimizer_respects_the_item_cap_witness :
  lengthQ
    (Optimize.items
       (optimizeShoppingList codeUnitCompare ""%string [gadget; bread; radio]
          (Optimize.mkOptions (Some "time"%string) (Some (5 # 2)) None None
             None)))
  <= 5 # 2.
Proof.
  apply (@optimizer_respects_the_item_cap codeUnitCompare ""%string
           [gadget; bread; radio]
           (Optimize.mkOptions (Some "time"%string) (Some (5 # 2)) None None
              None) (5 # 2)); reflexivity.
Defined.

(** ** Essential items first *)

(** No essential item stands behind a non-essential one. *)
Definition essentialsFirst (l : list item) : Prop :=
  StronglySorted (fun a b => isEssential b = true -> isEssential a = true) l.

Section EssentialFirstSort.

Variable compareFn : item -> item -> outcome number.

Hypothesis essential_before :
  forall a b, isEssential a = true -> isEssential b = false ->
              compareFn a b = Ok (Fin (-1)).
Hypothesis essential_after :
  forall a b, isEssential a = false -> isEssential b = true ->
              compareFn a b = Ok (Fin 1).

Lemma insertSorted_essentialsFirst (x : item) (l : list item) :
  forall r,
    essentialsFirst l -> insertSorted compareFn x l = Ok r ->
    essentialsFirst r.
Proof.
  unfold essentialsFirst.
  induction l as [|y rest IH]; intros r Hs H; cbn [insertSorted] in H.
  - injection H as <-. repeat constructor.
  - apply StronglySorted_inv in Hs. destruct Hs as [Hs Hy].
    destruct (compareFn x y) as [v|m] eqn:C; cbn [bind] in H; [|discriminate].
    destruct (gt v (Fin 0)) eqn:G.
    + destruct (insertSorted compareFn x rest) as [r'|m] eqn:E;
        cbn [bind] in H; [|discriminate].
      injection H as <-. constructor; [now apply IH|].
      apply Forall_forall. intros z Hz Hze.
      pose proof E as P. apply insertSorted_perm, Permutation_sym in P.
      apply (Permutation_in _ P) in Hz.
      destruct Hz as [<- | Hz].
      * destruct (isEssential y) eqn:Ey; [reflexivity|].
        rewrite (essential_before _ _ Hze Ey) in C. injection C as <-.
        discriminate G.
      * rewrite Forall_forall in Hy. exact (Hy z Hz Hze).
    + injection H as <-. constructor;
        [constructor; assumption|].
      apply Forall_forall. intros z Hz Hze.
      destruct (isEssential x) eqn:Ex; [reflexivity|].
      assert (Ey : isEssential y = false).
      { destruct (isEssential y) eqn:Ey; [|reflexivity].
        rewrite (essential_after _ _ Ex Ey) in C. injection C as <-.
        discriminate G. }
      destruct Hz as [<- | Hz]; [congruence|].
      rewrite Forall_forall in Hy. specialize (Hy z Hz Hze). congruence.
Qed.

Lemma arraySort_essentialsFirst (l s : list item) :
  arraySort compareFn l = Ok s -> essentialsFirst s.
Proof.
  revert s. induction l as [|x rest IH]; intros s H; cbn [arraySort] in H.
  - injection H as <-. constructor.
  - destruct (arraySort compareFn rest) as [s'|m]; cbn [bind] in H;
      [|discriminate].
    eapply insertSorted_essentialsFirst; [|exact H]. now apply IH.
Qed.

End EssentialFirstSort.

Lemma budgetFilter_essentialsFirst (b : Q) (l : list item) :
  forall runningTotal,
    essentialsFirst l -> essentialsFirst (budgetFilter b runningTotal l).
Proof.
  unfold essentialsFirst.
  induction l as [|it rest IH]; intros rt Hs; [constructor|].
  apply StronglySorted_inv in Hs. destruct Hs as [Hs Hit].
  assert (Hk : forall rt',
            StronglySorted
              (fun a b => isEssential b = true -> isEssential a = true)
              (it :: budgetFilter b rt' rest)).
  { intro rt'. constructor; [now apply IH|].
    apply Forall_forall. intros z Hz. apply budgetFilter_In in Hz.
    rewrite Forall_forall in Hit. now apply Hit. }
  cbn [budgetFilter].
  destruct (isEssential it); [apply Hk|].
  destruct (le _ _); [apply Hk | now apply IH].
Qed.

Lemma essentialsFirst_split (ess non : list item) :
  Forall (fun x => isEssential x = true) ess ->
  Forall (fun x => isEssential x = false) non ->
  essentialsFirst (ess ++ non).
Proof.
  unfold essentialsFirst. intros He Hn.
  induction He as [|x ess Hx _ IH]; cbn [app].
  - induction Hn as [|y non Hy Hn IH]; constructor; [exact IH|].
    apply Forall_forall. intros z Hz Hze.
    rewrite Forall_forall in Hn. rewrite (Hn z Hz) in Hze. discriminate.
  - constructor; [exact IH|]. apply Forall_forall. auto.
Qed.

Lemma Forall_firstn (P : item -> Prop) (n : nat) (l : list item) :
  Forall P l -> Forall P (firstn n l).
Proof.
  intro H. apply Forall_forall. intros x Hx. apply In_firstn in Hx.
  rewrite Forall_forall in H. auto.
Qed.

Lemma Forall_slice0 (P : item -> Prop) (l : list item) (e : Q) :
  Forall P l -> Forall P (slice0 l e).
Proof.
  unfold slice0. destruct (_ <? 0)%Z; apply Forall_firstn.
Qed.

Lemma filter_Forall_true (f : item -> bool) (l : list item) :
  Forall (fun x => f x = true) (filter f l).
Proof. apply Forall_forall. intros x Hx. now apply filter_In in Hx. Qed.

Lemma applyMaxItems_essentialsFirst (maxItems : option Q) (l : list item) :
  essentialsFirst l -> essentialsFirst (applyMaxItems maxItems l).
Proof.
  intro H. unfold applyMaxItems. destruct maxItems as [m|]; [|exact H].
  destruct (_ && _); [|exact H].
  assert (He : Forall (fun x => isEssential x = true) (filter isEssential l))
    by apply filter_Forall_true.
  assert (Hn : Forall (fun x => isEssential x = false) (filter notEssential l)).
  { apply Forall_forall. intros x Hx. apply filter_In in Hx.
    destruct Hx as [_ Hx]. unfold notEssential in Hx.
    now apply negb_true_iff in Hx. }
  destruct (Qle_bool m _).
  - rewrite <- (app_nil_r (slice0 _ m)).
    apply essentialsFirst_split; [now apply Forall_slice0 | constructor].
  - apply essentialsFirst_split; [exact He | now apply Forall_slice0].
Qed.

(** X12.  With the preference "cost" or "time" the essential items lead the
    result: no essential item is returned behind a non-essential one. *)
Theorem cost_and_time_put_essentials_first
    (localeCompare : string -> string -> Q)
    (now : string) (suggestions : list item) (o : Optimize.options) :
  Optimize.preference o = Some "cost"%string
  \/ Optimize.preference o = Some "time"%string ->
  essentialsFirst
    (Optimize.items (optimizeShoppingList localeCompare now suggestions o)).
Proof.
  intro Hp.
  destruct (optimize_items_cases localeCompare now suggestions o)
    as [E | (ordered & Ho & E)]; rewrite E; [constructor|].
  apply applyMaxItems_essentialsFirst.
  assert (Hs : essentialsFirst ordered).
  { unfold orderedItems, sortByPreference in Ho.
    destruct Hp as [Hp | Hp]; rewrite Hp in Ho;
      cbn [dflt String.eqb Ascii.eqb Bool.eqb] in Ho;
      eapply arraySort_essentialsFirst; try exact Ho;
      intros a b Ha Hb;
      [unfold compareCost | unfold compareCost
       | unfold compareTime | unfold compareTime];
      rewrite Ha, Hb; reflexivity. }
  unfold applyBudget. destruct (Optimize.budget o) as [b|]; [|exact Hs].
  destruct (_ && _); [now apply budgetFilter_essentialsFirst | exact Hs].
Qed.

Lemma cost_and_time_put_essentials_first_witness :
  essentialsFirst
    (Optimize.items
       (optimizeShoppingList codeUnitCompare ""%string [gadget; bread; radio]
          timeWithBudget)).
Proof.
  apply cost_and_time_put_essentials_first. right. reflexivity.
Defined.

(** ** The budget as a bound on the total *)

Lemma filter_all (f : item -> bool) (l : list item) :
  (forall x, In x l -> f x = true) -> filter f l = l.
Proof.
  induction l as [|x l IH]; intro H; [reflexivity|]. cbn.
  rewrite (H x (or_introl eq_refl)). f_equal. apply IH.
  intros y Hy. apply H. now right.
Qed.

Lemma filter_nil_all (f : item -> bool) (l : list item) :
  filter f l = [] -> forall x, In x l -> f x = false.
Proof.
  induction l as [|y l IH]; intros H x Hx; [destruct Hx|].
  cbn in H. destruct (f y) eqn:E; [discriminate|].
  destruct Hx as [<- | Hx]; auto.
Qed.

(** A result without essential items is the beginning of the budgeted
    list. *)
Lemma applyMaxItems_prefix (maxItems : option Q) (l : list item) :
  (forall x, In x (applyMaxItems maxItems l) -> isEssential x = false) ->
  exists rest, l = applyMaxItems maxItems l ++ rest.
Proof.
  unfold applyMaxItems. destruct maxItems as [m|];
    [|exists []; now rewrite app_nil_r].
  destruct (_ && _); [|exists []; now rewrite app_nil_r].
  destruct (Qle_bool m _).
  - intro H.
    assert (E : slice0 (filter isEssential l) m = []).
    { destruct (slice0 (filter isEssential l) m) as [|x r] eqn:E;
        [reflexivity|].
      assert (Hx : In x (slice0 (filter isEssential l) m))
        by (rewrite E; now left).
      pose proof (H x (or_introl eq_refl)) as Hf.
      apply In_slice0, filter_In in Hx. destruct Hx as [_ Hx]. congruence. }
    rewrite E. now exists l.
  - intro H.
    assert (E : filter isEssential l = []).
    { destruct (filter isEssential l) as [|x r] eqn:E; [reflexivity|].
      assert (Hx : In x (filter isEssential l)) by (rewrite E; now left).
      apply filter_In in Hx. destruct Hx as [_ Hx].
      rewrite (H x (or_introl eq_refl)) in Hx. discriminate. }
    rewrite E in *. cbn [app] in *.
    assert (En : filter notEssential l = l).
    { apply filter_all. intros x Hx. unfold notEssential.
      now rewrite (filter_nil_all _ _ E x Hx). }
    rewrite En. unfold slice0.
    destruct (_ <? 0)%Z; eexists; symmetry; apply firstn_skipn.
Qed.

(** X13.  When a positive budget is given and the optimizer returns items
    none of which is essential, their total cost, reported as
    [estimatedTotalCost], is within the budget. *)
Theorem non_essential_total_within_budget
    (localeCompare : string -> string -> Q)
    (now : string) (suggestions : list item) (o : Optimize.options) (b : Q) :
  let r := optimizeShoppingList localeCompare now suggestions o in
  Optimize.budget o = Some b -> 0 < b ->
  Optimize.items r <> [] ->
  Forall (fun x => isEssential x = false) (Optimize.items r) ->
  Optimize.estimatedTotalCost (Optimize.meta r)
  = Some (totalCostOf (Optimize.items r))
  /\ le (totalCostOf (Optimize.items r)) (Fin b) = true.
Proof.
  cbv zeta. intros Hb Hpos Hne Hall.
  destruct (orderedItems localeCompare suggestions o) as [ordered|msg] eqn:Ho;
    [|now rewrite (optimize_items_throw localeCompare now _ _ Ho) in Hne].
  assert (Hmeta : Optimize.estimatedTotalCost
                    (Optimize.meta
                       (optimizeShoppingList localeCompare now suggestions o))
                  = Some (totalCostOf
                            (Optimize.items
                               (optimizeShoppingList localeCompare now
                                  suggestions o)))).
  { destruct suggestions as [|s rest]; [now elim Hne|].
    unfold optimizeShoppingList. now rewrite Ho. }
  split; [exact Hmeta|].
  rewrite (optimize_items localeCompare now _ _ Ho) in *.
  rewrite Forall_forall in Hall.
  destruct (applyMaxItems_prefix _ _ Hall) as (rest & Hrest).
  set (out := applyMaxItems (Optimize.maxItems o)
                (applyBudget (Optimize.budget o) ordered)) in *.
  destruct (exists_last Hne) as (pre & x & Eout).
  assert (Hx : isEssential x = false).
  { apply Hall. rewrite Eout. apply in_or_app. right. now left. }
  rewrite Eout, totalCostOf_snoc.
  unfold applyBudget in Hrest. rewrite Hb in Hrest.
  assert (Hp : Qlt_bool 0 b = true) by now apply Qlt_bool_true.
  rewrite (pos_not_zero _ Hp), Hp in Hrest. cbn [negb andb] in Hrest.
  rewrite Eout, <- app_assoc in Hrest. cbn [app] in Hrest.
  unfold totalCostOf.
  eapply budgetFilter_running_total; eassumption.
Qed.

Definition costWithBudget : Optimize.options :=
  Optimize.mkOptions (Some "cost"%string) None (Some 15) None None.

Lemma non_essential_total_within_budget_witness :
  le (totalCostOf
        (Optimize.items
           (optimizeShoppingList codeUnitCompare ""%string [gadget; radio]
              costWithBudget)))
     (Fin 15) = true.
Proof.
  apply (proj2 (@non_essential_total_within_budget codeUnitCompare ""%string
                  [gadget; radio] costWithBudget 15
                  eq_refl eq_refl
                  ltac:(discriminate)
                  ltac:(repeat constructor))).
Defined.

(* ================================================================== *)
(** ** More about the reorder plan *)







(** X16.  The option [daysToLookAhead] has no effect: the look-ahead filter
    never selects an item, so two calls of [generateSmartReorderPlan] that
    differ only in it return the same plan. *)
Theorem look_ahead_has_no_effect
    (localeCompare : string -> string -> Q)
    (now : string) (inventory : list item)
    (budget days days' maxItems : option Q)
    (stores : option (list string)) (preference : option string) :
  generateSmartReorderPlan localeCompare now inventory
    (Plan.mkOptions budget days maxItems stores preference)
  = generateSmartReorderPlan localeCompare now inventory
      (Plan.mkOptions budget days' maxItems stores preference).
Proof.
  unfold generateSmartReorderPlan, optimizedForPlan.
  now rewrite !allReorderItems_immediate.
Qed.

(* ================================================================== *)
(** * getNotificationInfo *)

Module Notify.

(** The item together with the fields that only [getNotificationInfo]
    reads. *)
Record subject : Type := mkSubject {
  base : item;
  recommendSubscription : option bool;    (* aiMetadata?.recommendSubscription *)
  aiConfidence : option Q;                (* aiMetadata.confidence *)
  priceHistory : option (list (option Q)) (* entry.price of each entry *)
}.

Record options : Type := mkOptions {
  notificationThreshold : option Q
}.

Record info : Type := mkInfo {
  shouldNotify : bool;
  itemId : option string;
  itemName : option string;
  priority : option string;
  notificationType : option string;
  reason : option string;
  error : option string;
  daysLeft : option Q;
  confidence : option Q;
  savingsPercentage : option number
}.

End Notify.

(** [Math.round]. *)
Definition Math_round (n : number) : number :=
  match n with
  | Fin q => Fin (inject_Z (Qfloor (q + (1 # 2))))
  | other => other
  end.

(** [prices.reduce((sum, price) => sum + price, 0) / prices.length]. *)
Definition averagePrice (prices : list (option Q)) : number :=
  div (fold_left (fun sum price => add sum (of_field price)) prices (Fin 0))
      (Fin (inject_Z (Z.of_nat (List.length prices)))).

Section Notification.

(** The text a template literal gives for [daysLeftInfo.daysLeft]. *)
Variable textOf : option Q -> string.

(** The record returned by a branch that notifies. *)
Definition notification
    (itemId itemName : option string) (daysLeft : option Q)
    (priority notificationType reason : string)
    (confidence : option Q) (savings : option number) : Notify.info :=
  Notify.mkInfo true itemId itemName (Some priority)
    (Some notificationType) (Some reason) None daysLeft confidence savings.

Definition getNotificationInfo (s : Notify.subject) (o : Notify.options)
    : Notify.info :=
  let it := Notify.base s in
  let notificationThreshold := dflt (Notify.notificationThreshold o) 7 in
  let validation := validateItem it in
  if negb (valid validation) then
    Notify.mkInfo false None None None None None (error validation)
      None None None
  else
    let itemId := if ostr_truthy (itemId it) then itemId it else None in
    let daysLeftInfo := calculateDaysLeft it in
    let daysLeft := number_property daysLeftInfo "daysLeft" in
    if num_is (quantity it) 0 then
      notification itemId (name it) daysLeft
        "high" "outOfStock" "Item is out of stock" None None
    else if le (of_field (quantity it)) (of_field (minThreshold it)) then
      notification itemId (name it) daysLeft
        "high" "belowThreshold" "Item is below minimum threshold" None None
    else if le (of_field daysLeft) (Fin notificationThreshold) then
      notification itemId (name it) daysLeft
        (if le (of_field daysLeft) (Fin 3) then "medium" else "low")
        "runningOutSoon"
        ("Item will run out in " ++ textOf daysLeft ++ " days")
        (number_property daysLeftInfo "confidence") None
    else if obool_truthy (Notify.recommendSubscription s)
            && negb (obool_truthy (hasSubscription it))
            && negb (str_is (purchaseFrequency it) "asNeeded")
    then
      notification itemId (name it) daysLeft
        "low" "subscriptionRecommended"
        "Item is eligible for subscription savings"
        (Some (num_or (Notify.aiConfidence s) 70)) None
    else if match purchaseHistory it with
            | Some len => (3 <=? len)%nat
            | None => false
            end
            && negb (obool_truthy (hasSubscription it))
            && negb (str_is (purchaseFrequency it) "asNeeded")
    then
      notification itemId (name it) daysLeft
        "low" "consistentUsage" "Regular purchase pattern detected"
        (Some 65) None
    else
      let quiet :=
        Notify.mkInfo false itemId (name it) (Some "normal"%string) None None
          None daysLeft None None in
      match Notify.priceHistory s with
      | Some history =>
          if num_truthy (price it) then
            let avgPrice := averagePrice history in
            if lt (of_field (price it)) (mul avgPrice (Fin (9 # 10))) then
              notification itemId (name it) daysLeft
                "medium" "priceDrop" "Current price is lower than usual"
                None
                (Some (Math_round
                         (mul (sub (Fin 1) (div (of_field (price it)) avgPrice))
                              (Fin 100))))
            else quiet
          else quiet
      | None => quiet
      end.

(** X17.  [getNotificationInfo] never reports "outOfStock" and never
    "runningOutSoon", and the [daysLeft] it returns is always [undefined]:
    an item with quantity [0] fails validation first, and the days left are
    read from a property that a Number does not have. *)
Theorem notification_never_out_of_stock
    (s : Notify.subject) (o : Notify.options) :
  let r := getNotificationInfo s o in
  Notify.notificationType r <> Some "outOfStock"%string
  /\ Notify.notificationType r <> Some "runningOutSoon"%string
  /\ Notify.daysLeft r = None.
Proof.
  cbv zeta. unfold getNotificationInfo, notification.
  destruct (valid (validateItem (Notify.base s))) eqn:V; cbn [negb];
    [|repeat split; discriminate].
  assert (Z0 : num_is (quantity (Notify.base s)) 0 = false).
  { destruct (num_is (quantity (Notify.base s)) 0) eqn:Z0; [|reflexivity].
    apply zero_quantity_invalid in Z0. congruence. }
  rewrite Z0. unfold number_property. cbn [of_field le].
  repeat match goal with
         | |- context [if ?c then _ else _] => destruct c
         | |- context [match ?c with Some _ => _ | None => _ end] => destruct c
         end;
    cbn; repeat split; discriminate.
Qed.

(** X18.  A record that fails validation gets no notification, only the
    validator's error; a valid record at or below its threshold always gets
    one, of type "belowThreshold" with priority "high", whatever its
    subscription, history or prices. *)
Theorem notification_for_invalid_and_low_items
    (s : Notify.subject) (o : Notify.options) :
  let r := getNotificationInfo s o in
  (valid (validateItem (Notify.base s)) = false ->
   Notify.shouldNotify r = false
   /\ Notify.error r = error (validateItem (Notify.base s))
   /\ Notify.notificationType r = None)
  /\ (lowAndValid (Notify.base s) = true ->
      Notify.shouldNotify r = true
      /\ Notify.notificationType r = Some "belowThreshold"%string
      /\ Notify.priority r = Some "high"%string
      /\ Notify.error r = None).
Proof.
  cbv zeta. unfold getNotificationInfo, notification, lowAndValid. split.
  - intros ->. repeat split; reflexivity.
  - intro H. apply andb_prop in H. destruct H as [V L]. rewrite V.
    cbn [negb].
    assert (Z0 : num_is (quantity (Notify.base s)) 0 = false).
    { destruct (num_is (quantity (Notify.base s)) 0) eqn:Z0; [|reflexivity].
      apply zero_quantity_invalid in Z0. congruence. }
    rewrite Z0, L. repeat split; reflexivity.
Qed.

(** X19.  [getNotificationInfo] notifies exactly when it names a
    notification type, and then it also gives a reason and no error; an
    item that has a subscription, or is bought "asNeeded", is never advised
    to subscribe. *)
Theorem notification_is_consistent
    (s : Notify.subject) (o : Notify.options) :
  let r := getNotificationInfo s o in
  (Notify.shouldNotify r = true <-> Notify.notificationType r <> None)
  /\ (Notify.shouldNotify r = true ->
      Notify.reason r <> None /\ Notify.error r = None)
  /\ (obool_truthy (hasSubscription (Notify.base s)) = true
      \/ str_is (purchaseFrequency (Notify.base s)) "asNeeded" = true ->
      Notify.notificationType r <> Some "subscriptionRecommended"%string
      /\ Notify.notificationType r <> Some "consistentUsage"%string).
Proof.
  cbv zeta. unfold getNotificationInfo, notification.
  destruct (valid (validateItem (Notify.base s))); cbn [negb].
  2:{ cbn. repeat split; try discriminate; congruence. }
  split; [|split].
  - repeat match goal with
           | |- context [if ?c then _ else _] => destruct c
           | |- context [match ?c with Some _ => _ | None => _ end] =>
               destruct c
           end;
      cbn; split; congruence.
  - repeat match goal with
           | |- context [if ?c then _ else _] => destruct c
           | |- context [match ?c with Some _ => _ | None => _ end] =>
               destruct c
           end;
      cbn; intro; split; congruence.
  - intros [H | H]; rewrite H; cbn [negb andb];
      rewrite ?andb_false_r; cbn [andb]; rewrite ?andb_false_r;
      repeat match goal with
             | |- context [if ?c then _ else _] => destruct c
             | |- context [match ?c with Some _ => _ | None => _ end] =>
                 destruct c
             end;
      cbn; split; discriminate.
Qed.

End Notification.

Definition quietSubject (it : item) : Notify.subject :=
  Notify.mkSubject it None None None.

Lemma notification_for_invalid_and_low_items_witness :
  Notify.shouldNotify
    (getNotificationInfo (fun _ => "undefined"%string)
       (quietSubject outOfStockMilk) (Notify.mkOptions None))
  = false
  /\ Notify.notificationType
       (getNotificationInfo (fun _ => "undefined"%string)
          (quietSubject lowRice) (Notify.mkOptions None))
     = Some "belowThreshold"%string.
Proof.
  split.
  - apply (proj1 (@notification_for_invalid_and_low_items
                    (fun _ => "undefined"%string)
                    (quietSubject outOfStockMilk) (Notify.mkOptions None))).
    reflexivity.
  - apply (proj2 (@notification_for_invalid_and_low_items
                    (fun _ => "undefined"%string)
                    (quietSubject lowRice) (Notify.mkOptions None))).
    reflexivity.
Defined.

(** A stocked item with three purchases on record and a subscription. *)
Definition subscribedCoffee : Notify.subject :=
  Notify.mkSubject
    {| itemId := Some "8"%string; name := Some "Coffee"%string;
       quantity := Some 9; category := Some "grocery"%string;
       minThreshold := Some 2; price := Some 6;
       purchaseFrequency := Some "weekly"%string;
       dailyConsumptionRate := None; hasSubscription := Some true;
       optimalOrderQuantity := None; purchaseHistory := Some 3%nat;
       orderQuantity := None; store := None; aisle := None;
       daysLeft := None; confidence := None; suggestedOrderQuantity := None;
       bulkRecommended := None; subscriptionEligible := VUndefined;
       urgency := None; consumptionRate := None; essential := None;
       bulkOrderRecommended := None; regularOrderQuantity := None;
       bulkOrderQuantity := None; bulkOrderSavings := None |}
    (Some true) None (Some [Some 8; Some 8]).

Lemma notification_is_consistent_witness :
  Notify.notificationType
    (getNotificationInfo (fun _ => "undefined"%string) subscribedCoffee
       (Notify.mkOptions None))
  <> Some "subscriptionRecommended"%string
  /\ Notify.reason
       (getNotificationInfo (fun _ => "undefined"%string) subscribedCoffee
          (Notify.mkOptions None))
     <> None.
Proof.
  destruct (@notification_is_consistent (fun _ => "undefined"%string)
              subscribedCoffee (Notify.mkOptions None))
    as (_ & Hreason & Hsub).
  split.
  - apply Hsub. left. reflexivity.
  - apply Hreason. reflexivity.
Defined.

(** The subscribed coffee, priced 6 against an average of 8, gets a price
    drop notification of 25 percent. *)
Example subscribedCoffee_price_drop :
  let r := getNotificationInfo (fun _ => "undefined"%string) subscribedCoffee
             (Notify.mkOptions None) in
  Notify.notificationType r = Some "priceDrop"%string
  /\ Notify.savingsPercentage r = Some (Fin 25).
Proof. split; reflexivity. Qed.

(* ================================================================== *)
(** * calculateReorderDate *)

Module ReorderDate.

Record info : Type := mkInfo {
  formattedDate : string;
  fullDate : option string;
  daysLeft : option Q;
  urgent : option bool;
  confidence : option Q;
  error : option Q
}.

End ReorderDate.

(** A [Date] object is its time value: a finite number of milliseconds, or
    [NaN] for an invalid date.  The calendar itself (time zone, months) is
    left to the host and enters as parameters; what the language fixes is
    modelled: [setDate(NaN)] makes the date invalid, the getters of an
    invalid date return [NaN], and [toISOString] of an invalid date throws a
    [RangeError]. *)
Section Calendar.

Variable dayOfMonth : Q -> Q.
Variable monthIndex : Q -> Q.
Variable withDayOfMonth : Q -> Q -> number.
Variable isoText : Q -> string.
Variable numberText : number -> string.

Definition getDate (timeValue : number) : number :=
  match timeValue with
  | Fin t => Fin (dayOfMonth t)
  | _ => NaN
  end.

Definition getMonth (timeValue : number) : number :=
  match timeValue with
  | Fin t => Fin (monthIndex t)
  | _ => NaN
  end.

Definition setDate (timeValue day : number) : number :=
  match timeValue, day with
  | Fin t, Fin d => withDayOfMonth t d
  | _, _ => NaN
  end.

Definition toISOString (timeValue : number) : outcome string :=
  match timeValue with
  | Fin t => Ok (isoText t)
  | _ => Throw "Invalid time value"
  end.

(** [now] is the time value of [new Date()].  The function has no [try]: an
    exception leaves it. *)
Definition calculateReorderDate (now : Q) (it : item)
    : outcome ReorderDate.info :=
  let result := calculateDaysLeft it in
  if num_truthy (number_property result "error") then
    Ok (ReorderDate.mkInfo "Invalid item" None None None None
          (number_property result "error"))
  else
    let daysLeft := number_property result "daysLeft" in
    if le (of_field daysLeft) (Fin 0) then
      fullDate <- toISOString (Fin now) ;;
      Ok (ReorderDate.mkInfo "Today" (Some fullDate) (Some 0) (Some true)
            None None)
    else
      let reorderDate :=
        setDate (Fin now) (add (getDate (Fin now)) (of_field daysLeft)) in
      let formattedDate :=
        (numberText (add (getMonth reorderDate) (Fin 1)) ++ "/"
         ++ numberText (getDate reorderDate))%string in
      fullDate <- toISOString reorderDate ;;
      Ok (ReorderDate.mkInfo formattedDate (Some fullDate) daysLeft
            (Some (le (of_field daysLeft) (Fin 3)))
            (number_property result "confidence") None).

(** X20.  [calculateReorderDate] never returns: for every item and at every
    instant it throws the [RangeError] of [toISOString].  It reads
    [daysLeft] from the Number that [calculateDaysLeft] returns, gets
    [undefined], moves the date by [NaN] days and asks the invalid date for
    its ISO text. *)
Theorem calculateReorderDate_always_throws (now : Q) (it : item) :
  calculateReorderDate now it = Throw "Invalid time value"
  /\ forall info, calculateReorderDate now it <> Ok info.
Proof.
  assert (E : calculateReorderDate now it = Throw "Invalid time value")
    by reflexivity.
  split; [exact E|]. intros info H. rewrite E in H. discriminate.
Qed.

End Calendar.

(* ================================================================== *)
(** * The rule table of the consumption model *)

Module Predict.

Record baseline : Type := mkBaseline {
  suggestedThreshold : Q;
  suggestedFrequency : string;
  confidence : Q
}.

End Predict.

(** [String.prototype.includes]. *)
Fixpoint includesText (s pattern : string) : bool :=
  if String.prefix pattern s then true
  else
    match s with
    | EmptyString => false
    | String _ rest => includesText rest pattern
    end.

(** [_calculateDailyRate(frequency, threshold)]. *)
Definition _calculateDailyRate (frequency : string) (threshold : Q) : Q :=
  if String.eqb frequency "daily" then threshold * (9 # 10)
  else if String.eqb frequency "weekly" then threshold / 7
  else if String.eqb frequency "biweekly" then threshold / 14
  else if String.eqb frequency "monthly" then threshold / 30
  else threshold / 14.

(** [Math.min(95, Math.max(40, confidence))], the clamp of [predict]. *)
Definition clampConfidence (confidence : Q) : Q :=
  let raised := Math_max 40 confidence in
  if Qle_bool 95 raised then 95 else raised.

Section RuleTable.

(** [String.prototype.toLowerCase], a function of the host. *)
Variable toLowerCase : string -> string.

(** The three blocks of keyword rules; [None] when no rule of the block
    returns.   *)
Definition groceryRules (nameLower : string) : option Predict.baseline :=
  if includesText nameLower "milk" then Some (Predict.mkBaseline 1 "weekly" 85)
  else if includesText nameLower "bread" || includesText nameLower "eggs"
  then Some (Predict.mkBaseline 1 "weekly" 80)
  else if includesText nameLower "coffee" || includesText nameLower "tea"
  then Some (Predict.mkBaseline 1 "biweekly" 75)
  else if includesText nameLower "cereal" || includesText nameLower "oatmeal"
  then Some (Predict.mkBaseline 1 "biweekly" 70)
  else if includesText nameLower "fruit"
          || includesText nameLower "vegetable"
          || includesText nameLower "produce"
  then Some (Predict.mkBaseline 1 "weekly" 85)
  else None.

Definition householdRules (nameLower : string) : option Predict.baseline :=
  if includesText nameLower "paper"
     && (includesText nameLower "towel" || includesText nameLower "toilet")
  then Some (Predict.mkBaseline 2 "biweekly" 90)
  else if includesText nameLower "detergent" || includesText nameLower "soap"
  then Some (Predict.mkBaseline 1 "monthly" 85)
  else if includesText nameLower "battery"
  then Some (Predict.mkBaseline 4 "monthly" 70)
  else if includesText nameLower "cleaner" || includesText nameLower "spray"
  then Some (Predict.mkBaseline 1 "monthly" 75)
  else if includesText nameLower "trash"
          || includesText nameLower "garbage"
          || includesText nameLower "bag"
  then Some (Predict.mkBaseline 1 "monthly" 80)
  else None.

Definition personalRules (nameLower : string) : option Predict.baseline :=
  if includesText nameLower "toothpaste" || includesText nameLower "shampoo"
  then Some (Predict.mkBaseline 1 "monthly" 85)
  else if includesText nameLower "razor" || includesText nameLower "blade"
  then Some (Predict.mkBaseline 1 "monthly" 75)
  else if includesText nameLower "deodorant"
          || includesText nameLower "antiperspirant"
  then Some (Predict.mkBaseline 1 "monthly" 80)
  else if includesText nameLower "makeup" || includesText nameLower "cosmetic"
  then Some (Predict.mkBaseline 1 "biweekly" 65)
  else None.

(** The final [switch (category)]. *)
Definition categoryDefault (category : option string) : Predict.baseline :=
  if str_is category "grocery" then Predict.mkBaseline 2 "weekly" 60
  else if str_is category "household" then Predict.mkBaseline 1 "biweekly" 65
  else if str_is category "personal" then Predict.mkBaseline 1 "monthly" 65
  else if str_is category "electronics" then Predict.mkBaseline 1 "asNeeded" 60
  else if str_is category "office" then Predict.mkBaseline 1 "monthly" 60
  else if str_is category "pets" then Predict.mkBaseline 2 "biweekly" 70
  else Predict.mkBaseline 1 "monthly" 50.

(** A block that applies to the category and returns, or the rest. *)
Definition firstRule
    (applies : bool) (block : option Predict.baseline)
    (rest : Predict.baseline) : Predict.baseline :=
  match (if applies then block else None) with
  | Some p => p
  | None => rest
  end.

Definition _getBaselinePrediction
    (itemName : option string) (category : option string)
    : Predict.baseline :=
  let nameLower := toLowerCase (dflt itemName EmptyString) in
  firstRule (str_is category "grocery") (groceryRules nameLower)
    (firstRule (str_is category "household") (householdRules nameLower)
       (firstRule (str_is category "personal") (personalRules nameLower)
          (categoryDefault category))).

(** Case analysis on every test of the rule table. *)
Ltac rule_cases :=
  unfold _getBaselinePrediction, firstRule, groceryRules, householdRules,
    personalRules, categoryDefault;
  repeat match goal with
         | |- context [if ?c then _ else _] => destruct c
         end.

(** X21.  Whatever the name and the category, the rule table predicts a
    threshold of 1, 2 or 4, a confidence between 50 and 90, which the clamp
    to [40, 95] of [predict] therefore leaves as it is, and a frequency
    that [validateItem] accepts and that is never "daily". *)
Theorem baseline_prediction_ranges
    (itemName : option string) (category : option string) :
  let p := _getBaselinePrediction itemName category in
  (Predict.suggestedThreshold p = 1 \/ Predict.suggestedThreshold p = 2
   \/ Predict.suggestedThreshold p = 4)
  /\ 50 <= Predict.confidence p <= 90
  /\ clampConfidence (Predict.confidence p) = Predict.confidence p
  /\ includes validFrequencies (Predict.suggestedFrequency p) = true
  /\ Predict.suggestedFrequency p <> "daily"%string.
Proof.
  cbv zeta. rule_cases;
    cbn [Predict.suggestedThreshold Predict.confidence
         Predict.suggestedFrequency];
    (split; [tauto|]); (split; [split; discriminate|]);
    (split; [reflexivity|]); (split; [reflexivity | discriminate]).
Qed.

(** X22.  The daily rate that the model derives from a baseline prediction is
    positive and at most two sevenths of a unit per day; the "daily" branch
    of [_calculateDailyRate] is never the one used. *)
Theorem baseline_daily_rate_range
    (itemName : option string) (category : option string) :
  let p := _getBaselinePrediction itemName category in
  let rate :=
    _calculateDailyRate (Predict.suggestedFrequency p)
      (Predict.suggestedThreshold p) in
  0 < rate /\ rate <= 2 # 7.
Proof.
  cbv zeta. rule_cases;
    cbn [Predict.suggestedThreshold Predict.suggestedFrequency];
    split; vm_compute; congruence.
Qed.

(** X23.  Outside the categories "grocery", "household" and "personal" the
    name plays no part: the prediction depends on the category alone. *)
Theorem baseline_ignores_name_elsewhere
    (name1 name2 : option string) (category : option string) :
  str_is category "grocery" = false ->
  str_is category "household" = false ->
  str_is category "personal" = false ->
  _getBaselinePrediction name1 category
  = _getBaselinePrediction name2 category.
Proof.
  intros Hg Hh Hp. unfold _getBaselinePrediction, firstRule, categoryDefault.
  rewrite Hg, Hh, Hp. reflexivity.
Qed.

End RuleTable.

Lemma baseline_ignores_name_elsewhere_witness :
  _getBaselinePrediction (fun s => s) (Some "usb cable"%string)
    (Some "electronics"%string)
  = _getBaselinePrediction (fun s => s) (Some "milk"%string)
      (Some "electronics"%string).
Proof.
  apply baseline_ignores_name_elsewhere; reflexivity.
Defined.

(** First match wins: a household "paper towel soap" is paper, not soap. *)
Example paper_before_soap :
  _getBaselinePrediction (fun s => s) (Some "paper towel soap"%string)
    (Some "household"%string)
  = Predict.mkBaseline 2 "biweekly" 90.
Proof. reflexivity. Qed.

(* ================================================================== *)
(** * generateRestockingRecommendations *)

Module Restock.

(** The item with the one further field this function reads. *)
Record subject : Type := mkSubject {
  base : item;
  replenishmentTime : option Q
}.

(** [{...item, suggestedOrderQuantity}]. *)
Record recommendation : Type := mkRecommendation {
  source : subject;
  suggestedOrderQuantity : number
}.

End Restock.

(** [item.minThreshold * 1.5]. *)
Definition reorderPoint (it : item) : number :=
  mul (of_field (minThreshold it)) (Fin (15 # 10)).

Definition needsRestock (s : Restock.subject) : bool :=
  le (of_field (quantity (Restock.base s))) (reorderPoint (Restock.base s)).

Definition restockQuantity (s : Restock.subject) : number :=
  let it := Restock.base s in
  ceil (add (sub (reorderPoint it) (of_field (quantity it)))
            (mul (of_field (Restock.replenishmentTime s)) (dailyRate it))).

(** The [forEach] pushes one recommendation for each item that passes the
    test, in order. *)
Definition generateRestockingRecommendations
    (inventory : list Restock.subject) : list Restock.recommendation :=
  map (fun s => Restock.mkRecommendation s (restockQuantity s))
    (filter needsRestock inventory).

(** X24.  [generateRestockingRecommendations] does not validate: an item with
    quantity [0] and a threshold that is not negative is always recommended
    (the reorder suggestions drop it).  A recommendation for an item without
    [replenishmentTime] carries the order quantity [NaN]. *)
Theorem restocking_keeps_out_of_stock_items
    (inventory : list Restock.subject) :
  (forall s m,
     In s inventory ->
     quantity (Restock.base s) = Some 0 ->
     minThreshold (Restock.base s) = Some m -> 0 <= m ->
     In (Restock.mkRecommendation s (restockQuantity s))
        (generateRestockingRecommendations inventory))
  /\ (forall r,
        In r (generateRestockingRecommendations inventory) ->
        Restock.replenishmentTime (Restock.source r) = None ->
        Restock.suggestedOrderQuantity r = NaN).
Proof.
  unfold generateRestockingRecommendations. split.
  - intros s m Hin Hq Hm Hpos. apply in_map_iff. exists s.
    split; [reflexivity|]. apply filter_In. split; [exact Hin|].
    unfold needsRestock, reorderPoint. rewrite Hq, Hm. cbn.
    apply Qle_bool_iff.
    apply Qmult_le_0_compat; [exact Hpos | discriminate].
  - intros r Hin Hr. apply in_map_iff in Hin.
    destruct Hin as (s & <- & _). cbn in *.
    unfold restockQuantity. rewrite Hr. cbn [of_field].
    destruct (sub _ _), (dailyRate (Restock.base s)); reflexivity.
Qed.

Lemma restocking_keeps_out_of_stock_items_witness :
  In (Restock.mkRecommendation (Restock.mkSubject outOfStockMilk None) NaN)
     (generateRestockingRecommendations
        [Restock.mkSubject outOfStockMilk None]).
Proof.
  apply (proj1 (restocking_keeps_out_of_stock_items
                  [Restock.mkSubject outOfStockMilk None])
           (Restock.mkSubject outOfStockMilk None) 2).
  - left. reflexivity.
  - reflexivity.
  - reflexivity.
  - discriminate.
Defined.

Lemma ceil_nonneg (q : Q) : 0 <= q -> (0 <= Qceiling q)%Z.
Proof.
  intro H. rewrite <- (Qceiling_Z 0). now apply Qceiling_resp_le.
Qed.

(** X25.  For a recommended item with a replenishment time and a daily rate
    that are not negative, the recommended order is a whole number, not
    negative, and at least the shortfall [1.5 * minThreshold - quantity]. *)
Theorem restocking_covers_the_shortfall
    (inventory : list Restock.subject) (r : Restock.recommendation)
    (t d : Q) :
  In r (generateRestockingRecommendations inventory) ->
  Restock.replenishmentTime (Restock.source r) = Some t -> 0 <= t ->
  dailyRate (Restock.base (Restock.source r)) = Fin d -> 0 <= d ->
  exists (n : Z) (q m : Q),
    Restock.suggestedOrderQuantity r = Fin (inject_Z n)
    /\ quantity (Restock.base (Restock.source r)) = Some q
    /\ minThreshold (Restock.base (Restock.source r)) = Some m
    /\ (0 <= n)%Z
    /\ m * (15 # 10) - q <= inject_Z n.
Proof.
  unfold generateRestockingRecommendations.
  intros Hin Ht Htpos Hd Hdpos. apply in_map_iff in Hin.
  destruct Hin as (s & <- & Hs). apply filter_In in Hs.
  destruct Hs as [_ Hs]. cbn [Restock.source Restock.suggestedOrderQuantity] in *.
  unfold needsRestock, reorderPoint in Hs. unfold restockQuantity, reorderPoint.
  rewrite Ht, Hd.
  destruct (quantity (Restock.base s)) as [q|]; [|discriminate].
  destruct (minThreshold (Restock.base s)) as [m|]; [|discriminate].
  cbn in Hs. apply Qle_bool_iff in Hs. cbn.
  exists (Qceiling (m * (15 # 10) + - q + t * d)), q, m.
  assert (Htd : 0 <= t * d) by now apply Qmult_le_0_compat.
  repeat split.
  - apply ceil_nonneg. lra.
  - eapply Qle_trans; [|apply Qle_ceiling]. lra.
Qed.

Definition lowRiceRestock : Restock.subject :=
  Restock.mkSubject lowRice (Some 3).

Lemma restocking_covers_the_shortfall_witness :
  exists (n : Z) (q m : Q),
    restockQuantity lowRiceRestock = Fin (inject_Z n)
    /\ quantity lowRice = Some q
    /\ minThreshold lowRice = Some m
    /\ (0 <= n)%Z
    /\ m * (15 # 10) - q <= inject_Z n.
Proof.
  apply (@restocking_covers_the_shortfall [lowRiceRestock]
           (Restock.mkRecommendation lowRiceRestock
              (restockQuantity lowRiceRestock)) 3 (2 / 14)).
  - left. reflexivity.
  - reflexivity.
  - discriminate.
  - reflexivity.
  - discriminate.
Defined.

(** The low rice (1 in stock, threshold 2, three days to replenish) is
    restocked with 3 units. *)
Example lowRice_restock :
  map Restock.suggestedOrderQuantity
    (generateRestockingRecommendations [lowRiceRestock])
  = [Fin 3].
Proof. reflexivity. Qed.

(* ================================================================== *)
(** * The status shown by the inventory table *)

(** [getItemStatus] of the table component. *)
Definition getItemStatus (it : item) : string :=
  if num_is (quantity it) 0 then "out"
  else if le (of_field (quantity it)) (of_field (minThreshold it)) then "low"
  else "ok".

(** The status filter of the table: [filters.status] is "all", "low", "out"
    or "ok"; anything else filters nothing. *)
Definition filterByStatus (status : string) (l : list item) : list item :=
  if String.eqb status "all" then l
  else if String.eqb status "low" then
    filter (fun it => le (of_field (quantity it)) (of_field (minThreshold it))) l
  else if String.eqb status "out" then
    filter (fun it => num_is (quantity it) 0) l
  else if String.eqb status "ok" then
    filter (fun it => gt (of_field (quantity it)) (of_field (minThreshold it))) l
  else l.

Lemma gt_not_le (x y : number) : gt x y = true -> le x y = false.
Proof.
  unfold gt. destruct x as [| | |p], y as [| | |q]; cbn; try congruence.
  unfold Qlt_bool. now rewrite negb_true_iff.
Qed.

(** X26.  The filter "out" shows exactly the items whose status is "out".
    An item shown under "ok" has status "ok" unless its quantity is [0]; an
    item shown under "low" has status "low" or "out".  An item in stock that
    has no threshold has status "ok" but is shown under neither "low" nor
    "ok". *)
Theorem status_filters_and_status (l : list item) :
  filterByStatus "out" l
  = filter (fun it => String.eqb (getItemStatus it) "out") l
  /\ Forall (fun it => getItemStatus it = "ok"%string
                       \/ num_is (quantity it) 0 = true)
       (filterByStatus "ok" l)
  /\ Forall (fun it => getItemStatus it = "low"%string
                       \/ getItemStatus it = "out"%string)
       (filterByStatus "low" l)
  /\ (forall it,
        minThreshold it = None -> num_is (quantity it) 0 = false ->
        getItemStatus it = "ok"%string
        /\ ~ In it (filterByStatus "low" l)
        /\ ~ In it (filterByStatus "ok" l)).
Proof.
  unfold filterByStatus. cbn [String.eqb Ascii.eqb Bool.eqb].
  split; [|split; [|split]].
  - apply filter_ext_item. intro it. unfold getItemStatus.
    destruct (num_is (quantity it) 0); [reflexivity|].
    destruct (le _ _); reflexivity.
  - apply Forall_forall. intros it Hin. apply filter_In in Hin.
    destruct Hin as [_ H]. unfold getItemStatus.
    destruct (num_is (quantity it) 0); [now right|].
    rewrite (gt_not_le _ _ H). now left.
  - apply Forall_forall. intros it Hin. apply filter_In in Hin.
    destruct Hin as [_ H]. unfold getItemStatus. rewrite H.
    destruct (num_is (quantity it) 0); tauto.
  - intros it Hm Hq. unfold getItemStatus. rewrite Hq, Hm.
    assert (L : le (of_field (quantity it)) (of_field None) = false)
      by (destruct (quantity it); reflexivity).
    assert (G : gt (of_field (quantity it)) (of_field None) = false)
      by (destruct (quantity it); reflexivity).
    rewrite L. split; [reflexivity|].
    split; intro Hin; apply filter_In in Hin; destruct Hin as [_ H];
      rewrite Hm in H; congruence.
Qed.

Definition saltNoThreshold : item :=
  inventoryItem (Some "9"%string) (Some "Salt"%string) (Some 5)
    (Some "grocery"%string) None None None.

Lemma status_filters_and_status_witness :
  getItemStatus saltNoThreshold = "ok"%string
  /\ ~ In saltNoThreshold (filterByStatus "low" [saltNoThreshold; lowRice])
  /\ ~ In saltNoThreshold (filterByStatus "ok" [saltNoThreshold; lowRice]).
Proof.
  apply (proj2 (proj2 (proj2 (status_filters_and_status
                                [saltNoThreshold; lowRice])))
           saltNoThreshold); reflexivity.
Defined.

(* ================================================================== *)
(** * The bulk step of the reorder plan *)

Lemma Qceiling_three_halves (n : Z) :
  (3 * n <= 2 * Qceiling (inject_Z n * (15 # 10)) < 3 * n + 2)%Z.
Proof.
  pose proof (Qle_ceiling (inject_Z n * (15 # 10))) as Hle.
  pose proof (Qceiling_lt (inject_Z n * (15 # 10))) as Hlt.
  set (c := Qceiling (inject_Z n * (15 # 10))) in *.
  unfold Qle in Hle. unfold Qlt in Hlt.
  cbn [Qnum Qden inject_Z Qmult] in Hle, Hlt. lia.
Qed.

(** X28.  For an item with a positive price, a whole positive
    [suggestedOrderQuantity] and no [orderQuantity] of its own, the bulk step
    of [generateSmartReorderPlan] recommends the bulk order exactly when the
    item's bulk rate is above 7%; the bulk quantity is then the regular one
    times one and a half, rounded up; otherwise the item is left as it
    is. *)
Theorem bulk_order_quantity (it : item) (p : Q) (n : Z) :
  orderQuantity it = None ->
  price it = Some p -> 0 < p ->
  suggestedOrderQuantity it = Some (inject_Z n) -> (0 < n)%Z ->
  (7 # 100 < bulkDiscountRate it ->
   exists bulk : Z,
     bulkOrderRecommended (withBulkOrder it) = Some true
     /\ regularOrderQuantity (withBulkOrder it) = Some (inject_Z n)
     /\ bulkOrderQuantity (withBulkOrder it) = Some (inject_Z bulk)
     /\ (3 * n <= 2 * bulk < 3 * n + 2)%Z)
  /\ (bulkDiscountRate it <= 7 # 100 -> withBulkOrder it = it).
Proof.
  intros Ho Hp Hppos Hq Hnpos.
  set (q := inject_Z n) in *.
  assert (Hqpos : 0 < q).
  { unfold q, Qlt. cbn [Qnum Qden inject_Z]. lia. }
  assert (Hoq : orderQuantityOf it = q).
  { unfold orderQuantityOf, num_or. rewrite Ho, Hq.
    assert (Z : is_zero q = false)
      by (apply pos_not_zero; now apply Qlt_bool_true).
    now rewrite Z. }
  assert (Hz : is_zero p = false)
    by (apply pos_not_zero; now apply Qlt_bool_true).
  assert (Hd : calculateBulkSavings (Some [it])
               == p * q * bulkDiscountRate it).
  { cbn [calculateBulkSavings fold_left]. rewrite bulkReducer_step.
    rewrite Hp, Hoq. cbn [dflt]. ring. }
  assert (Hpq : 0 < p * q).
  { rewrite <- (Qmult_0_l q). now apply Qmult_lt_compat_r. }
  unfold withBulkOrder, num_truthy. rewrite Hp, Hq, Hz. cbn [negb dflt].
  destruct (Qlt_bool (p * q * (7 # 100)) (calculateBulkSavings (Some [it])))
    eqn:C.
  - apply Qlt_bool_true in C. rewrite Hd in C.
    cbn [bulkOrderRecommended regularOrderQuantity bulkOrderQuantity].
    split.
    + intros _. exists (Qceiling (q * (15 # 10))).
      repeat split; apply Qceiling_three_halves.
    + intro Hle. exfalso.
      assert (H1 : p * q * bulkDiscountRate it <= p * q * (7 # 100)).
      { rewrite !(Qmult_comm (p * q)).
        apply Qmult_le_compat_r; [exact Hle | now apply Qlt_le_weak]. }
      lra.
  - split; [|reflexivity].
    intro Hlt. exfalso.
    assert (Hle : calculateBulkSavings (Some [it]) <= p * q * (7 # 100)).
    { apply Qnot_lt_le. intro H. apply Qlt_bool_true in H. congruence. }
    rewrite Hd in Hle.
    assert (H1 : p * q * (7 # 100) < p * q * bulkDiscountRate it).
    { rewrite !(Qmult_comm (p * q)). now apply Qmult_lt_compat_r. }
    lra.
Qed.

Definition pastaSuggestion : item := toSuggestion Suggest.noOptions lowPasta.

Lemma bulk_order_quantity_witness :
  (7 # 100 < bulkDiscountRate pastaSuggestion ->
   exists bulk : Z,
     bulkOrderRecommended (withBulkOrder pastaSuggestion) = Some true
     /\ regularOrderQuantity (withBulkOrder pastaSuggestion)
        = Some (inject_Z 4)
     /\ bulkOrderQuantity (withBulkOrder pastaSuggestion)
        = Some (inject_Z bulk)
     /\ (3 * 4 <= 2 * bulk < 3 * 4 + 2)%Z)
  /\ (bulkDiscountRate pastaSuggestion <= 7 # 100 ->
      withBulkOrder pastaSuggestion = pastaSuggestion).
Proof.
  apply (@bulk_order_quantity pastaSuggestion 3 4); reflexivity.
Defined.

Example pastaSuggestion_bulk_order :
  bulkOrderRecommended (withBulkOrder pastaSuggestion) = Some true
  /\ bulkOrderQuantity (withBulkOrder pastaSuggestion) = Some 6.
Proof. vm_compute. split; reflexivity. Qed.

(* ================================================================== *)
(** * inferOptimalFrequency *)

Module History.

(** The item together with the time values, in milliseconds, of
    [new Date(entry.date)] for the entries of its [purchaseHistory] (every
    date is taken to be a valid one); [None] when the item has no
    history. *)
Record subject : Type := mkSubject {
  base : item;
  purchaseTimes : option (list Z)
}.

End History.

(** [dates.sort((a, b) => a - b)], with the insertion scheme of
    [arraySort]. *)
Fixpoint insertDate (x : Z) (l : list Z) : list Z :=
  match l with
  | [] => [x]
  | y :: rest =>
      if (0 <? x - y)%Z then y :: insertDate x rest else x :: l
  end.

Fixpoint sortDates (l : list Z) : list Z :=
  match l with
  | [] => []
  | x :: rest => insertDate x (sortDates rest)
  end.

(** [1000 * 60 * 60 * 24]. *)
Definition millisecondsPerDay : Z := 1000 * 60 * 60 * 24.

(** The loop that pushes
    [Math.floor((dates[i] - dates[i-1]) / millisecondsPerDay)]. *)
Fixpoint intervalsAfter (previous : Z) (dates : list Z) : list Z :=
  match dates with
  | [] => []
  | d :: rest =>
      ((d - previous) / millisecondsPerDay)%Z :: intervalsAfter d rest
  end.

Definition intervalsOf (dates : list Z) : list Z :=
  match dates with
  | [] => []
  | d :: rest => intervalsAfter d rest
  end.

(** [intervals.reduce((sum, i) => sum + i, 0) / intervals.length]. *)
Definition averageInterval (intervals : list Z) : number :=
  div (Fin (inject_Z (fold_left Z.add intervals 0%Z)))
      (Fin (inject_Z (Z.of_nat (List.length intervals)))).

(** The final chain of tests on [avgInterval]. *)
Definition frequencyOfInterval (avgInterval : number) : string :=
  if le avgInterval (Fin 2) then "daily"
  else if le avgInterval (Fin 10) then "weekly"
  else if le avgInterval (Fin 18) then "biweekly"
  else if le avgInterval (Fin 45) then "monthly"
  else "asNeeded".

Definition inferOptimalFrequency (s : History.subject) : string :=
  let own :=
    if ostr_truthy (purchaseFrequency (History.base s))
    then dflt (purchaseFrequency (History.base s)) "monthly"%string
    else "monthly"%string in
  match History.purchaseTimes s with
  | None => own
  | Some times =>
      if (List.length times <? 2)%nat then own
      else
        let purchaseDates := sortDates times in
        frequencyOfInterval (averageInterval (intervalsOf purchaseDates))
  end.

Lemma insertDate_perm (x : Z) (l : list Z) :
  Permutation (x :: l) (insertDate x l).
Proof.
  induction l as [|y rest IH]; cbn [insertDate]; [apply Permutation_refl|].
  destruct (0 <? x - y)%Z.
  - eapply perm_trans; [apply perm_swap|]. now apply perm_skip.
  - apply Permutation_refl.
Qed.

Lemma sortDates_perm (l : list Z) : Permutation l (sortDates l).
Proof.
  induction l as [|x rest IH]; cbn [sortDates]; [apply perm_nil|].
  eapply perm_trans; [apply perm_skip, IH | apply insertDate_perm].
Qed.

Lemma insertDate_sorted (x : Z) (l : list Z) :
  StronglySorted Z.le l -> StronglySorted Z.le (insertDate x l).
Proof.
  induction 1 as [|y rest Hs IH Hall]; cbn [insertDate].
  - repeat constructor.
  - destruct (0 <? x - y)%Z eqn:C.
    + apply Z.ltb_lt in C. constructor; [exact IH|].
      apply Forall_forall. intros z Hz.
      apply (Permutation_in _ (Permutation_sym (insertDate_perm x rest)))
        in Hz.
      destruct Hz as [<-|Hz]; [lia|].
      rewrite Forall_forall in Hall. now apply Hall.
    + apply Z.ltb_ge in C. constructor; [now constructor|].
      constructor; [lia|].
      apply Forall_forall. intros z Hz.
      rewrite Forall_forall in Hall. specialize (Hall z Hz). lia.
Qed.

Lemma sortDates_sorted (l : list Z) : StronglySorted Z.le (sortDates l).
Proof.
  induction l as [|x rest IH]; cbn [sortDates]; [constructor|].
  now apply insertDate_sorted.
Qed.

(** Two sorted lists with the same elements are the same list. *)
Lemma sorted_perm_eq (l1 l2 : list Z) :
  StronglySorted Z.le l1 -> StronglySorted Z.le l2 ->
  Permutation l1 l2 -> l1 = l2.
Proof.
  intros H1. revert l2.
  induction H1 as [|x rest1 Hs1 IH Hall1]; intros l2 H2 HP.
  - now apply Permutation_nil in HP.
  - destruct H2 as [|y rest2 Hs2 Hall2].
    + apply Permutation_sym, Permutation_nil in HP. discriminate.
    + assert (x = y) as <-.
      { rewrite Forall_forall in Hall1, Hall2.
        assert (Hy : In y (x :: rest1))
          by (apply (Permutation_in _ (Permutation_sym HP)); now left).
        assert (Hx : In x (y :: rest2))
          by (apply (Permutation_in _ HP); now left).
        destruct Hy as [?|Hy]; [assumption|].
        destruct Hx as [?|Hx]; [congruence|].
        specialize (Hall1 _ Hy). specialize (Hall2 _ Hx). lia. }
      f_equal. apply IH; [exact Hs2|].
      now apply Permutation_cons_inv in HP.
Qed.

Lemma sortDates_of_perm (l1 l2 : list Z) :
  Permutation l1 l2 -> sortDates l1 = sortDates l2.
Proof.
  intro HP. apply sorted_perm_eq; try apply sortDates_sorted.
  eapply perm_trans; [apply Permutation_sym, sortDates_perm|].
  eapply perm_trans; [exact HP | apply sortDates_perm].
Qed.

Lemma frequencyOfInterval_valid (avg : number) :
  In (frequencyOfInterval avg) validFrequencies.
Proof.
  unfold frequencyOfInterval, validFrequencies.
  repeat match goal with
         | |- context [if ?c then _ else _] => destruct c
         end; cbn; tauto.
Qed.

(** X29.  With two or more dated purchases, [inferOptimalFrequency] returns
    one of the five frequencies of the validator, and the result depends
    neither on the item's own fields nor on the order of the entries of the
    purchase history. *)
Theorem inferred_frequency_ignores_order
    (base1 base2 : item) (times1 times2 : list Z) :
  (2 <= List.length times1)%nat ->
  Permutation times1 times2 ->
  inferOptimalFrequency (History.mkSubject base1 (Some times1))
  = inferOptimalFrequency (History.mkSubject base2 (Some times2))
  /\ In (inferOptimalFrequency (History.mkSubject base1 (Some times1)))
        validFrequencies.
Proof.
  intros Hlen HP.
  assert (Hlen2 : (2 <= List.length times2)%nat)
    by now rewrite <- (Permutation_length HP).
  unfold inferOptimalFrequency. cbn [History.purchaseTimes].
  apply Nat.ltb_ge in Hlen, Hlen2. rewrite Hlen, Hlen2.
  rewrite (sortDates_of_perm HP). split; [reflexivity|].
  apply frequencyOfInterval_valid.
Qed.

Lemma inferred_frequency_ignores_order_witness :
  inferOptimalFrequency
    (History.mkSubject lowRice (Some [0; 1209600000; 604800000]%Z))
  = inferOptimalFrequency
      (History.mkSubject lowPasta (Some [604800000; 0; 1209600000]%Z))
  /\ In (inferOptimalFrequency
           (History.mkSubject lowRice (Some [0; 1209600000; 604800000]%Z)))
        validFrequencies.
Proof.
  apply (@inferred_frequency_ignores_order lowRice lowPasta
           [0; 1209600000; 604800000]%Z [604800000; 0; 1209600000]%Z).
  - cbn. lia.
  - eapply perm_trans; [apply perm_skip, perm_swap | apply perm_swap].
Defined.

(** Purchases every [days] days, starting at [start]. *)
Fixpoint everyDays (start days : Z) (count : nat) : list Z :=
  match count with
  | O => []
  | S n => start :: everyDays (start + days * millisecondsPerDay) days n
  end.

Lemma everyDays_lower (days : Z) (count : nat) :
  (0 <= days)%Z ->
  forall start, Forall (fun t => (start <= t)%Z) (everyDays start days count).
Proof.
  intros Hd. induction count as [|n IH]; intro start; cbn [everyDays];
    constructor; [lia|].
  eapply Forall_impl; [|apply IH].
  cbn beta. intros t Ht. unfold millisecondsPerDay in *. lia.
Qed.

Lemma everyDays_sorted (days : Z) (count : nat) :
  (0 <= days)%Z ->
  forall start, StronglySorted Z.le (everyDays start days count).
Proof.
  intros Hd. induction count as [|n IH]; intro start; cbn [everyDays];
    constructor; [apply IH|].
  eapply Forall_impl; [|apply (everyDays_lower n Hd)].
  cbn beta. intros t Ht. unfold millisecondsPerDay in *. lia.
Qed.

Lemma intervalsAfter_everyDays (days : Z) (count : nat) (start : Z) :
  intervalsAfter start
    (everyDays (start + days * millisecondsPerDay) days count)
  = repeat days count.
Proof.
  revert start. induction count as [|n IH]; intro start;
    cbn [everyDays intervalsAfter repeat]; [reflexivity|].
  rewrite IH. f_equal.
  replace (start + days * millisecondsPerDay - start)%Z
    with (days * millisecondsPerDay)%Z by lia.
  apply Z.div_mul. discriminate.
Qed.

Lemma fold_add_repeat (days : Z) (count : nat) (acc : Z) :
  fold_left Z.add (repeat days count) acc = (acc + Z.of_nat count * days)%Z.
Proof.
  revert acc. induction count as [|n IH]; intro acc;
    cbn [repeat fold_left]; [lia|].
  rewrite IH. lia.
Qed.

Lemma frequencyOfInterval_Qeq (q1 q2 : Q) :
  q1 == q2 -> frequencyOfInterval (Fin q1) = frequencyOfInterval (Fin q2).
Proof.
  intro H. unfold frequencyOfInterval, le.
  assert (E : forall c, Qle_bool q1 c = Qle_bool q2 c)
    by (intro c; apply Qleb_comp; [exact H | reflexivity]).
  now rewrite !E.
Qed.

Lemma Qle_bool_inject_Z (a b : Z) :
  Qle_bool (inject_Z a) (inject_Z b) = (a <=? b)%Z.
Proof.
  unfold Qle_bool. cbn. now rewrite !Z.mul_1_r.
Qed.

(** X30.  A history of two or more purchases made every [days] days, given
    in any order, is classified by [days] alone: "daily" up to 2 days,
    "weekly" up to 10, "biweekly" up to 18, "monthly" up to 45 and
    "asNeeded" beyond. *)
Theorem regular_history_frequency
    (base : item) (times : list Z) (start days : Z) (count : nat) :
  (0 <= days)%Z -> (2 <= count)%nat ->
  Permutation times (everyDays start days count) ->
  inferOptimalFrequency (History.mkSubject base (Some times))
  = (if (days <=? 2)%Z then "daily"
     else if (days <=? 10)%Z then "weekly"
     else if (days <=? 18)%Z then "biweekly"
     else if (days <=? 45)%Z then "monthly"
     else "asNeeded")%string.
Proof.
  intros Hd Hc HP.
  assert (Hlen : List.length times = count).
  { rewrite (Permutation_length HP). clear. revert start.
    induction count as [|n IH]; intro start; cbn [everyDays List.length];
      [reflexivity | now rewrite IH]. }
  assert (Hs : sortDates times = everyDays start days count).
  { apply sorted_perm_eq;
      [apply sortDates_sorted | now apply everyDays_sorted |].
    eapply perm_trans; [apply Permutation_sym, sortDates_perm | exact HP]. }
  unfold inferOptimalFrequency. cbn [History.purchaseTimes].
  rewrite Hlen, Hs. destruct count as [|n]; [lia|].
  replace (S n <? 2)%nat with false
    by (symmetry; apply Nat.ltb_ge; lia).
  cbn [everyDays intervalsOf]. rewrite intervalsAfter_everyDays.
  unfold averageInterval. rewrite fold_add_repeat, repeat_length.
  assert (Hq : ~ inject_Z (Z.of_nat n) == 0).
  { unfold Qeq. cbn [Qnum Qden inject_Z]. lia. }
  assert (Z : is_zero (inject_Z (Z.of_nat n)) = false).
  { unfold is_zero. apply Bool.not_true_iff_false. intro E.
    now apply Qeq_bool_iff in E. }
  unfold div. rewrite Z.
  rewrite (@frequencyOfInterval_Qeq _ (inject_Z days)).
  - unfold frequencyOfInterval, le.
    change 2 with (inject_Z 2). change 10 with (inject_Z 10).
    change 18 with (inject_Z 18). change 45 with (inject_Z 45).
    now rewrite !Qle_bool_inject_Z.
  - rewrite Z.add_0_l, inject_Z_mult. field. exact Hq.
Qed.

Lemma regular_history_frequency_witness :
  inferOptimalFrequency
    (History.mkSubject lowRice (Some [259200000; 0; 518400000]%Z))
  = (if (3 <=? 2)%Z then "daily"
     else if (3 <=? 10)%Z then "weekly"
     else if (3 <=? 18)%Z then "biweekly"
     else if (3 <=? 45)%Z then "monthly"
     else "asNeeded")%string.
Proof.
  apply (@regular_history_frequency lowRice
           [259200000; 0; 518400000]%Z 0%Z 3%Z 3%nat).
  - lia.
  - lia.
  - apply perm_swap.
Defined.
